(** * Quantara: the deterministic scoring and ranking pipeline

    A shallow embedding of the three services under
    [backend/app/services]: [risk_engine.py], [signal_engine.py] and
    [recommendation_engine.py], followed by the properties the
    specification states about them.

    Conventions of the embedding.
    - A Python [float] is an exact rational ([Q]); IEEE-754 rounding,
      infinities and NaN are outside that model.  A Python [int] that is
      only counted or compared is a [Z], injected into [Q] where the code
      mixes it with floats.  Where a property names the very number the
      code returns, the function is also given in binary64 arithmetic
      (module [Binary64]), the arithmetic of a Python [float].
    - [Optional[T]] is [option T]; a [dict] read through [.get(k, d)] is a
      record of optional fields read through [get].
    - The built-ins [min], [max], [sum], [sorted]/[list.sort] and the slice
      [l[:n]] are written out with the behaviour CPython documents for
      them (first minimal/maximal argument, left fold from [0], stable
      sort, negative bounds counted from the end).
    - [datetime.utcnow()] is the one ambient value the services read; it is
      an explicit argument [now] of the detectors.
    - Calls to [logger.info] only emit text and are left out. *)

From Stdlib Require Import QArith Qabs Qround Qminmax Lqa ZArith Lia Bool.
From Stdlib Require Import List String Ascii DecimalString.
From Stdlib Require Import Permutation Sorted.
From Stdlib Require OrderedTypeEx.
From Stdlib Require Import Floats.
Import ListNotations.

Open Scope Q_scope.

(** ** Python built-ins over rationals *)

Module Py.

(** [x < y] as a test; the other comparisons of the code are derived
    from it and from [Qle_bool]. *)
Definition ltb (x y : Q) : bool := negb (Qle_bool y x).
Definition leb (x y : Q) : bool := Qle_bool x y.
Definition eqb (x y : Q) : bool := Qeq_bool x y.

(** [min(a, b)]: the first argument unless the second is strictly
    smaller. *)
Definition min (a b : Q) : Q := if ltb b a then b else a.

(** [max(a, b)]: the first argument unless the second is strictly
    larger. *)
Definition max (a b : Q) : Q := if ltb a b then b else a.

(** [sum(xs)]: a left fold that starts from [0]. *)
Definition sum (xs : list Q) : Q := fold_left Qplus xs 0.

(** [len(xs)] as a number. *)
Definition len {A} (xs : list A) : Q := inject_Z (Z.of_nat (List.length xs)).

(** [d.get(k, default)] on an optional field. *)
Definition get {A} (field : option A) (default : A) : A :=
  match field with Some v => v | None => default end.

(** [table.get(key, default)] on a dict literal, kept as the list of its
    items. *)
Fixpoint lookup {V} (table : list (string * V)) (key : string) : option V :=
  match table with
  | [] => None
  | (k, v) :: rest => if String.eqb k key then Some v else lookup rest key
  end.

(** [l[:n]]: the first [n] items, or all but the last [-n] when [n] is
    negative. *)
Definition slice_to {A} (l : list A) (n : Z) : list A :=
  if (0 <=? n)%Z then firstn (Z.to_nat n) l
  else firstn (List.length l - Z.to_nat (- n)) l.

(** [sorted(l, key=key, reverse=True)] and [l.sort(key=key, reverse=True)]:
    descending by key, items with equal keys in their original order.
    An item is put in front of the first item whose key is not strictly
    greater than its own. *)
Section Sorting.
Context {A : Type} (key : A -> Q).

Fixpoint insert_desc (x : A) (l : list A) : list A :=
  match l with
  | [] => [x]
  | y :: l' => if ltb (key x) (key y) then y :: insert_desc x l'
               else x :: l
  end.

Definition sorted_desc (l : list A) : list A :=
  fold_right insert_desc [] l.
End Sorting.

(** [enumerate(l, start)]. *)
Fixpoint enumerate {A} (l : list A) (start : Z) : list (Z * A) :=
  match l with
  | [] => []
  | x :: l' => (start, x) :: enumerate l' (start + 1)%Z
  end.

(** [f"{x:.1f}"]: one decimal, ties to the even digit. *)
Definition round_half_even (q : Q) : Z :=
  let f := Qfloor q in
  let r := q - inject_Z f in
  if ltb r (1#2) then f
  else if ltb (1#2) r then (f + 1)%Z
  else if Z.even f then f else (f + 1)%Z.

Definition str_of_nat_Z (z : Z) : string :=
  NilZero.string_of_uint (N.to_uint (Z.to_N z)).

Definition format_1f (q : Q) : string :=
  let t := round_half_even (Qabs q * 10) in
  ((if ltb q 0 then "-" else "") ++
   str_of_nat_Z (t / 10) ++ "." ++ str_of_nat_Z (t mod 10))%string.

End Py.

(** ** risk_engine.py *)

Inductive RiskLevel : Type := CONSERVATIVE | MODERATE | AGGRESSIVE.

(** The [value] of a [RiskLevel] member. *)
Definition RiskLevel_value (l : RiskLevel) : string :=
  match l with
  | CONSERVATIVE => "Conservative"
  | MODERATE => "Moderate"
  | AGGRESSIVE => "Aggressive"
  end.

Record RiskComponents : Type := mkRiskComponents {
  volatility_score : Q;
  beta_score : Q;
  leverage_score : Q;
  earnings_stability_score : Q;
  sector_risk_score : Q;
  valuation_risk_score : Q
}.

Module RiskAnalysis.
Record t : Type := mk {
  ticker : string;
  overall_risk_score : Q;
  risk_level : RiskLevel;
  components : RiskComponents;
  risk_band : string;
  explanation : string
}.
End RiskAnalysis.

Module RiskEngine.

Definition WEIGHTS_volatility : Q := 0.20.
Definition WEIGHTS_beta : Q := 0.15.
Definition WEIGHTS_leverage : Q := 0.20.
Definition WEIGHTS_earnings_stability : Q := 0.15.
Definition WEIGHTS_sector : Q := 0.10.
Definition WEIGHTS_valuation : Q := 0.20.

Definition CONSERVATIVE_THRESHOLD : Q := 33.33.
Definition MODERATE_THRESHOLD : Q := 66.67.

Definition SECTOR_RISK_MAP : list (string * Q) :=
  [ ("Technology", 65); ("Healthcare", 55); ("Financials", 60);
    ("Energy", 70); ("Utilities", 30); ("Consumer Staples", 35);
    ("Consumer Discretionary", 55); ("Industrials", 50);
    ("Materials", 60); ("Real Estate", 50);
    ("Communication Services", 55) ]%string.

Definition calculate_volatility_score
    (historical_volatility : Q) (volatility_percentile : option Q) : Q :=
  let vol_pct := historical_volatility * 100 in
  let base_score := Py.min (vol_pct * 2) 100 in
  let base_score :=
    match volatility_percentile with
    | Some p => (base_score * 0.6) + (p * 0.4)
    | None => base_score
    end in
  Py.min (Py.max base_score 0) 100.

Definition calculate_beta_score (beta : Q) : Q :=
  if Py.ltb beta 0 then Py.max 0 (50 + (beta * 25))
  else
    let score := beta * 50 in
    Py.min (Py.max score 0) 100.

Definition calculate_leverage_score
    (debt_to_equity : Q) (interest_coverage : option Q) : Q :=
  let de_score := Py.min ((debt_to_equity / 3.0) * 100) 100 in
  let de_score :=
    match interest_coverage with
    | Some ic =>
        let coverage_penalty :=
          if Py.ltb ic 1.5 then 30
          else if Py.ltb ic 3.0 then 15
          else if Py.ltb ic 5.0 then 5
          else 0 in
        Py.min (de_score + coverage_penalty) 100
    | None => de_score
    end in
  Py.min (Py.max de_score 0) 100.

Definition calculate_earnings_stability_score
    (earnings_volatility : Q) (consecutive_profitable_quarters : Z) : Q :=
  let volatility_score := Py.min (earnings_volatility * 100) 100 in
  let stability_bonus :=
    if (12 <=? consecutive_profitable_quarters)%Z then -30
    else if (8 <=? consecutive_profitable_quarters)%Z then -20
    else if (4 <=? consecutive_profitable_quarters)%Z then -10
    else 20 in
  let final_score := volatility_score + stability_bonus in
  Py.min (Py.max final_score 0) 100.

Definition calculate_sector_risk_score (sector : string) : Q :=
  Py.get (Py.lookup SECTOR_RISK_MAP sector) 50.

(** [scores.append(min((ratio / divisor) * 100, 100))] behind the guard
    [ratio is not None and ratio > 0]. *)
Definition append_ratio_score
    (scores : list Q) (ratio : option Q) (divisor : Q) : list Q :=
  match ratio with
  | Some r =>
      if Py.ltb 0 r then scores ++ [Py.min ((r / divisor) * 100) 100]
      else scores
  | None => scores
  end.

Definition calculate_valuation_risk_score
    (pe_ratio price_to_book price_to_sales : option Q) : Q :=
  let scores := [] in
  let scores := append_ratio_score scores pe_ratio 50 in
  let scores := append_ratio_score scores price_to_book 8 in
  let scores := append_ratio_score scores price_to_sales 8 in
  match scores with
  | [] => 50
  | _ :: _ => Py.sum scores / Py.len scores
  end.

Definition calculate_overall_risk (c : RiskComponents) : Q :=
  let overall :=
    WEIGHTS_volatility * volatility_score c +
    WEIGHTS_beta * beta_score c +
    WEIGHTS_leverage * leverage_score c +
    WEIGHTS_earnings_stability * earnings_stability_score c +
    WEIGHTS_sector * sector_risk_score c +
    WEIGHTS_valuation * valuation_risk_score c in
  Py.min (Py.max overall 0) 100.

Definition classify_risk_level (risk_score : Q) : RiskLevel :=
  if Py.leb risk_score CONSERVATIVE_THRESHOLD then CONSERVATIVE
  else if Py.leb risk_score MODERATE_THRESHOLD then MODERATE
  else AGGRESSIVE.

Definition get_risk_band (risk_score : Q) : string :=
  if Py.leb risk_score CONSERVATIVE_THRESHOLD then "0-33"
  else if Py.leb risk_score MODERATE_THRESHOLD then "34-66"
  else "67-100".

Definition component_scores (c : RiskComponents) : list (string * Q) :=
  [ ("Volatility", volatility_score c);
    ("Beta", beta_score c);
    ("Leverage", leverage_score c);
    ("Earnings Stability", earnings_stability_score c);
    ("Sector", sector_risk_score c);
    ("Valuation", valuation_risk_score c) ]%string.

(** [top_risks[0]] and [top_risks[1]] exist because six components are
    always sorted; the last branch is never taken. *)
Definition generate_explanation
    (ticker : string) (risk_score : Q) (level : RiskLevel)
    (c : RiskComponents) : string :=
  let sorted_components := Py.sorted_desc snd (component_scores c) in
  let top_risks := Py.slice_to sorted_components 2 in
  match top_risks with
  | (n0, s0) :: (n1, s1) :: _ =>
      (ticker ++ " has an overall risk score of " ++ Py.format_1f risk_score
       ++ ", classified as " ++ RiskLevel_value level ++ ". "
       ++ "Primary risk factors are " ++ n0 ++ " (" ++ Py.format_1f s0 ++ ") "
       ++ "and " ++ n1 ++ " (" ++ Py.format_1f s1 ++ ").")%string
  | _ => ""%string
  end.

Definition analyze_stock_risk
    (ticker : string) (historical_volatility beta debt_to_equity
     earnings_volatility : Q) (consecutive_profitable_quarters : Z)
    (sector : string)
    (volatility_percentile interest_coverage pe_ratio price_to_book
     price_to_sales : option Q) : RiskAnalysis.t :=
  let components :=
    {| volatility_score :=
         calculate_volatility_score historical_volatility
           volatility_percentile;
       beta_score := calculate_beta_score beta;
       leverage_score :=
         calculate_leverage_score debt_to_equity interest_coverage;
       earnings_stability_score :=
         calculate_earnings_stability_score earnings_volatility
           consecutive_profitable_quarters;
       sector_risk_score := calculate_sector_risk_score sector;
       valuation_risk_score :=
         calculate_valuation_risk_score pe_ratio price_to_book
           price_to_sales |} in
  let overall_risk := calculate_overall_risk components in
  let level := classify_risk_level overall_risk in
  let band := get_risk_band overall_risk in
  let explanation :=
    generate_explanation ticker overall_risk level components in
  {| RiskAnalysis.ticker := ticker;
     RiskAnalysis.overall_risk_score := overall_risk;
     RiskAnalysis.risk_level := level;
     RiskAnalysis.components := components;
     RiskAnalysis.risk_band := band;
     RiskAnalysis.explanation := explanation |}.

End RiskEngine.

(** ** signal_engine.py *)

Inductive SignalType : Type :=
  | EARNINGS_SURPRISE
  | INSTITUTIONAL_BUYING
  | INSIDER_BUYING
  | SENTIMENT_SPIKE.

(** A [datetime] is only stored, never computed with: an instant on the
    clock, in ticks. *)
Definition datetime : Type := Z.

Module Signal.
Record t : Type := mk {
  ticker : string;
  signal_type : SignalType;
  strength : Q;
  confidence : Q;
  timestamp : datetime;
  metadata : list (string * Q)
}.
End Signal.

Module SignalEngine.

(** [timestamp or datetime.utcnow()]: a [datetime] is always truthy, so
    the clock is read exactly when no timestamp was passed. *)
Definition timestamp_or_utcnow
    (timestamp : option datetime) (now : datetime) : datetime :=
  match timestamp with Some ts => ts | None => now end.

Definition detect_earnings_surprise
    (now : datetime) (ticker : string) (actual_eps estimated_eps : Q)
    (timestamp : option datetime) : option Signal.t :=
  if Py.eqb estimated_eps 0 then None
  else
    let surprise_pct :=
      ((actual_eps - estimated_eps) / Qabs estimated_eps) * 100 in
    if Py.ltb (Qabs surprise_pct) 5 then None
    else
      let strength := Py.min (Qabs surprise_pct * 2) 100 in
      let confidence := 95.0 in
      Some {| Signal.ticker := ticker;
              Signal.signal_type := EARNINGS_SURPRISE;
              Signal.strength := strength;
              Signal.confidence := confidence;
              Signal.timestamp := timestamp_or_utcnow timestamp now;
              Signal.metadata :=
                [ ("actual_eps", actual_eps);
                  ("estimated_eps", estimated_eps);
                  ("surprise_pct", surprise_pct) ]%string |}.

Definition detect_institutional_buying
    (now : datetime) (ticker : string)
    (institutional_ownership_change : Q) (num_institutions_buying : Z)
    (timestamp : option datetime) : option Signal.t :=
  if Py.ltb institutional_ownership_change 2.0
     || (num_institutions_buying <? 3)%Z
  then None
  else
    let ownership_component :=
      Py.min (institutional_ownership_change * 10) 50 in
    let institution_component :=
      Py.min (inject_Z (num_institutions_buying * 5)) 50 in
    let strength := ownership_component + institution_component in
    let confidence :=
      Py.min (inject_Z (60 + (num_institutions_buying * 5))) 95 in
    Some {| Signal.ticker := ticker;
            Signal.signal_type := INSTITUTIONAL_BUYING;
            Signal.strength := strength;
            Signal.confidence := confidence;
            Signal.timestamp := timestamp_or_utcnow timestamp now;
            Signal.metadata :=
              [ ("ownership_change_pct", institutional_ownership_change);
                ("num_institutions", inject_Z num_institutions_buying)
              ]%string |}.

Definition detect_insider_buying
    (now : datetime) (ticker : string)
    (insider_buy_volume insider_sell_volume : Q)
    (num_insiders_buying : Z)
    (timestamp : option datetime) : option Signal.t :=
  let net_buying := insider_buy_volume - insider_sell_volume in
  if Py.leb net_buying 0 || (num_insiders_buying <? 2)%Z then None
  else
    let buy_sell_ratio :=
      if Py.ltb 0 insider_sell_volume
      then insider_buy_volume / insider_sell_volume
      else 10.0 in
    let ratio_component := Py.min (buy_sell_ratio * 20) 60 in
    let insider_component :=
      Py.min (inject_Z (num_insiders_buying * 10)) 40 in
    let strength := ratio_component + insider_component in
    let confidence := 75.0 in
    Some {| Signal.ticker := ticker;
            Signal.signal_type := INSIDER_BUYING;
            Signal.strength := strength;
            Signal.confidence := confidence;
            Signal.timestamp := timestamp_or_utcnow timestamp now;
            Signal.metadata :=
              [ ("buy_volume", insider_buy_volume);
                ("sell_volume", insider_sell_volume);
                ("net_buying", net_buying);
                ("num_insiders", inject_Z num_insiders_buying);
                ("buy_sell_ratio", buy_sell_ratio) ]%string |}.

Definition detect_sentiment_spike
    (now : datetime) (ticker : string)
    (current_sentiment baseline_sentiment : Q) (mention_volume : Z)
    (timestamp : option datetime) : option Signal.t :=
  let sentiment_change := current_sentiment - baseline_sentiment in
  if Py.ltb (Qabs sentiment_change) 0.2 || (mention_volume <? 100)%Z
  then None
  else
    let sentiment_component := Py.min (Qabs sentiment_change * 100) 70 in
    let volume_component := Py.min (inject_Z mention_volume / 100) 30 in
    let strength := sentiment_component + volume_component in
    let confidence := 60.0 in
    Some {| Signal.ticker := ticker;
            Signal.signal_type := SENTIMENT_SPIKE;
            Signal.strength := strength;
            Signal.confidence := confidence;
            Signal.timestamp := timestamp_or_utcnow timestamp now;
            Signal.metadata :=
              [ ("current_sentiment", current_sentiment);
                ("baseline_sentiment", baseline_sentiment);
                ("sentiment_change", sentiment_change);
                ("mention_volume", inject_Z mention_volume) ]%string |}.

Definition aggregate_signals (signals : list Signal.t) (ticker : string) : Q :=
  match signals with
  | [] => 50.0
  | _ :: _ =>
      let weighted_sum :=
        Py.sum (map (fun s => Signal.strength s * (Signal.confidence s / 100))
                    signals) in
      let weight_total :=
        Py.sum (map (fun s => Signal.confidence s / 100) signals) in
      if Py.eqb weight_total 0 then 50.0
      else
        let aggregated := weighted_sum / weight_total in
        Py.min (Py.max aggregated 0) 100
  end.

End SignalEngine.

(** ** recommendation_engine.py *)

Record RecommendationScore : Type := mkRecommendationScore {
  research_score : Q;
  signal_score : Q;
  risk_alignment_score : Q;
  macro_fit_score : Q;
  final_score : Q
}.

(** The [reasoning_metadata] dict of a recommendation, key by key. *)
Record ReasoningMetadata : Type := mkReasoningMetadata {
  md_research_score : Q;
  md_signal_score : Q;
  md_risk_alignment_score : Q;
  md_macro_fit_score : Q;
  md_user_risk_level : string;
  md_stock_sector : option string
}.

Module StockRecommendation.
Record t : Type := mk {
  ticker : string;
  scores : RecommendationScore;
  explanation : string;
  reasoning_metadata : ReasoningMetadata;
  rank : Z
}.

(** [rec.rank = i] on one object. *)
Definition set_rank (rec : t) (i : Z) : t :=
  {| ticker := ticker rec;
     scores := scores rec;
     explanation := explanation rec;
     reasoning_metadata := reasoning_metadata rec;
     rank := i |}.
End StockRecommendation.

(** A candidate: the [dict] the engine reads with [stock.get(key, default)]
    and [stock["ticker"]]; a key that is absent is [None]. *)
Module Stock.
Record t : Type := mk {
  ticker : option string;
  sector : option string;
  risk_score : option Q;
  research_score : option Q;
  signal_score : option Q
}.
End Stock.

(** Results of code that can raise: [stock["ticker"]] raises [KeyError]
    on a candidate without that key. *)
Inductive Exc (A : Type) : Type :=
  | Return (a : A)
  | KeyError (key : string).
Arguments Return {A} a.
Arguments KeyError {A} key.

Definition bind {A B} (m : Exc A) (k : A -> Exc B) : Exc B :=
  match m with
  | Return a => k a
  | KeyError key => KeyError key
  end.

Notation "x <- m ;; k" := (bind m (fun x => k))
  (at level 61, m at next level, right associativity).
Notation "' p <- m ;; k" := (bind m (fun x => let 'p := x in k))
  (at level 61, p pattern, m at next level, right associativity).

(** [d[key]]. *)
Definition getitem {A} (field : option A) (key : string) : Exc A :=
  match field with Some v => Return v | None => KeyError key end.

Module RecommendationEngine.

Definition WEIGHTS_research : Q := 0.4.
Definition WEIGHTS_signal : Q := 0.3.
Definition WEIGHTS_risk_alignment : Q := 0.2.
Definition WEIGHTS_macro_fit : Q := 0.1.

(** The local [risk_bands] dict of [calculate_risk_alignment_score] and of
    [filter_by_risk_band] (the same literal in both). *)
Definition risk_bands : list (string * (Q * Q)) :=
  [ ("Conservative", (0, 33));
    ("Moderate", (34, 66));
    ("Aggressive", (67, 100)) ]%string.

Definition calculate_risk_alignment_score
    (stock_risk_score : Q) (user_risk_level : string)
    (user_volatility_tolerance : Q) : Q :=
  let '(min_risk, max_risk) :=
    Py.get (Py.lookup risk_bands user_risk_level) (0, 100) in
  let base_score :=
    if Py.leb min_risk stock_risk_score && Py.leb stock_risk_score max_risk
    then 100
    else
      let distance :=
        if Py.ltb stock_risk_score min_risk
        then min_risk - stock_risk_score
        else stock_risk_score - max_risk in
      Py.max 0 (100 - (distance * 2)) in
  let volatility_factor := user_volatility_tolerance / 100 in
  let adjusted_score := base_score * (0.7 + (volatility_factor * 0.3)) in
  Py.min (Py.max adjusted_score 0) 100.

Definition neutral_sectors : list string :=
  [ "Technology"; "Healthcare"; "Financials"; "Energy";
    "Utilities"; "Consumer Staples"; "Consumer Discretionary";
    "Industrials"; "Materials"; "Real Estate" ]%string.

Definition sector_scores : list (string * list (string * Q)) :=
  [ ("bull",
     [ ("Technology", 80); ("Consumer Discretionary", 75);
       ("Financials", 70); ("Industrials", 65); ("Energy", 60);
       ("Materials", 60); ("Healthcare", 55); ("Consumer Staples", 50);
       ("Utilities", 45); ("Real Estate", 50) ]);
    ("bear",
     [ ("Utilities", 80); ("Consumer Staples", 75); ("Healthcare", 70);
       ("Real Estate", 60); ("Financials", 50); ("Industrials", 45);
       ("Materials", 45); ("Energy", 50); ("Technology", 40);
       ("Consumer Discretionary", 35) ]);
    ("neutral", map (fun sector => (sector, 50)) neutral_sectors)
  ]%string.

(** The default of the parameter [current_market_regime]. *)
Definition default_market_regime : string := "neutral".

Definition calculate_macro_fit_score
    (sector : string) (current_market_regime : string) : Q :=
  let regime_scores :=
    Py.get (Py.lookup sector_scores current_market_regime)
           (Py.get (Py.lookup sector_scores "neutral") []) in
  Py.get (Py.lookup regime_scores sector) 50.

Definition calculate_final_score
    (research signal risk_alignment macro_fit : Q) : Q :=
  let final :=
    WEIGHTS_research * research +
    WEIGHTS_signal * signal +
    WEIGHTS_risk_alignment * risk_alignment +
    WEIGHTS_macro_fit * macro_fit in
  Py.min (Py.max final 0) 100.

Definition generate_explanation
    (ticker : string) (scores : RecommendationScore) (sector : string)
    (user_risk_level : string) : string :=
  (ticker ++ " is recommended with a score of "
   ++ Py.format_1f (final_score scores) ++ "/100. "
   ++ "This recommendation is based on strong research quality ("
   ++ Py.format_1f (research_score scores) ++ "), "
   ++ "positive market signals ("
   ++ Py.format_1f (signal_score scores) ++ "), "
   ++ "good alignment with your " ++ user_risk_level ++ " risk profile ("
   ++ Py.format_1f (risk_alignment_score scores) ++ "), "
   ++ "and favorable macro conditions for " ++ sector ++ " ("
   ++ Py.format_1f (macro_fit_score scores) ++ ").")%string.

Definition filter_by_risk_band
    (stocks : list Stock.t) (user_risk_level : string) : list Stock.t :=
  let '(min_risk, max_risk) :=
    Py.get (Py.lookup risk_bands user_risk_level) (0, 100) in
  filter (fun stock =>
            Py.leb min_risk (Py.get (Stock.risk_score stock) 50)
            && Py.leb (Py.get (Stock.risk_score stock) 50) max_risk)
         stocks.

(** One turn of the loop of [rank_recommendations]: the recommendation
    built for [stock], with [rank=0]. *)
Definition build_recommendation
    (user_risk_level : string) (user_volatility_tolerance : Q)
    (stock : Stock.t) : Exc StockRecommendation.t :=
  let risk_alignment :=
    calculate_risk_alignment_score
      (Py.get (Stock.risk_score stock) 50)
      user_risk_level user_volatility_tolerance in
  let macro_fit :=
    calculate_macro_fit_score
      (Py.get (Stock.sector stock) "Unknown"%string)
      default_market_regime in
  let final :=
    calculate_final_score
      (Py.get (Stock.research_score stock) 50)
      (Py.get (Stock.signal_score stock) 50)
      risk_alignment macro_fit in
  let scores :=
    {| research_score := Py.get (Stock.research_score stock) 50;
       signal_score := Py.get (Stock.signal_score stock) 50;
       risk_alignment_score := risk_alignment;
       macro_fit_score := macro_fit;
       final_score := final |} in
  ticker <- getitem (Stock.ticker stock) "ticker" ;;
  let explanation :=
    generate_explanation ticker scores
      (Py.get (Stock.sector stock) "Unknown"%string) user_risk_level in
  Return
    {| StockRecommendation.ticker := ticker;
       StockRecommendation.scores := scores;
       StockRecommendation.explanation := explanation;
       StockRecommendation.reasoning_metadata :=
         {| md_research_score := research_score scores;
            md_signal_score := signal_score scores;
            md_risk_alignment_score := risk_alignment_score scores;
            md_macro_fit_score := macro_fit_score scores;
            md_user_risk_level := user_risk_level;
            md_stock_sector := Stock.sector stock |};
       StockRecommendation.rank := 0 |}.

(** The recommendation objects live in a store; the list
    [recommendations], its sorted order and its slices hold references
    to them, so [rec.rank = i] through one slice is seen through the
    other. *)
Definition Ref : Type := nat.
Definition Store : Type := list StockRecommendation.t.

Definition blank : StockRecommendation.t :=
  {| StockRecommendation.ticker := ""%string;
     StockRecommendation.scores := mkRecommendationScore 0 0 0 0 0;
     StockRecommendation.explanation := ""%string;
     StockRecommendation.reasoning_metadata :=
       mkReasoningMetadata 0 0 0 0 ""%string None;
     StockRecommendation.rank := 0 |}.

Definition deref (store : Store) (r : Ref) : StockRecommendation.t :=
  nth r store blank.

Fixpoint assign (store : Store) (r : Ref) (i : Z) : Store :=
  match store, r with
  | [], _ => []
  | rec :: rest, O => StockRecommendation.set_rank rec i :: rest
  | rec :: rest, S r' => rec :: assign rest r' i
  end.

(** [for stock in stocks: ... recommendations.append(...)]: every turn
    allocates one object and appends its reference. *)
Fixpoint build_all
    (user_risk_level : string) (user_volatility_tolerance : Q)
    (stocks : list Stock.t) (store : Store) (recommendations : list Ref)
    : Exc (Store * list Ref) :=
  match stocks with
  | [] => Return (store, recommendations)
  | stock :: rest =>
      rec <- build_recommendation user_risk_level
               user_volatility_tolerance stock ;;
      build_all user_risk_level user_volatility_tolerance rest
        (store ++ [rec]) (recommendations ++ [List.length store])
  end.

(** [for i, rec in enumerate(recommendations[:top_n], 1): rec.rank = i]. *)
Definition assign_ranks (store : Store) (numbered : list (Z * Ref)) : Store :=
  fold_left (fun st '(i, r) => assign st r i) numbered store.

Definition rank_recommendations
    (stocks : list Stock.t) (user_risk_level : string)
    (user_volatility_tolerance : Q) (top_n : Z)
    : Exc (list StockRecommendation.t) :=
  '(store, recommendations) <-
    build_all user_risk_level user_volatility_tolerance stocks [] [] ;;
  let recommendations :=
    Py.sorted_desc
      (fun r => final_score (StockRecommendation.scores (deref store r)))
      recommendations in
  let store :=
    assign_ranks store
      (Py.enumerate (Py.slice_to recommendations top_n) 1) in
  Return (map (deref store) (Py.slice_to recommendations top_n)).

End RecommendationEngine.


(** ** signal_engine.py in binary64

    [detect_earnings_surprise] once more, with every [float] a binary64
    number and every operation rounded as IEEE-754 prescribes.  An [int]
    operand ([0], [5], [2], [100]) is exactly representable and a
    comparison of a [float] with it is the comparison of the two
    binary64 numbers. *)

Module Binary64.

Module Signal.
Record t : Type := mk {
  ticker : string;
  signal_type : SignalType;
  strength : float;
  confidence : float;
  timestamp : datetime;
  metadata : list (string * float)
}.
End Signal.

(** [min(a, b)]: the first argument unless the second is strictly
    smaller (a NaN first argument is returned). *)
Definition min (a b : float) : float := if PrimFloat.ltb b a then b else a.

Definition detect_earnings_surprise
    (now : datetime) (ticker : string) (actual_eps estimated_eps : float)
    (timestamp : option datetime) : option Signal.t :=
  if PrimFloat.eqb estimated_eps 0%float then None
  else
    let surprise_pct :=
      (((actual_eps - estimated_eps) / PrimFloat.abs estimated_eps)
       * 100)%float in
    if PrimFloat.ltb (PrimFloat.abs surprise_pct) 5%float then None
    else
      let strength := min (PrimFloat.abs surprise_pct * 2)%float 100%float in
      let confidence := 95.0%float in
      Some {| Signal.ticker := ticker;
              Signal.signal_type := EARNINGS_SURPRISE;
              Signal.strength := strength;
              Signal.confidence := confidence;
              Signal.timestamp :=
                SignalEngine.timestamp_or_utcnow timestamp now;
              Signal.metadata :=
                [ ("actual_eps", actual_eps);
                  ("estimated_eps", estimated_eps);
                  ("surprise_pct", surprise_pct) ]%string |}.

End Binary64.

(** ** The public operations of the three engines

    One constructor of [Call] per public method, carrying its arguments;
    [run now call] is the value the method returns when the clock reads
    [now].  The effects of a call are given below, by
    [Service.perform]. *)

Module Api.

Inductive Call : Type :=
  | risk_calculate_volatility_score (hv : Q) (pct : option Q)
  | risk_calculate_beta_score (beta : Q)
  | risk_calculate_leverage_score (de : Q) (ic : option Q)
  | risk_calculate_earnings_stability_score (ev : Q) (quarters : Z)
  | risk_calculate_sector_risk_score (sector : string)
  | risk_calculate_valuation_risk_score (pe pb ps : option Q)
  | risk_calculate_overall_risk (c : RiskComponents)
  | risk_classify_risk_level (score : Q)
  | risk_get_risk_band (score : Q)
  | risk_generate_explanation
      (ticker : string) (score : Q) (level : RiskLevel) (c : RiskComponents)
  | risk_analyze_stock_risk
      (ticker : string) (hv beta de ev : Q) (quarters : Z) (sector : string)
      (pct ic pe pb ps : option Q)
  | signal_detect_earnings_surprise
      (ticker : string) (actual estimated : Q) (timestamp : option datetime)
  | signal_detect_institutional_buying
      (ticker : string) (change : Q) (institutions : Z)
      (timestamp : option datetime)
  | signal_detect_insider_buying
      (ticker : string) (buy sell : Q) (insiders : Z)
      (timestamp : option datetime)
  | signal_detect_sentiment_spike
      (ticker : string) (current baseline : Q) (volume : Z)
      (timestamp : option datetime)
  | signal_aggregate_signals (signals : list Signal.t) (ticker : string)
  | rec_calculate_risk_alignment_score
      (score : Q) (level : string) (tolerance : Q)
  | rec_calculate_macro_fit_score (sector regime : string)
  | rec_calculate_final_score (research signal alignment macro : Q)
  | rec_generate_explanation
      (ticker : string) (scores : RecommendationScore)
      (sector level : string)
  | rec_filter_by_risk_band (stocks : list Stock.t) (level : string)
  | rec_rank_recommendations
      (stocks : list Stock.t) (level : string) (tolerance : Q) (top_n : Z).

Inductive Value : Type :=
  | VScore (q : Q)
  | VLevel (l : RiskLevel)
  | VText (s : string)
  | VAnalysis (a : RiskAnalysis.t)
  | VSignal (s : option Signal.t)
  | VStocks (l : list Stock.t)
  | VRecommendations (r : Exc (list StockRecommendation.t)).

Definition run (now : datetime) (call : Call) : Value :=
  match call with
  | risk_calculate_volatility_score hv pct =>
      VScore (RiskEngine.calculate_volatility_score hv pct)
  | risk_calculate_beta_score beta =>
      VScore (RiskEngine.calculate_beta_score beta)
  | risk_calculate_leverage_score de ic =>
      VScore (RiskEngine.calculate_leverage_score de ic)
  | risk_calculate_earnings_stability_score ev quarters =>
      VScore (RiskEngine.calculate_earnings_stability_score ev quarters)
  | risk_calculate_sector_risk_score sector =>
      VScore (RiskEngine.calculate_sector_risk_score sector)
  | risk_calculate_valuation_risk_score pe pb ps =>
      VScore (RiskEngine.calculate_valuation_risk_score pe pb ps)
  | risk_calculate_overall_risk c =>
      VScore (RiskEngine.calculate_overall_risk c)
  | risk_classify_risk_level score =>
      VLevel (RiskEngine.classify_risk_level score)
  | risk_get_risk_band score => VText (RiskEngine.get_risk_band score)
  | risk_generate_explanation ticker score level c =>
      VText (RiskEngine.generate_explanation ticker score level c)
  | risk_analyze_stock_risk ticker hv beta de ev quarters sector
      pct ic pe pb ps =>
      VAnalysis (RiskEngine.analyze_stock_risk ticker hv beta de ev quarters
                   sector pct ic pe pb ps)
  | signal_detect_earnings_surprise ticker actual estimated timestamp =>
      VSignal (SignalEngine.detect_earnings_surprise now ticker actual
                 estimated timestamp)
  | signal_detect_institutional_buying ticker change institutions timestamp =>
      VSignal (SignalEngine.detect_institutional_buying now ticker change
                 institutions timestamp)
  | signal_detect_insider_buying ticker buy sell insiders timestamp =>
      VSignal (SignalEngine.detect_insider_buying now ticker buy sell
                 insiders timestamp)
  | signal_detect_sentiment_spike ticker current baseline volume timestamp =>
      VSignal (SignalEngine.detect_sentiment_spike now ticker current
                 baseline volume timestamp)
  | signal_aggregate_signals signals ticker =>
      VScore (SignalEngine.aggregate_signals signals ticker)
  | rec_calculate_risk_alignment_score score level tolerance =>
      VScore (RecommendationEngine.calculate_risk_alignment_score score level
                tolerance)
  | rec_calculate_macro_fit_score sector regime =>
      VScore (RecommendationEngine.calculate_macro_fit_score sector regime)
  | rec_calculate_final_score research signal alignment macro =>
      VScore (RecommendationEngine.calculate_final_score research signal
                alignment macro)
  | rec_generate_explanation ticker scores sector level =>
      VText (RecommendationEngine.generate_explanation ticker scores sector
               level)
  | rec_filter_by_risk_band stocks level =>
      VStocks (RecommendationEngine.filter_by_risk_band stocks level)
  | rec_rank_recommendations stocks level tolerance top_n =>
      VRecommendations
        (RecommendationEngine.rank_recommendations stocks level tolerance
           top_n)
  end.

(** The calls that leave [timestamp] out: a detector then stamps its
    signal with [datetime.utcnow()]. *)
Definition omits_timestamp (call : Call) : bool :=
  match call with
  | signal_detect_earnings_surprise _ _ _ None
  | signal_detect_institutional_buying _ _ _ None
  | signal_detect_insider_buying _ _ _ _ None
  | signal_detect_sentiment_spike _ _ _ _ None => true
  | _ => false
  end.

(** A returned value with the timestamp of its signal, if any, blanked. *)
Definition without_timestamp (v : Value) : Value :=
  match v with
  | VSignal (Some s) =>
      VSignal (Some {| Signal.ticker := Signal.ticker s;
                       Signal.signal_type := Signal.signal_type s;
                       Signal.strength := Signal.strength s;
                       Signal.confidence := Signal.confidence s;
                       Signal.timestamp := 0%Z;
                       Signal.metadata := Signal.metadata s |})
  | _ => v
  end.

End Api.

(** ** The operations with their effects

    What a method does besides computing: it calls [logger.info] and, in
    the detectors, [datetime.utcnow()].  The world holds what these
    touch, the clock and the log; a method is a function from the world
    before the call to its result and the world after it.  A log record
    is the f-string passed to [logger.info], kept as its pieces (the
    rendering of a number is left to its format specification). *)

Module Service.

Inductive Piece : Type :=
  | Text (s : string)
  | Str (s : string)
  | Num (q : Q) (format_spec : string)
  | Int (n : Z).

Definition Message : Type := list Piece.

Record World : Type := mkWorld {
  clock : datetime;
  log : list Message
}.

Definition M (A : Type) : Type := World -> A * World.

Definition ret {A} (a : A) : M A := fun w => (a, w).

Definition seq {A B} (m : M A) (k : A -> M B) : M B :=
  fun w => let (a, w') := m w in k a w'.

Notation "m >> k" := (seq m (fun _ => k))
  (at level 62, right associativity).
Notation "x <~ m ;; k" := (seq m (fun x => k))
  (at level 62, m at next level, right associativity).

(** [logger.info(message)]. *)
Definition logger_info (message : Message) : M unit :=
  fun w => (tt, mkWorld (clock w) (log w ++ [message])).

(** [datetime.utcnow()]. *)
Definition utcnow : M datetime := fun w => (clock w, w).

(** [timestamp or datetime.utcnow()]. *)
Definition timestamp_or_utcnow (timestamp : option datetime) : M datetime :=
  match timestamp with
  | Some ts => ret ts
  | None => utcnow
  end.

Definition analyze_stock_risk
    (ticker : string) (historical_volatility beta debt_to_equity
     earnings_volatility : Q) (consecutive_profitable_quarters : Z)
    (sector : string)
    (volatility_percentile interest_coverage pe_ratio price_to_book
     price_to_sales : option Q) : M RiskAnalysis.t :=
  logger_info [Text "Analyzing risk for "; Str ticker] >>
  let analysis :=
    RiskEngine.analyze_stock_risk ticker historical_volatility beta
      debt_to_equity earnings_volatility consecutive_profitable_quarters
      sector volatility_percentile interest_coverage pe_ratio price_to_book
      price_to_sales in
  logger_info
    [ Text "Risk analysis complete for "; Str ticker;
      Text ": score="; Num (RiskAnalysis.overall_risk_score analysis) ".1f";
      Text ", level=";
      Str (RiskLevel_value (RiskAnalysis.risk_level analysis)) ] >>
  ret analysis.

Definition detect_earnings_surprise
    (ticker : string) (actual_eps estimated_eps : Q)
    (timestamp : option datetime) : M (option Signal.t) :=
  if Py.eqb estimated_eps 0 then ret None
  else
    let surprise_pct :=
      ((actual_eps - estimated_eps) / Qabs estimated_eps) * 100 in
    if Py.ltb (Qabs surprise_pct) 5 then ret None
    else
      let strength := Py.min (Qabs surprise_pct * 2) 100 in
      let confidence := 95.0 in
      logger_info
        [ Text "Earnings surprise detected for "; Str ticker;
          Text ": actual="; Num actual_eps "";
          Text ", estimated="; Num estimated_eps "";
          Text ", surprise="; Num surprise_pct ".1f"; Text "%" ] >>
      ts <~ timestamp_or_utcnow timestamp ;;
      ret (Some {| Signal.ticker := ticker;
                   Signal.signal_type := EARNINGS_SURPRISE;
                   Signal.strength := strength;
                   Signal.confidence := confidence;
                   Signal.timestamp := ts;
                   Signal.metadata :=
                     [ ("actual_eps", actual_eps);
                       ("estimated_eps", estimated_eps);
                       ("surprise_pct", surprise_pct) ]%string |}).

Definition detect_institutional_buying
    (ticker : string) (institutional_ownership_change : Q)
    (num_institutions_buying : Z) (timestamp : option datetime)
    : M (option Signal.t) :=
  if Py.ltb institutional_ownership_change 2.0
     || (num_institutions_buying <? 3)%Z
  then ret None
  else
    let ownership_component :=
      Py.min (institutional_ownership_change * 10) 50 in
    let institution_component :=
      Py.min (inject_Z (num_institutions_buying * 5)) 50 in
    let strength := ownership_component + institution_component in
    let confidence :=
      Py.min (inject_Z (60 + (num_institutions_buying * 5))) 95 in
    logger_info
      [ Text "Institutional buying detected for "; Str ticker;
        Text ": ownership_change=";
        Num institutional_ownership_change ".1f"; Text "%, ";
        Text "institutions="; Int num_institutions_buying ] >>
    ts <~ timestamp_or_utcnow timestamp ;;
    ret (Some {| Signal.ticker := ticker;
                 Signal.signal_type := INSTITUTIONAL_BUYING;
                 Signal.strength := strength;
                 Signal.confidence := confidence;
                 Signal.timestamp := ts;
                 Signal.metadata :=
                   [ ("ownership_change_pct",
                      institutional_ownership_change);
                     ("num_institutions", inject_Z num_institutions_buying)
                   ]%string |}).

Definition detect_insider_buying
    (ticker : string) (insider_buy_volume insider_sell_volume : Q)
    (num_insiders_buying : Z) (timestamp : option datetime)
    : M (option Signal.t) :=
  let net_buying := insider_buy_volume - insider_sell_volume in
  if Py.leb net_buying 0 || (num_insiders_buying <? 2)%Z then ret None
  else
    let buy_sell_ratio :=
      if Py.ltb 0 insider_sell_volume
      then insider_buy_volume / insider_sell_volume
      else 10.0 in
    let ratio_component := Py.min (buy_sell_ratio * 20) 60 in
    let insider_component :=
      Py.min (inject_Z (num_insiders_buying * 10)) 40 in
    let strength := ratio_component + insider_component in
    let confidence := 75.0 in
    logger_info
      [ Text "Insider buying detected for "; Str ticker;
        Text ": net_buying=$"; Num net_buying ",.0f"; Text ", ";
        Text "insiders="; Int num_insiders_buying ] >>
    ts <~ timestamp_or_utcnow timestamp ;;
    ret (Some {| Signal.ticker := ticker;
                 Signal.signal_type := INSIDER_BUYING;
                 Signal.strength := strength;
                 Signal.confidence := confidence;
                 Signal.timestamp := ts;
                 Signal.metadata :=
                   [ ("buy_volume", insider_buy_volume);
                     ("sell_volume", insider_sell_volume);
                     ("net_buying", net_buying);
                     ("num_insiders", inject_Z num_insiders_buying);
                     ("buy_sell_ratio", buy_sell_ratio) ]%string |}).

Definition detect_sentiment_spike
    (ticker : string) (current_sentiment baseline_sentiment : Q)
    (mention_volume : Z) (timestamp : option datetime)
    : M (option Signal.t) :=
  let sentiment_change := current_sentiment - baseline_sentiment in
  if Py.ltb (Qabs sentiment_change) 0.2 || (mention_volume <? 100)%Z
  then ret None
  else
    let sentiment_component := Py.min (Qabs sentiment_change * 100) 70 in
    let volume_component := Py.min (inject_Z mention_volume / 100) 30 in
    let strength := sentiment_component + volume_component in
    let confidence := 60.0 in
    logger_info
      [ Text "Sentiment spike detected for "; Str ticker;
        Text ": change="; Num sentiment_change ".2f"; Text ", ";
        Text "mentions="; Int mention_volume ] >>
    ts <~ timestamp_or_utcnow timestamp ;;
    ret (Some {| Signal.ticker := ticker;
                 Signal.signal_type := SENTIMENT_SPIKE;
                 Signal.strength := strength;
                 Signal.confidence := confidence;
                 Signal.timestamp := ts;
                 Signal.metadata :=
                   [ ("current_sentiment", current_sentiment);
                     ("baseline_sentiment", baseline_sentiment);
                     ("sentiment_change", sentiment_change);
                     ("mention_volume", inject_Z mention_volume)
                   ]%string |}).

Definition aggregate_signals (signals : list Signal.t) (ticker : string)
    : M Q :=
  match signals with
  | [] => ret 50.0
  | _ :: _ =>
      let weighted_sum :=
        Py.sum (map (fun s => Signal.strength s * (Signal.confidence s / 100))
                    signals) in
      let weight_total :=
        Py.sum (map (fun s => Signal.confidence s / 100) signals) in
      if Py.eqb weight_total 0 then ret 50.0
      else
        let aggregated := weighted_sum / weight_total in
        logger_info
          [ Text "Aggregated "; Int (Z.of_nat (List.length signals));
            Text " signals for "; Str ticker;
            Text ": score="; Num aggregated ".1f" ] >>
        ret (Py.min (Py.max aggregated 0) 100)
  end.

Definition filter_by_risk_band (stocks : list Stock.t)
    (user_risk_level : string) : M (list Stock.t) :=
  let filtered :=
    RecommendationEngine.filter_by_risk_band stocks user_risk_level in
  logger_info
    [ Text "Filtered "; Int (Z.of_nat (List.length stocks));
      Text " stocks to "; Int (Z.of_nat (List.length filtered)); Text " ";
      Text "for "; Str user_risk_level; Text " risk level" ] >>
  ret filtered.

(** The loop, the sort and the ranks touch neither the clock nor the
    log; a [KeyError] leaves the method after the first record. *)
Definition rank_recommendations (stocks : list Stock.t)
    (user_risk_level : string) (user_volatility_tolerance : Q) (top_n : Z)
    : M (Exc (list StockRecommendation.t)) :=
  logger_info
    [ Text "Ranking "; Int (Z.of_nat (List.length stocks));
      Text " stocks for recommendations" ] >>
  match RecommendationEngine.rank_recommendations stocks user_risk_level
          user_volatility_tolerance top_n with
  | KeyError key => ret (KeyError key)
  | Return recommendations =>
      logger_info
        [ Text "Generated top "; Int top_n; Text " recommendations" ] >>
      ret (Return recommendations)
  end.

(** A call of a public method, with its effects; the methods that only
    compute call neither [logger.info] nor the clock. *)
Definition perform (call : Api.Call) : M Api.Value :=
  match call with
  | Api.risk_analyze_stock_risk ticker hv beta de ev quarters sector
      pct ic pe pb ps =>
      a <~ analyze_stock_risk ticker hv beta de ev quarters sector pct ic pe
             pb ps ;;
      ret (Api.VAnalysis a)
  | Api.signal_detect_earnings_surprise ticker actual estimated timestamp =>
      s <~ detect_earnings_surprise ticker actual estimated timestamp ;;
      ret (Api.VSignal s)
  | Api.signal_detect_institutional_buying ticker change institutions
      timestamp =>
      s <~ detect_institutional_buying ticker change institutions timestamp ;;
      ret (Api.VSignal s)
  | Api.signal_detect_insider_buying ticker buy sell insiders timestamp =>
      s <~ detect_insider_buying ticker buy sell insiders timestamp ;;
      ret (Api.VSignal s)
  | Api.signal_detect_sentiment_spike ticker current baseline volume
      timestamp =>
      s <~ detect_sentiment_spike ticker current baseline volume timestamp ;;
      ret (Api.VSignal s)
  | Api.signal_aggregate_signals signals ticker =>
      q <~ aggregate_signals signals ticker ;;
      ret (Api.VScore q)
  | Api.rec_filter_by_risk_band stocks level =>
      l <~ filter_by_risk_band stocks level ;;
      ret (Api.VStocks l)
  | Api.rec_rank_recommendations stocks level tolerance top_n =>
      r <~ rank_recommendations stocks level tolerance top_n ;;
      ret (Api.VRecommendations r)
  | Api.risk_calculate_volatility_score hv pct =>
      ret (Api.VScore (RiskEngine.calculate_volatility_score hv pct))
  | Api.risk_calculate_beta_score beta =>
      ret (Api.VScore (RiskEngine.calculate_beta_score beta))
  | Api.risk_calculate_leverage_score de ic =>
      ret (Api.VScore (RiskEngine.calculate_leverage_score de ic))
  | Api.risk_calculate_earnings_stability_score ev quarters =>
      ret (Api.VScore
             (RiskEngine.calculate_earnings_stability_score ev quarters))
  | Api.risk_calculate_sector_risk_score sector =>
      ret (Api.VScore (RiskEngine.calculate_sector_risk_score sector))
  | Api.risk_calculate_valuation_risk_score pe pb ps =>
      ret (Api.VScore (RiskEngine.calculate_valuation_risk_score pe pb ps))
  | Api.risk_calculate_overall_risk c =>
      ret (Api.VScore (RiskEngine.calculate_overall_risk c))
  | Api.risk_classify_risk_level score =>
      ret (Api.VLevel (RiskEngine.classify_risk_level score))
  | Api.risk_get_risk_band score =>
      ret (Api.VText (RiskEngine.get_risk_band score))
  | Api.risk_generate_explanation ticker score level c =>
      ret (Api.VText (RiskEngine.generate_explanation ticker score level c))
  | Api.rec_calculate_risk_alignment_score score level tolerance =>
      ret (Api.VScore
             (RecommendationEngine.calculate_risk_alignment_score score
                level tolerance))
  | Api.rec_calculate_macro_fit_score sector regime =>
      ret (Api.VScore
             (RecommendationEngine.calculate_macro_fit_score sector regime))
  | Api.rec_calculate_final_score research signal alignment macro =>
      ret (Api.VScore
             (RecommendationEngine.calculate_final_score research signal
                alignment macro))
  | Api.rec_generate_explanation ticker scores sector level =>
      ret (Api.VText
             (RecommendationEngine.generate_explanation ticker scores sector
                level))
  end.

End Service.

(** ** research_engine.py *)

Module ResearchEngine.

Definition calculate_research_score
    (confidence_score data_completeness analysis_depth : Q) : Q :=
  let score :=
    0.4 * confidence_score +
    0.3 * data_completeness +
    0.3 * analysis_depth in
  Py.min (Py.max score 0) 100.

End ResearchEngine.

(** ** providers/sec.py

    The parsed JSON of the Company Facts API is typed as the API
    documents it: a [dict] is the list of its items in order (keys
    distinct), a key that is absent or null is [None], dates are strings
    and compare as Python compares [str] (by code point, which for UTF-8
    text is byte by byte). *)

Module SEC.

Definition dict (V : Type) : Type := list (string * V).

(** One reported value of a concept; also the [period_data] built from
    it, which has the same nine keys. *)
Record Fact : Type := mkFact {
  start : option string;
  end_ : option string;
  val : option Q;
  accn : option string;
  fy : option Z;
  fp : option string;
  form : option string;
  filed : option string;
  frame : option string
}.

Record Concept : Type := mkConcept {
  units : option (dict (list Fact))
}.

Record Facts : Type := mkFacts {
  us_gaap : option (dict Concept);
  dei : option (dict Concept)
}.

Record Data : Type := mkData {
  facts : option Facts
}.

Definition TAG_MAPPINGS : dict (list string) :=
  [ ("revenue",
     [ "RevenueFromContractWithCustomerExcludingAssessedTax"; "Revenues";
       "SalesRevenueNet"; "TotalRevenuesAndOtherIncome" ]);
    ("net_income",
     [ "NetIncomeLoss"; "NetIncomeLossAvailableToCommonStockholdersBasic" ]);
    ("total_assets", [ "Assets" ]);
    ("total_debt",
     [ "DebtAndCapitalLeaseObligations";
       "LongTermDebtAndCapitalLeaseObligations" ]);
    ("cash_flow", [ "NetCashProvidedByUsedInOperatingActivities" ]);
    ("shares_outstanding",
     [ "EntityCommonStockSharesOutstanding";
       "WeightedAverageNumberOfSharesOutstandingBasic" ])
  ]%string.

(** [d[k] = v] on a dict: the value is replaced in place, a new key goes
    last. *)
Fixpoint setitem {V} (d : dict V) (k : string) (v : V) : dict V :=
  match d with
  | [] => [(k, v)]
  | (k', v') :: d' =>
      if String.eqb k' k then (k', v) :: d' else (k', v') :: setitem d' k v
  end.

(** [{**a, **b}]. *)
Definition merge {V} (a b : dict V) : dict V :=
  fold_left (fun d kv => setitem d (fst kv) (snd kv)) b a.

(** [l.sort(key=key)] with string keys: ascending, items with equal keys
    in their original order.  An item is put in front of the first item
    whose key is not strictly smaller than its own. *)
Section Sorting.
Context {A : Type} (key : A -> string).

Fixpoint insert_asc (x : A) (l : list A) : list A :=
  match l with
  | [] => [x]
  | y :: l' => if String.ltb (key y) (key x) then y :: insert_asc x l'
               else x :: l
  end.

Definition sorted_asc (l : list A) : list A := fold_right insert_asc [] l.
End Sorting.

(** The [period_data] dict built from one value. *)
Definition period_data (v : Fact) : Fact :=
  {| start := start v;
     end_ := end_ v;
     val := val v;
     accn := accn v;
     fy := fy v;
     fp := fp v;
     form := form v;
     filed := filed v;
     frame := frame v |}.

(** The two inner loops of [_normalize_values]: every value of every
    unit of one concept, appended to [all_data]. *)
Definition append_units (all_data : list Fact) (units : dict (list Fact))
    : list Fact :=
  fold_left
    (fun all_data unit =>
       fold_left (fun all_data v => all_data ++ [period_data v])
                 (snd unit) all_data)
    units all_data.

(** The outer loop of [_normalize_values]. *)
Definition collect (concepts : dict Concept) (tags : list string)
    : list Fact :=
  fold_left
    (fun all_data tag =>
       match Py.lookup concepts tag with
       | Some concept => append_units all_data (Py.get (units concept) [])
       | None => all_data
       end)
    tags [].

(** The sort key [x["end"] if x["end"] else ""]. *)
Definition end_key (x : Fact) : string :=
  match end_ x with
  | Some e => if String.eqb e "" then ""%string else e
  | None => ""%string
  end.

Definition _normalize_values (concepts : dict Concept) (tags : list string)
    : list Fact :=
  sorted_asc end_key (collect concepts tags).

Definition extract_metrics (data : Data) : dict (list Fact) :=
  match facts data with
  | None => []
  | Some f =>
      let us_gaap := Py.get (us_gaap f) [] in
      let dei := Py.get (dei f) [] in
      let concepts := merge us_gaap dei in
      fold_left
        (fun metrics mapping =>
           setitem metrics (fst mapping)
             (_normalize_values concepts (snd mapping)))
        TAG_MAPPINGS []
  end.

(** [values[-1]], when [values] is not empty. *)
Definition last_item {A} (values : list A) : option A :=
  match values with
  | [] => None
  | v :: rest => Some (last rest v)
  end.

Definition get_latest_metrics (metrics : dict (list Fact))
    : dict (option Q) :=
  fold_left
    (fun latest entry =>
       match last_item (snd entry) with
       | Some v => setitem latest (fst entry) (val v)
       | None => setitem latest (fst entry) None
       end)
    metrics [].

End SEC.

(** ** providers/yahoo.py

    [get_historical_data] is modelled around its retry loop.  What lies
    outside the repository is a parameter: the data frames of pandas
    ([df.empty], [pd.DataFrame()], the filling of the required columns)
    and the outcome of each call of [yf.Ticker(ticker).history(...)],
    given by the number of the call.  A run records what the coroutine
    returns or raises, how many calls it made and the durations it passed
    to [asyncio.sleep]. *)

Module Yahoo.

Section Provider.
Context {DataFrame Error : Type}.

Inductive Attempt : Type :=
  | Raises (e : Error)
  | Gives (df : DataFrame).

Inductive Outcome : Type :=
  | Returned (df : DataFrame)
  | Raised (e : Error).

Record Run : Type := mkRun {
  outcome : Outcome;
  calls : nat;
  sleeps : list Q
}.

Variable empty : DataFrame -> bool.
Variable new_frame : DataFrame.
Variable with_required_columns : DataFrame -> DataFrame.
Variable history :
  string -> option string -> option string -> string -> nat -> Attempt.

(** The [while retries <= self.max_retries] loop; [fuel] bounds the
    number of turns and [None] means it ran out. *)
Fixpoint retry_loop (max_retries : Z) (backoff_factor : Q)
    (ticker : string) (start_date end_date : option string)
    (interval : string)
    (fuel : nat) (retries : Z) (calls : nat) (sleeps : list Q)
    : option Run :=
  if (retries <=? max_retries)%Z then
    match fuel with
    | O => None
    | S fuel' =>
        match history ticker start_date end_date interval calls with
        | Gives df =>
            if empty df
            then Some (mkRun (Returned new_frame) (S calls) sleeps)
            else Some (mkRun (Returned (with_required_columns df))
                             (S calls) sleeps)
        | Raises e =>
            let retries := (retries + 1)%Z in
            if (max_retries <? retries)%Z
            then Some (mkRun (Raised e) (S calls) sleeps)
            else
              let wait_time := Qpower backoff_factor retries in
              retry_loop max_retries backoff_factor ticker start_date
                end_date interval fuel' retries (S calls)
                (sleeps ++ [wait_time])
        end
    end
  else Some (mkRun (Returned new_frame) calls sleeps).

Definition get_historical_data (max_retries : Z) (backoff_factor : Q)
    (ticker : string) (start_date end_date : option string)
    (interval : string) : option Run :=
  retry_loop max_retries backoff_factor ticker start_date end_date interval
    (Z.to_nat (max_retries + 1)) 0 0 [].

End Provider.

End Yahoo.
(** * Vocabulary of the properties *)

(** A score on the 0-100 scale. *)
Definition in_range (q : Q) : Prop := 0 <= q /\ q <= 100.

(** The strength and the confidence of an emitted signal are on the
    0-100 scale. *)
Definition signal_in_range (o : option Signal.t) : Prop :=
  match o with
  | Some s => in_range (Signal.strength s) /\ in_range (Signal.confidence s)
  | None => True
  end.

(** The band string that goes with each risk level. *)
Definition band_of_level (l : RiskLevel) : string :=
  match l with
  | CONSERVATIVE => "0-33"
  | MODERATE => "34-66"
  | AGGRESSIVE => "67-100"
  end.

(** The three risk levels a user profile can name. *)
Definition recognized (level : string) : Prop :=
  level = "Conservative"%string \/ level = "Moderate"%string \/
  level = "Aggressive"%string.

(** The risk score the recommendation engine reads off a candidate:
    [stock.get("risk_score", 50)]. *)
Definition risk_of (stock : Stock.t) : Q := Py.get (Stock.risk_score stock) 50.

(** Membership of a closed interval, as a test. *)
Definition within (lo hi x : Q) : bool := Qle_bool lo x && Qle_bool x hi.

(** Sample candidates. *)
Definition candidate (ticker : string) (risk research signal : Q) : Stock.t :=
  {| Stock.ticker := Some ticker;
     Stock.sector := Some "Technology"%string;
     Stock.risk_score := Some risk;
     Stock.research_score := Some research;
     Stock.signal_score := Some signal |}.

(** Sums of the specification: [big_sum f l] is the sum of [f x] over the
    items [x] of [l]. *)
Fixpoint big_sum {A} (f : A -> Q) (l : list A) : Q :=
  match l with
  | [] => 0
  | x :: l' => f x + big_sum f l'
  end.

(** Clamping to [0,100]. *)
Definition clamp (x : Q) : Q := Qmax 0 (Qmin x 100).

(** The earnings surprise, in percent of the estimate, as binary64
    arithmetic evaluates (actual - estimate) / |estimate| * 100. *)
Definition surprise_pct (actual estimate : float) : float :=
  ((actual - estimate) / PrimFloat.abs estimate * 100)%float.

(** The total confidence weight and the confidence-weighted mean of the
    strengths of a set of signals. *)
Definition total_weight (signals : list Signal.t) : Q :=
  big_sum (fun s => Signal.confidence s / 100) signals.

Definition weighted_mean (signals : list Signal.t) : Q :=
  big_sum (fun s => Signal.strength s * (Signal.confidence s / 100)) signals
  / total_weight signals.

(** A signal that is valid input of the aggregation. *)
Definition valid_signal (s : Signal.t) : Prop :=
  in_range (Signal.strength s) /\ in_range (Signal.confidence s).

(** A sample signal. *)
Definition sample_signal (strength confidence : Q) : Signal.t :=
  {| Signal.ticker := "AAPL";
     Signal.signal_type := EARNINGS_SURPRISE;
     Signal.strength := strength;
     Signal.confidence := confidence;
     Signal.timestamp := 0%Z;
     Signal.metadata := [] |}.

(** A valuation ratio scaled by its divisor, times 100, capped at 100. *)
Definition scaled_capped (ratio divisor : Q) : Q :=
  Qmin (ratio / divisor * 100) 100.

(** The average of a list of scores, or a default when there is none. *)
Definition average_or (default : Q) (xs : list Q) : Q :=
  match xs with
  | [] => default
  | _ :: _ => big_sum (fun x => x) xs / Py.len xs
  end.

(** Valuation risk as the specification words it: every supplied ratio
    counts. *)
Definition supplied (ratio : option Q) (divisor : Q) : list Q :=
  match ratio with
  | Some r => [scaled_capped r divisor]
  | None => []
  end.

Definition valuation_of_supplied (pe pb ps : option Q) : Q :=
  average_or 50 (supplied pe 50 ++ supplied pb 8 ++ supplied ps 8).

(** Valuation risk over the supplied ratios that are strictly positive. *)
Definition supplied_positive (ratio : option Q) (divisor : Q) : list Q :=
  match ratio with
  | Some r => if Qlt_le_dec 0 r then [scaled_capped r divisor] else []
  | None => []
  end.

Definition valuation_of_positive (pe pb ps : option Q) : Q :=
  average_or 50
    (supplied_positive pe 50 ++ supplied_positive pb 8
     ++ supplied_positive ps 8).

(** A ratio that is absent or strictly positive. *)
Definition absent_or_positive (ratio : option Q) : Prop :=
  match ratio with Some r => 0 < r | None => True end.

(** Lists of scores that agree item by item. *)
Definition same_scores : list Q -> list Q -> Prop := Forall2 Qeq.

(** Descending order of the keys. *)
Definition descending {A} (key : A -> Q) (l : list A) : Prop :=
  StronglySorted (fun a b => key b <= key a) l.

(** The items of a list whose key equals [k], in the order of the list. *)
Definition with_key {A} (key : A -> Q) (k : Q) (l : list A) : list A :=
  filter (fun a => Qeq_bool (key a) k) l.

(** [l'] is [l] sorted by descending key with a stable sort: the same
    items, in descending order, items with equal keys in the order they
    have in [l]. *)
Definition stable_sort_desc {A} (key : A -> Q) (l l' : list A) : Prop :=
  Permutation l l' /\ descending key l' /\
  forall k, with_key key k l' = with_key key k l.

(** The final score of a recommendation. *)
Definition final_of (rec : StockRecommendation.t) : Q :=
  final_score (StockRecommendation.scores rec).

(** Ranks [i], [i+1], ... given to the items of a list in order. *)
Fixpoint ranked_from (i : Z) (recs : list StockRecommendation.t)
    : list StockRecommendation.t :=
  match recs with
  | [] => []
  | rec :: rest =>
      StockRecommendation.set_rank rec i :: ranked_from (i + 1) rest
  end.

(** The recommendations built for a candidate list, in order, or the
    first [KeyError]. *)
Fixpoint build_each (user_risk_level : string) (user_volatility_tolerance : Q)
    (stocks : list Stock.t) : Exc (list StockRecommendation.t) :=
  match stocks with
  | [] => Return []
  | stock :: rest =>
      rec <- RecommendationEngine.build_recommendation user_risk_level
               user_volatility_tolerance stock ;;
      recs <- build_each user_risk_level user_volatility_tolerance rest ;;
      Return (rec :: recs)
  end.

(** A candidate that carries the key ["ticker"]. *)
Definition has_ticker (stock : Stock.t) : Prop := Stock.ticker stock <> None.

(** The final score when the macro-fit term is the neutral 50, i.e.
    contributes 0.1 * 50 = 5. *)
Definition neutral_final (s : RecommendationScore) : Q :=
  clamp (0.4 * research_score s + 0.3 * signal_score s
         + 0.2 * risk_alignment_score s + 5).

(** What [rank_recommendations] computes for each recommendation when no
    market regime is passed. *)
Definition neutral_macro_fit (rec : StockRecommendation.t) : Prop :=
  macro_fit_score (StockRecommendation.scores rec) = 50 /\
  final_of rec == neutral_final (StockRecommendation.scores rec).

(** The ranking scenario of the specification: final scores 90, 70, 95. *)
Definition scenario : list Stock.t :=
  [ candidate "A" 50 87.5 100;
    candidate "B" 50 37.5 100;
    candidate "C" 50 100 100 ].

(** The recommendation [rank_recommendations] builds for a candidate:
    research, signal and risk alignment read off the candidate, a
    macro-fit score of 50 and the final score 0.4 * research
    + 0.3 * signal + 0.2 * risk_alignment + 5, clamped. *)
Definition built_neutral (level : string) (tolerance : Q)
    (stock : Stock.t) (rec : StockRecommendation.t) : Prop :=
  RecommendationEngine.build_recommendation level tolerance stock
    = Return rec /\
  research_score (StockRecommendation.scores rec)
    = Py.get (Stock.research_score stock) 50 /\
  signal_score (StockRecommendation.scores rec)
    = Py.get (Stock.signal_score stock) 50 /\
  risk_alignment_score (StockRecommendation.scores rec)
    = RecommendationEngine.calculate_risk_alignment_score
        (risk_of stock) level tolerance /\
  macro_fit_score (StockRecommendation.scores rec) = 50 /\
  final_of rec
    == clamp (0.4 * Py.get (Stock.research_score stock) 50
              + 0.3 * Py.get (Stock.signal_score stock) 50
              + 0.2 * RecommendationEngine.calculate_risk_alignment_score
                        (risk_of stock) level tolerance
              + 5).

(** The value a call returns in a world, and the world it leaves. *)
Definition value_of (call : Api.Call) (w : Service.World) : Api.Value :=
  fst (Service.perform call w).

Definition world_after (call : Api.Call) (w : Service.World) : Service.World :=
  snd (Service.perform call w).

(** The records a call appends to the log. *)
Definition emitted (call : Api.Call) : list Service.Message :=
  Service.log (world_after call (Service.mkWorld 0%Z [])).

(** ** Vocabulary of the further properties *)

(** Every component score of [c] is at most that of [c']. *)
Definition components_le (c c' : RiskComponents) : Prop :=
  volatility_score c <= volatility_score c' /\
  beta_score c <= beta_score c' /\
  leverage_score c <= leverage_score c' /\
  earnings_stability_score c <= earnings_stability_score c' /\
  sector_risk_score c <= sector_risk_score c' /\
  valuation_risk_score c <= valuation_risk_score c'.

(** The sentence of the risk explanation for given top two factors. *)
Definition risk_sentence (ticker : string) (risk_score : Q)
    (level : RiskLevel) (top second : string * Q) : string :=
  (ticker ++ " has an overall risk score of " ++ Py.format_1f risk_score
   ++ ", classified as " ++ RiskLevel_value level ++ ". "
   ++ "Primary risk factors are " ++ fst top ++ " ("
   ++ Py.format_1f (snd top) ++ ") "
   ++ "and " ++ fst second ++ " (" ++ Py.format_1f (snd second) ++ ").")%string.

(** Two detector results that agree on emission and, when a signal is
    emitted, on its strength and confidence. *)
Definition same_strength (o o' : option Signal.t) : Prop :=
  match o, o' with
  | Some s, Some s' =>
      Signal.strength s == Signal.strength s' /\
      Signal.confidence s = Signal.confidence s'
  | None, None => True
  | _, _ => False
  end.

(** The band the recommendation engine looks up for a risk level:
    [risk_bands.get(user_risk_level, (0, 100))]. *)
Definition band_of (level : string) : Q * Q :=
  Py.get (Py.lookup RecommendationEngine.risk_bands level) (0, 100).

(** A risk score inside the band of a level. *)
Definition in_band (level : string) (score : Q) : Prop :=
  fst (band_of level) <= score /\ score <= snd (band_of level).

(** A risk score 50 or more points outside the band of a level. *)
Definition far_from_band (level : string) (score : Q) : Prop :=
  score <= fst (band_of level) - 50 \/ snd (band_of level) + 50 <= score.

(** The alignment score of a stock inside the user's band: the base
    score 100, scaled by the tolerance and clamped. *)
Definition aligned_score (tolerance : Q) : Q :=
  clamp (100 * (0.7 + (tolerance / 100) * 0.3)).

(** A candidate whose research and signal scores, when present, are on
    the 0-100 scale. *)
Definition scored_on_scale (stock : Stock.t) : Prop :=
  in_range (Py.get (Stock.research_score stock) 50) /\
  in_range (Py.get (Stock.signal_score stock) 50).

(** The local [base_score] of [calculate_risk_alignment_score]. *)
Definition alignment_base (score : Q) (level : string) : Q :=
  let '(min_risk, max_risk) := band_of level in
  if Py.leb min_risk score && Py.leb score max_risk then 100
  else
    let distance :=
      if Py.ltb score min_risk then min_risk - score else score - max_risk in
    Py.max 0 (100 - (distance * 2)).

(** A candidate without the key ["ticker"]. *)
Definition lacks_ticker (stock : Stock.t) : Prop := Stock.ticker stock = None.

(** The final score of a candidate that passed the risk-band filter: the
    alignment term is the same for all of them. *)
Definition filtered_final (tolerance : Q) (s : RecommendationScore) : Q :=
  clamp (0.4 * research_score s + 0.3 * signal_score s
         + 0.2 * aligned_score tolerance + 0.1 * 50).

(** String order: [a] is not after [b]. *)
Definition str_le (a b : string) : Prop := String.ltb b a = false.

(** Ascending order of the string keys. *)
Definition ascending {A} (key : A -> string) (l : list A) : Prop :=
  StronglySorted (fun a b => str_le (key a) (key b)) l.

(** The items of a list whose string key equals [k], in the order of the
    list. *)
Definition with_str_key {A} (key : A -> string) (k : string) (l : list A)
    : list A :=
  filter (fun a => String.eqb (key a) k) l.

(** Every value the response reports for the given tags, in the order of
    the tags, of the units and of the values. *)
Definition reported (concepts : SEC.dict SEC.Concept) (tags : list string)
    : list SEC.Fact :=
  flat_map
    (fun tag =>
       match Py.lookup concepts tag with
       | Some concept =>
           flat_map (fun unit => snd unit)
                    (Py.get (SEC.units concept) [])
       | None => []
       end)
    tags.

(** The concepts [extract_metrics] reads: us-gaap overlaid with dei. *)
Definition concepts_of (f : SEC.Facts) : SEC.dict SEC.Concept :=
  SEC.merge (Py.get (SEC.us_gaap f) []) (Py.get (SEC.dei f) []).

(** The metric names, in the order of [TAG_MAPPINGS]. *)
Definition metric_names : list string :=
  [ "revenue"; "net_income"; "total_assets"; "total_debt"; "cash_flow";
    "shares_outstanding" ]%string.

(** A sample reported value. *)
Definition sample_fact (end_date : string) (value : Q) : SEC.Fact :=
  SEC.mkFact None (Some end_date) (Some value) None None None None None None.

Definition sample_data : SEC.Data :=
  SEC.mkData
    (Some (SEC.mkFacts
             (Some [ ("Revenues"%string,
                      SEC.mkConcept
                        (Some [ ("USD"%string,
                                 [ sample_fact "2023-09-30" 200;
                                   sample_fact "2022-09-30" 100 ]) ])) ])
             None)).

(** The waits of the exponential backoff before the retries 1 to [n]:
    [backoff ** 1], ..., [backoff ** n]. *)
Definition backoff_waits (backoff : Q) (n : nat) : list Q :=
  map (fun i => Qpower backoff (Z.of_nat i)) (seq 1 n).

(** What the provider returns for a fetched frame. *)
Definition delivered {DataFrame : Type} (empty : DataFrame -> bool)
    (new_frame : DataFrame) (with_required_columns : DataFrame -> DataFrame)
    (df : DataFrame) : DataFrame :=
  if empty df then new_frame else with_required_columns df.

(** A sample market-data service: frames are lists of closing prices, the
    first call times out, the second succeeds. *)
Definition sample_history
    (ticker : string) (start_date end_date : option string)
    (interval : string) (call : nat) : @Yahoo.Attempt (list Q) string :=
  match call with
  | O => Yahoo.Raises "timeout"%string
  | S _ => Yahoo.Gives [102; 104; 101]
  end.

Definition sample_empty (df : list Q) : bool :=
  match df with [] => true | _ :: _ => false end.


(** What a finished run of [get_historical_data] looks like, [attempt i]
    being the outcome of the call number [i] of the market-data service:
    at most [max_retries + 1] calls; a sleep of [backoff_factor ** i]
    after the failed call number [i - 1], the last one apart; every call
    but the last one raised; no call at all only for a negative
    [max_retries], and then an empty frame; otherwise the last call
    decides, its frame is delivered or its exception raised again once
    the retries are used up. *)
Definition retry_protocol {DataFrame Error : Type}
    (empty : DataFrame -> bool) (new_frame : DataFrame)
    (with_required_columns : DataFrame -> DataFrame)
    (attempt : nat -> @Yahoo.Attempt DataFrame Error)
    (max_retries : Z) (backoff_factor : Q)
    (run : @Yahoo.Run DataFrame Error) : Prop :=
  (Z.of_nat (Yahoo.calls run) <= Z.max 0 (max_retries + 1))%Z /\
  Yahoo.sleeps run = backoff_waits backoff_factor (Yahoo.calls run - 1) /\
  (forall i, (S i < Yahoo.calls run)%nat ->
             exists e, attempt i = Yahoo.Raises e) /\
  (Yahoo.calls run = O ->
   (max_retries < 0)%Z /\ Yahoo.outcome run = Yahoo.Returned new_frame) /\
  (forall last,
     Yahoo.calls run = S last ->
     match attempt last with
     | Yahoo.Gives df =>
         Yahoo.outcome run
         = Yahoo.Returned (delivered empty new_frame with_required_columns df)
     | Yahoo.Raises e =>
         Yahoo.outcome run = Yahoo.Raised e /\
         Z.of_nat (Yahoo.calls run) = (max_retries + 1)%Z
     end).
(** * Properties *)

(** ** Comparisons, [min], [max] and lookups *)

Lemma ltb_true (x y : Q) : Py.ltb x y = true <-> x < y.
Proof.
  unfold Py.ltb. rewrite negb_true_iff, <- not_true_iff_false, Qle_bool_iff.
  split; [apply Qnot_le_lt | apply Qlt_not_le].
Qed.

Lemma ltb_false (x y : Q) : Py.ltb x y = false <-> y <= x.
Proof.
  unfold Py.ltb. rewrite negb_false_iff. apply Qle_bool_iff.
Qed.

Lemma leb_true (x y : Q) : Py.leb x y = true <-> x <= y.
Proof. apply Qle_bool_iff. Qed.

Lemma leb_false (x y : Q) : Py.leb x y = false <-> y < x.
Proof.
  unfold Py.leb. rewrite <- not_true_iff_false, Qle_bool_iff.
  split; [apply Qnot_le_lt | apply Qlt_not_le].
Qed.

Lemma eqb_true (x y : Q) : Py.eqb x y = true <-> x == y.
Proof. apply Qeq_bool_iff. Qed.

Lemma eqb_false (x y : Q) : Py.eqb x y = false <-> ~ x == y.
Proof.
  unfold Py.eqb. rewrite <- not_true_iff_false, Qeq_bool_iff. tauto.
Qed.

(** Case analysis on every comparison of the goal, leaving linear facts. *)
Ltac py_case :=
  match goal with
  | |- context [Py.ltb ?x ?y] =>
      let E := fresh "E" in
      destruct (Py.ltb x y) eqn:E;
      [apply ltb_true in E | apply ltb_false in E]
  | |- context [Py.leb ?x ?y] =>
      let E := fresh "E" in
      destruct (Py.leb x y) eqn:E;
      [apply leb_true in E | apply leb_false in E]
  | |- context [Py.eqb ?x ?y] =>
      let E := fresh "E" in
      destruct (Py.eqb x y) eqn:E;
      [apply eqb_true in E | apply eqb_false in E]
  end.

(** Division by a literal as a multiplication, for [lra]. *)
Ltac div_literals :=
  unfold Qdiv in *;
  repeat match goal with
  | |- context [/ ?c] =>
      is_ground c; let r := eval vm_compute in (/ c) in
      progress change (/ c) with r
  | H : context [/ ?c] |- _ =>
      is_ground c; let r := eval vm_compute in (/ c) in
      progress change (/ c) with r in H
  end.

Ltac py_cases := unfold Py.min, Py.max; repeat py_case; cbn [andb orb].

Lemma clamp_in_range (x : Q) : in_range (Py.min (Py.max x 0) 100).
Proof. unfold in_range. py_cases; lra. Qed.

Lemma lookup_get_ind {V} (P : V -> Prop) (table : list (string * V))
    (key : string) (default : V) :
  Forall (fun kv => P (snd kv)) table -> P default ->
  P (Py.get (Py.lookup table key) default).
Proof.
  intros Htable Hdefault. induction Htable as [|[k v] rest Hv _ IH]; cbn.
  - exact Hdefault.
  - destruct (String.eqb k key); [exact Hv | exact IH].
Qed.

Lemma sum_from (xs : list Q) (a : Q) :
  fold_left Qplus xs a == a + Py.sum xs.
Proof.
  unfold Py.sum. revert a. induction xs as [|x xs IH]; intros a; cbn.
  - lra.
  - rewrite (IH (a + x)), (IH (0 + x)). lra.
Qed.

Lemma sum_cons (x : Q) (xs : list Q) : Py.sum (x :: xs) == x + Py.sum xs.
Proof. unfold Py.sum at 1. cbn. rewrite sum_from. lra. Qed.

Lemma py_min_Qmin (a b : Q) : Py.min a b == Qmin a b.
Proof.
  unfold Py.min. py_case.
  - rewrite Q.min_r; lra.
  - rewrite Q.min_l; lra.
Qed.

Lemma py_clamp (x y : Q) : x == y -> Py.min (Py.max x 0) 100 == clamp y.
Proof.
  intros Hxy. unfold clamp. rewrite py_min_Qmin.
  assert (Hmax : Py.max x 0 == Qmax y 0).
  { unfold Py.max. py_case; [rewrite Q.max_r | rewrite Q.max_l]; lra. }
  rewrite Hmax.
  destruct (Q.max_spec y 0) as [[? ->] | [? ->]];
    destruct (Q.min_spec y 100) as [[? ->] | [? ->]];
    repeat match goal with
    | |- context [Qmin ?a ?b] =>
        destruct (Q.min_spec a b) as [[? ->] | [? ->]]
    | |- context [Qmax ?a ?b] =>
        destruct (Q.max_spec a b) as [[? ->] | [? ->]]
    end; lra.
Qed.

Lemma clamp_id (x : Q) : in_range x -> clamp x == x.
Proof.
  intros [H0 H1]. unfold clamp. rewrite Q.min_l by exact H1.
  now rewrite Q.max_r.
Qed.

Lemma sum_map {A} (f : A -> Q) (l : list A) : Py.sum (map f l) == big_sum f l.
Proof.
  induction l as [|x l IH]; [reflexivity|].
  cbn [map big_sum]. now rewrite sum_cons, IH.
Qed.

(** ** Range of the scores *)

Lemma len_cons {A} (x : A) (xs : list A) : Py.len (x :: xs) == 1 + Py.len xs.
Proof.
  unfold Py.len. cbn [List.length]. rewrite Nat2Z.inj_succ, <- Z.add_1_l.
  now rewrite inject_Z_plus.
Qed.

Lemma len_nonneg {A} (xs : list A) : 0 <= Py.len xs.
Proof.
  unfold Py.len. change 0 with (inject_Z 0). rewrite <- Zle_Qle. lia.
Qed.

Lemma sum_bounds (xs : list Q) :
  Forall in_range xs -> 0 <= Py.sum xs /\ Py.sum xs <= 100 * Py.len xs.
Proof.
  induction 1 as [|x xs [Hx0 Hx1] _ [IH0 IH1]].
  - split; now vm_compute.
  - rewrite sum_cons, len_cons. lra.
Qed.

Lemma mean_in_range (xs : list Q) :
  xs <> [] -> Forall in_range xs -> in_range (Py.sum xs / Py.len xs).
Proof.
  intros Hne Hall. destruct (sum_bounds xs Hall) as [H0 H1].
  assert (Hlen : 0 < Py.len xs).
  { destruct xs as [|x xs]; [congruence|].
    rewrite len_cons. pose proof (len_nonneg xs). lra. }
  split.
  - apply Qle_shift_div_l; [exact Hlen | lra].
  - apply Qle_shift_div_r; [exact Hlen | lra].
Qed.

Section RiskScores.
Import RiskEngine.

Lemma volatility_score_in_range (hv : Q) (pct : option Q) :
  in_range (calculate_volatility_score hv pct).
Proof. apply clamp_in_range. Qed.

Lemma beta_score_in_range (beta : Q) :
  in_range (calculate_beta_score beta).
Proof.
  unfold calculate_beta_score. py_case.
  - unfold in_range. py_cases; lra.
  - apply clamp_in_range.
Qed.

Lemma leverage_score_in_range (de : Q) (ic : option Q) :
  in_range (calculate_leverage_score de ic).
Proof. apply clamp_in_range. Qed.

Lemma earnings_stability_score_in_range (ev : Q) (quarters : Z) :
  in_range (calculate_earnings_stability_score ev quarters).
Proof. apply clamp_in_range. Qed.

Lemma sector_risk_score_in_range (sector : string) :
  in_range (calculate_sector_risk_score sector).
Proof.
  unfold calculate_sector_risk_score. apply (lookup_get_ind in_range).
  - repeat constructor; cbn; lra.
  - split; lra.
Qed.

Lemma append_ratio_score_in_range (scores : list Q) (ratio : option Q) (d : Q) :
  0 < d -> Forall in_range scores ->
  Forall in_range (append_ratio_score scores ratio d).
Proof.
  intros Hd Hall. destruct ratio as [r|]; cbn; [|exact Hall].
  py_case; [|exact Hall].
  apply Forall_app. split; [exact Hall|]. constructor; [|constructor].
  assert (0 < r / d) by (apply Qlt_shift_div_l; lra).
  split; py_cases; lra.
Qed.

Lemma valuation_risk_score_in_range (pe pb ps : option Q) :
  in_range (calculate_valuation_risk_score pe pb ps).
Proof.
  unfold calculate_valuation_risk_score.
  set (scores := append_ratio_score _ ps 8).
  assert (Hall : Forall in_range scores).
  { subst scores. repeat (apply append_ratio_score_in_range; [lra|]).
    constructor. }
  destruct scores as [|x xs]; [split; lra|].
  apply mean_in_range; [discriminate | exact Hall].
Qed.

Lemma overall_risk_in_range (c : RiskComponents) :
  in_range (calculate_overall_risk c).
Proof. apply clamp_in_range. Qed.
End RiskScores.

Lemma inject_Z_le (a b : Z) : (a <= b)%Z -> inject_Z a <= inject_Z b.
Proof. now rewrite <- Zle_Qle. Qed.

Section SignalScores.
Import SignalEngine.

Lemma earnings_surprise_in_range now ticker actual estimated ts :
  signal_in_range (detect_earnings_surprise now ticker actual estimated ts).
Proof.
  unfold detect_earnings_surprise. repeat py_case; try exact I.
  cbn [signal_in_range Signal.strength Signal.confidence]. unfold in_range. py_cases; lra.
Qed.

Lemma institutional_buying_in_range now ticker change n ts :
  signal_in_range (detect_institutional_buying now ticker change n ts).
Proof.
  unfold detect_institutional_buying. py_case; cbn [orb]; [exact I|].
  destruct (n <? 3)%Z eqn:En; [exact I|]. apply Z.ltb_ge in En.
  pose proof (inject_Z_le 15 (n * 5) ltac:(lia)) as H15.
  pose proof (inject_Z_le 75 (60 + n * 5) ltac:(lia)) as H75.
  change (inject_Z 15) with 15 in H15. change (inject_Z 75) with 75 in H75.
  cbn [signal_in_range Signal.strength Signal.confidence]. unfold in_range. py_cases; lra.
Qed.

Lemma insider_buying_in_range now ticker buy sell n ts :
  signal_in_range (detect_insider_buying now ticker buy sell n ts).
Proof.
  unfold detect_insider_buying.
  destruct (Py.leb (buy - sell) 0) eqn:Enet; cbn [orb]; [exact I|].
  apply leb_false in Enet.
  destruct (n <? 2)%Z eqn:En; [exact I|]. apply Z.ltb_ge in En.
  pose proof (inject_Z_le 20 (n * 10) ltac:(lia)) as H20.
  change (inject_Z 20) with 20 in H20.
  assert (Hratio : 0 <= (if Py.ltb 0 sell then buy / sell else 10.0)).
  { py_case; [|lra]. apply Qle_shift_div_l; lra. }
  cbv zeta.
  cbn [signal_in_range Signal.strength Signal.confidence]. unfold in_range.
  set (ratio := if Py.ltb 0 sell then _ else _) in *.
  py_cases; lra.
Qed.

Lemma sentiment_spike_in_range now ticker current baseline volume ts :
  signal_in_range (detect_sentiment_spike now ticker current baseline volume ts).
Proof.
  unfold detect_sentiment_spike. py_case; cbn [orb]; [exact I|].
  destruct (volume <? 100)%Z eqn:Ev; [exact I|]. apply Z.ltb_ge in Ev.
  pose proof (inject_Z_le 100 volume Ev) as H100.
  change (inject_Z 100) with 100 in H100.
  cbn [signal_in_range Signal.strength Signal.confidence].
  unfold in_range. py_cases; div_literals; lra.
Qed.

Lemma aggregate_signals_in_range signals ticker :
  in_range (aggregate_signals signals ticker).
Proof.
  unfold aggregate_signals. destruct signals as [|s signals].
  - split; lra.
  - py_case; [split; lra | apply clamp_in_range].
Qed.
End SignalScores.

Section RecommendationScores.
Import RecommendationEngine.

Lemma risk_alignment_score_in_range score level tolerance :
  in_range (calculate_risk_alignment_score score level tolerance).
Proof.
  unfold calculate_risk_alignment_score.
  destruct (Py.get _ _) as [min_risk max_risk]. apply clamp_in_range.
Qed.

Lemma macro_fit_score_in_range sector regime :
  in_range (calculate_macro_fit_score sector regime).
Proof.
  unfold calculate_macro_fit_score.
  apply (lookup_get_ind in_range); [|split; lra].
  apply (lookup_get_ind (Forall (fun kv => in_range (snd kv)))).
  - repeat constructor; cbn; lra.
  - repeat constructor; cbn; lra.
Qed.

Lemma final_score_in_range research signal alignment macro :
  in_range (calculate_final_score research signal alignment macro).
Proof. apply clamp_in_range. Qed.
End RecommendationScores.

(** Claim C1 (range invariant).  Every score the three engines produce
    lies in [0,100]: the six risk components, the overall risk score and
    the scores stored by [analyze_stock_risk]; the strength and the
    confidence of a signal emitted by any of the four detectors; the
    aggregated signal score; the risk-alignment, macro-fit and final
    recommendation scores.  In exact arithmetic this holds for every
    input, hence for every valid one. *)
Theorem score_range_invariant :
  (forall hv pct, in_range (RiskEngine.calculate_volatility_score hv pct)) /\
  (forall beta, in_range (RiskEngine.calculate_beta_score beta)) /\
  (forall de ic, in_range (RiskEngine.calculate_leverage_score de ic)) /\
  (forall ev quarters,
     in_range (RiskEngine.calculate_earnings_stability_score ev quarters)) /\
  (forall sector, in_range (RiskEngine.calculate_sector_risk_score sector)) /\
  (forall pe pb ps,
     in_range (RiskEngine.calculate_valuation_risk_score pe pb ps)) /\
  (forall c, in_range (RiskEngine.calculate_overall_risk c)) /\
  (forall ticker hv beta de ev quarters sector pct ic pe pb ps,
     let a := RiskEngine.analyze_stock_risk ticker hv beta de ev quarters
                sector pct ic pe pb ps in
     in_range (RiskAnalysis.overall_risk_score a) /\
     in_range (volatility_score (RiskAnalysis.components a)) /\
     in_range (beta_score (RiskAnalysis.components a)) /\
     in_range (leverage_score (RiskAnalysis.components a)) /\
     in_range (earnings_stability_score (RiskAnalysis.components a)) /\
     in_range (sector_risk_score (RiskAnalysis.components a)) /\
     in_range (valuation_risk_score (RiskAnalysis.components a))) /\
  (forall now ticker actual estimated ts,
     signal_in_range
       (SignalEngine.detect_earnings_surprise now ticker actual estimated ts)) /\
  (forall now ticker change n ts,
     signal_in_range
       (SignalEngine.detect_institutional_buying now ticker change n ts)) /\
  (forall now ticker buy sell n ts,
     signal_in_range
       (SignalEngine.detect_insider_buying now ticker buy sell n ts)) /\
  (forall now ticker current baseline volume ts,
     signal_in_range
       (SignalEngine.detect_sentiment_spike now ticker current baseline
          volume ts)) /\
  (forall signals ticker,
     in_range (SignalEngine.aggregate_signals signals ticker)) /\
  (forall score level tolerance,
     in_range
       (RecommendationEngine.calculate_risk_alignment_score score level
          tolerance)) /\
  (forall sector regime,
     in_range (RecommendationEngine.calculate_macro_fit_score sector regime)) /\
  (forall research signal alignment macro,
     in_range
       (RecommendationEngine.calculate_final_score research signal alignment
          macro)).
Proof.
  repeat match goal with |- _ /\ _ => split end; intros.
  - apply volatility_score_in_range.
  - apply beta_score_in_range.
  - apply leverage_score_in_range.
  - apply earnings_stability_score_in_range.
  - apply sector_risk_score_in_range.
  - apply valuation_risk_score_in_range.
  - apply overall_risk_in_range.
  - subst a. cbn [RiskEngine.analyze_stock_risk RiskAnalysis.overall_risk_score
                  RiskAnalysis.components volatility_score beta_score
                  leverage_score earnings_stability_score sector_risk_score
                  valuation_risk_score].
    repeat split;
      first [ apply overall_risk_in_range | apply volatility_score_in_range
            | apply beta_score_in_range | apply leverage_score_in_range
            | apply earnings_stability_score_in_range
            | apply sector_risk_score_in_range
            | apply valuation_risk_score_in_range ].
  - apply earnings_surprise_in_range.
  - apply institutional_buying_in_range.
  - apply insider_buying_in_range.
  - apply sentiment_spike_in_range.
  - apply aggregate_signals_in_range.
  - apply risk_alignment_score_in_range.
  - apply macro_fit_score_in_range.
  - apply final_score_in_range.
Qed.

(** ** Classification and band *)

Lemma risk_band_of_level (s : Q) :
  RiskEngine.get_risk_band s
    = band_of_level (RiskEngine.classify_risk_level s).
Proof.
  unfold RiskEngine.get_risk_band, RiskEngine.classify_risk_level.
  now repeat py_case.
Qed.

(** Claim C3 (classification consistency).  For every risk score [s],
    [classify_risk_level] and [get_risk_band] pick the same band:
    [s <= 33.33] gives Conservative and "0-33", [33.33 < s <= 66.67] gives
    Moderate and "34-66", [66.67 < s] gives Aggressive and "67-100"; the
    score 33.33 is Conservative/"0-33" and 33.34 is Moderate/"34-66". *)
Theorem classification_consistency (s : Q) :
  RiskEngine.get_risk_band s
    = band_of_level (RiskEngine.classify_risk_level s) /\
  (s <= 33.33 ->
   RiskEngine.classify_risk_level s = CONSERVATIVE /\
   RiskEngine.get_risk_band s = "0-33"%string) /\
  (33.33 < s -> s <= 66.67 ->
   RiskEngine.classify_risk_level s = MODERATE /\
   RiskEngine.get_risk_band s = "34-66"%string) /\
  (66.67 < s ->
   RiskEngine.classify_risk_level s = AGGRESSIVE /\
   RiskEngine.get_risk_band s = "67-100"%string) /\
  (RiskEngine.classify_risk_level 33.33 = CONSERVATIVE /\
   RiskEngine.get_risk_band 33.33 = "0-33"%string) /\
  (RiskEngine.classify_risk_level 33.34 = MODERATE /\
   RiskEngine.get_risk_band 33.34 = "34-66"%string).
Proof.
  unfold RiskEngine.classify_risk_level, RiskEngine.get_risk_band,
    RiskEngine.CONSERVATIVE_THRESHOLD, RiskEngine.MODERATE_THRESHOLD.
  repeat split; try reflexivity; intros; repeat py_case;
    solve [reflexivity | lra].
Qed.

Lemma classification_consistency_witness :
  RiskEngine.classify_risk_level 50 = MODERATE /\
  RiskEngine.get_risk_band 50 = "34-66"%string.
Proof.
  destruct (classification_consistency 50) as (_ & _ & Hmoderate & _).
  apply Hmoderate; [reflexivity | discriminate].
Defined.

(** ** Valuation risk *)

Section Valuation.
Import RiskEngine.

Lemma same_scores_app (xs xs' ys ys' : list Q) :
  same_scores xs xs' -> same_scores ys ys' ->
  same_scores (xs ++ ys) (xs' ++ ys').
Proof. apply Forall2_app. Qed.

Lemma same_scores_sum (xs ys : list Q) :
  same_scores xs ys -> Py.sum xs == big_sum (fun x => x) ys.
Proof.
  induction 1 as [|x y xs ys Hxy _ IH]; [reflexivity|].
  cbn [big_sum]. now rewrite sum_cons, IH, Hxy.
Qed.

Lemma same_scores_average (xs ys : list Q) :
  same_scores xs ys ->
  match xs with
  | [] => 50
  | _ :: _ => Py.sum xs / Py.len xs
  end == average_or 50 ys.
Proof.
  intros Hsame. pose proof (same_scores_sum _ _ Hsame) as Hsum.
  pose proof (Forall2_length Hsame) as Hlen.
  destruct Hsame as [|x y xs ys Hxy Hrest]; [reflexivity|].
  unfold average_or, Py.len. rewrite Hsum, Hlen. reflexivity.
Qed.

Lemma append_ratio_score_positive
    (scores scores' : list Q) (ratio : option Q) (d : Q) :
  same_scores scores scores' ->
  same_scores (append_ratio_score scores ratio d)
              (scores' ++ supplied_positive ratio d).
Proof.
  intros Hsame. unfold append_ratio_score, supplied_positive.
  destruct ratio as [r|]; [|now rewrite app_nil_r].
  destruct (Qlt_le_dec 0 r) as [Hpos | Hneg].
  - apply ltb_true in Hpos. rewrite Hpos.
    apply same_scores_app; [exact Hsame|].
    constructor; [apply py_min_Qmin | constructor].
  - apply ltb_false in Hneg. rewrite Hneg. now rewrite app_nil_r.
Qed.

Lemma valuation_risk_score_positive (pe pb ps : option Q) :
  calculate_valuation_risk_score pe pb ps == valuation_of_positive pe pb ps.
Proof.
  unfold calculate_valuation_risk_score, valuation_of_positive.
  apply same_scores_average. rewrite app_assoc.
  apply append_ratio_score_positive.
  apply append_ratio_score_positive.
  apply (append_ratio_score_positive [] []). constructor.
Qed.

Lemma supplied_positive_eq (ratio : option Q) (d : Q) :
  absent_or_positive ratio -> supplied_positive ratio d = supplied ratio d.
Proof.
  destruct ratio as [r|]; [|reflexivity]. cbn. intros Hpos.
  destruct (Qlt_le_dec 0 r); [reflexivity | lra].
Qed.
End Valuation.

(** Claim C8, as stated, fails: a ratio that is supplied but not strictly
    positive is left out of the average.  With a P/E of -10 and a P/B of 4
    the code returns 50 (the P/B score alone), where the average over the
    two supplied ratios would be 15. *)
Lemma nonpositive_ratio_is_skipped :
  RiskEngine.calculate_valuation_risk_score (Some (-10)) (Some 4) None == 50 /\
  valuation_of_supplied (Some (-10)) (Some 4) None == 15 /\
  ~ RiskEngine.calculate_valuation_risk_score (Some (-10)) (Some 4) None
    == valuation_of_supplied (Some (-10)) (Some 4) None.
Proof.
  split; [reflexivity|]. split; [reflexivity|].
  intros Heq. vm_compute in Heq. discriminate Heq.
Qed.

(** Claim C8, amended.  The valuation risk score is the average of the
    scaled-and-capped scores (P/E over 50, P/B over 8, P/S over 8, times
    100, capped at 100) of the supplied ratios that are strictly positive,
    and 50 when no strictly positive ratio is supplied; when every
    supplied ratio is strictly positive it is the average over exactly the
    supplied ratios. *)
Theorem valuation_risk_score_average (pe pb ps : option Q) :
  RiskEngine.calculate_valuation_risk_score pe pb ps
    == valuation_of_positive pe pb ps /\
  (supplied_positive pe 50 ++ supplied_positive pb 8
     ++ supplied_positive ps 8 = [] ->
   RiskEngine.calculate_valuation_risk_score pe pb ps == 50) /\
  (absent_or_positive pe -> absent_or_positive pb -> absent_or_positive ps ->
   RiskEngine.calculate_valuation_risk_score pe pb ps
     == valuation_of_supplied pe pb ps).
Proof.
  pose proof (valuation_risk_score_positive pe pb ps) as Hpos.
  split; [exact Hpos|]. split.
  - intros Hnone. rewrite Hpos. unfold valuation_of_positive.
    now rewrite Hnone.
  - intros Hpe Hpb Hps. rewrite Hpos.
    unfold valuation_of_positive, valuation_of_supplied.
    now rewrite !supplied_positive_eq.
Qed.

Lemma valuation_risk_score_average_witness :
  RiskEngine.calculate_valuation_risk_score (Some 25.0) (Some 3.5) None
    == valuation_of_supplied (Some 25.0) (Some 3.5) None.
Proof.
  apply (valuation_risk_score_average (Some 25.0) (Some 3.5) None);
    [reflexivity | reflexivity | exact I].
Defined.

(** ** Filtering by risk band *)

Section RiskBands.
Import RecommendationEngine.

Lemma within_true (lo hi x : Q) : within lo hi x = true <-> lo <= x /\ x <= hi.
Proof. unfold within. now rewrite andb_true_iff, !Qle_bool_iff. Qed.

Lemma band_of_unrecognized (level : string) :
  ~ recognized level -> Py.lookup risk_bands level = None.
Proof.
  unfold recognized. intros Hno. unfold risk_bands. cbn [Py.lookup].
  repeat match goal with
  | |- context [String.eqb ?k level] =>
      destruct (String.eqb_spec k level); [exfalso; apply Hno; subst; auto|]
  end.
  reflexivity.
Qed.

Lemma band_of_recognized (level : string) :
  recognized level ->
  Py.get (Py.lookup risk_bands level) (0, 100) = (0, 33) \/
  Py.get (Py.lookup risk_bands level) (0, 100) = (34, 66) \/
  Py.get (Py.lookup risk_bands level) (0, 100) = (67, 100).
Proof. intros [-> | [-> | ->]]; cbn; auto. Qed.

(** The filter keeps, in their order, the candidates whose risk score is
    inside the band looked up for the level. *)
Lemma filter_by_risk_band_within (stocks : list Stock.t) (level : string) :
  filter_by_risk_band stocks level =
  filter (fun stock =>
            within (fst (Py.get (Py.lookup risk_bands level) (0, 100)))
                   (snd (Py.get (Py.lookup risk_bands level) (0, 100)))
                   (risk_of stock))
         stocks.
Proof.
  unfold filter_by_risk_band.
  now destruct (Py.get (Py.lookup risk_bands level) (0, 100)).
Qed.
End RiskBands.

(** Claim C6 (band filter).  With the level "Moderate" the filter
    retains exactly the candidates whose risk score (50 when the
    candidate carries none) lies in [34,66] and drops the others.  With a
    level that is not recognized the band is the full 0-100 scale: the
    filter retains exactly the candidates whose risk score lies in
    [0,100], that is every candidate of a list whose risk scores are on
    the 0-100 scale, so nothing is filtered. *)
Theorem filter_by_risk_band_bands (stocks : list Stock.t) :
  (RecommendationEngine.filter_by_risk_band stocks "Moderate"
     = filter (fun stock => within 34 66 (risk_of stock)) stocks /\
   forall stock,
     In stock (RecommendationEngine.filter_by_risk_band stocks "Moderate")
     <-> In stock stocks /\ 34 <= risk_of stock /\ risk_of stock <= 66) /\
  (forall level,
     ~ recognized level ->
     RecommendationEngine.filter_by_risk_band stocks level
       = filter (fun stock => within 0 100 (risk_of stock)) stocks /\
     (forall stock,
        In stock (RecommendationEngine.filter_by_risk_band stocks level)
        <-> In stock stocks /\ 0 <= risk_of stock /\ risk_of stock <= 100) /\
     (Forall (fun stock => in_range (risk_of stock)) stocks ->
      RecommendationEngine.filter_by_risk_band stocks level = stocks)).
Proof.
  split; [|intros level Hno].
  - rewrite filter_by_risk_band_within. split; [reflexivity|].
    intros stock. rewrite filter_In. cbn [fst snd Py.get].
    change (Py.lookup RecommendationEngine.risk_bands "Moderate")
      with (Some (34, 66)). cbn [Py.get fst snd].
    now rewrite within_true.
  - rewrite filter_by_risk_band_within, (band_of_unrecognized level Hno).
    cbn [Py.get fst snd]. split; [reflexivity|]. split.
    + intros stock. now rewrite filter_In, within_true.
    + intros Hall. induction Hall as [|stock rest Hin _ IH]; [reflexivity|].
      cbn [filter]. apply within_true in Hin. now rewrite Hin, IH.
Qed.

Lemma filter_by_risk_band_bands_witness :
  RecommendationEngine.filter_by_risk_band
    [candidate "AAPL" 55 85 75; candidate "JNJ" 35 80 65] "Speculative"
  = [candidate "AAPL" 55 85 75; candidate "JNJ" 35 80 65].
Proof.
  apply (filter_by_risk_band_bands
           [candidate "AAPL" 55 85 75; candidate "JNJ" 35 80 65]).
  - intros [H | [H | H]]; discriminate H.
  - repeat constructor; discriminate.
Defined.

(** Claim C10 (gaps between the filter's bands).  A risk score strictly
    between 33 and 34 or strictly between 66 and 67 is classified by
    [classify_risk_level], and [get_risk_band] gives the band string of
    that level, yet [filter_by_risk_band] drops a candidate with that
    score for each of the three recognized risk levels.  The score 33.5 is
    Moderate with band "34-66". *)
Theorem band_gaps_excluded :
  (forall (s : Q) (stock : Stock.t) (stocks : list Stock.t) (level : string),
     (33 < s /\ s < 34) \/ (66 < s /\ s < 67) ->
     Stock.risk_score stock = Some s ->
     recognized level ->
     RiskEngine.get_risk_band s
       = band_of_level (RiskEngine.classify_risk_level s) /\
     ~ In stock (RecommendationEngine.filter_by_risk_band stocks level)) /\
  RiskEngine.classify_risk_level 33.5 = MODERATE /\
  RiskEngine.get_risk_band 33.5 = "34-66"%string.
Proof.
  split; [|split; reflexivity].
  intros s stock stocks level Hgap Hscore Hlevel.
  split; [apply risk_band_of_level|].
  rewrite filter_by_risk_band_within, filter_In, within_true.
  unfold risk_of. rewrite Hscore. cbn [Py.get].
  destruct (band_of_recognized level Hlevel) as [-> | [-> | ->]];
    cbn [fst snd]; lra.
Qed.

Lemma band_gaps_excluded_witness :
  RiskEngine.get_risk_band 33.5
    = band_of_level (RiskEngine.classify_risk_level 33.5) /\
  ~ In (candidate "XYZ" 33.5 80 70)
       (RecommendationEngine.filter_by_risk_band
          [candidate "XYZ" 33.5 80 70] "Moderate").
Proof.
  apply (proj1 band_gaps_excluded 33.5).
  - left. split; reflexivity.
  - reflexivity.
  - right. left. reflexivity.
Defined.

(** ** Signals *)

#[local] Set Warnings "-inexact-float".

(** Claim C7, as stated, fails on its example: in the binary64 arithmetic
    of the code, actual 1.15 and estimate 1.00 give a surprise of
    14.999999999999991, not 15, and a strength of 29.999999999999982,
    not 30. *)
Lemma earnings_example_is_not_exact :
  surprise_pct 1.15 1.00 <> 15%float /\
  exists s,
    Binary64.detect_earnings_surprise 0%Z "AAPL" 1.15 1.00 None = Some s /\
    Binary64.Signal.strength s <> 30%float /\
    PrimFloat.ltb (Binary64.Signal.strength s) 30%float = true.
Proof.
  split.
  - intros H. vm_compute in H. discriminate H.
  - eexists. split; [vm_compute; reflexivity|].
    split; [|vm_compute; reflexivity].
    cbn [Binary64.Signal.strength]. intros H. vm_compute in H. discriminate H.
Qed.

(** Claim C7, amended.  With surprise% = (actual - estimate) / |estimate|
    * 100 evaluated in binary64, [detect_earnings_surprise] returns no
    signal when the estimate equals 0 and when |surprise%| < 5; otherwise
    it returns a signal of strength min(|surprise%| * 2, 100) and
    confidence exactly 95.0.  For actual 1.15 and estimate 1.00 the
    surprise is 14.999999999999991 and the signal has confidence 95.0 and
    strength 29.999999999999982. *)
Theorem earnings_surprise_detection
    (now : datetime) (ticker : string) (actual estimated : float)
    (ts : option datetime) :
  (PrimFloat.eqb estimated 0%float = true ->
   Binary64.detect_earnings_surprise now ticker actual estimated ts = None) /\
  (PrimFloat.eqb estimated 0%float = false ->
   PrimFloat.ltb (PrimFloat.abs (surprise_pct actual estimated)) 5%float
     = true ->
   Binary64.detect_earnings_surprise now ticker actual estimated ts = None) /\
  (PrimFloat.eqb estimated 0%float = false ->
   PrimFloat.ltb (PrimFloat.abs (surprise_pct actual estimated)) 5%float
     = false ->
   exists s,
     Binary64.detect_earnings_surprise now ticker actual estimated ts
       = Some s /\
     Binary64.Signal.signal_type s = EARNINGS_SURPRISE /\
     Binary64.Signal.strength s
       = Binary64.min
           (PrimFloat.abs (surprise_pct actual estimated) * 2)%float
           100%float /\
     Binary64.Signal.confidence s = 95.0%float) /\
  (surprise_pct 1.15 1.00 = 14.999999999999991%float /\
   exists s,
     Binary64.detect_earnings_surprise now ticker 1.15 1.00 ts = Some s /\
     Binary64.Signal.strength s = 29.999999999999982%float /\
     Binary64.Signal.confidence s = 95.0%float).
Proof.
  unfold Binary64.detect_earnings_surprise.
  fold (surprise_pct actual estimated).
  repeat match goal with |- _ /\ _ => split end.
  - intros Hzero. now rewrite Hzero.
  - intros Hnz Hsmall. now rewrite Hnz, Hsmall.
  - intros Hnz Hbig. rewrite Hnz, Hbig. eexists. split; [reflexivity|].
    repeat split.
  - vm_compute. reflexivity.
  - eexists. split; [vm_compute; reflexivity|].
    split; vm_compute; reflexivity.
Qed.

Lemma earnings_surprise_detection_witness :
  exists s,
    Binary64.detect_earnings_surprise 0%Z "AAPL" 1.15 1.00 None = Some s /\
    Binary64.Signal.signal_type s = EARNINGS_SURPRISE /\
    Binary64.Signal.strength s
      = Binary64.min (PrimFloat.abs (surprise_pct 1.15 1.00) * 2)%float
          100%float /\
    Binary64.Signal.confidence s = 95.0%float.
Proof.
  destruct (earnings_surprise_detection 0%Z "AAPL" 1.15 1.00 None)
    as (_ & _ & Hemit & _).
  apply Hemit; vm_compute; reflexivity.
Defined.

(** The rounding can also decide the emission: for actual 3.15 and
    estimate 3.0 the surprise evaluates to 4.9999999999999964, below the
    threshold, and no signal is returned. *)
Lemma earnings_rounding_below_threshold :
  surprise_pct 3.15 3.0 = 4.9999999999999964%float /\
  Binary64.detect_earnings_surprise 0%Z "AAPL" 3.15 3.0 None = None.
Proof. split; vm_compute; reflexivity. Qed.

Lemma weighted_sum_bounds (signals : list Signal.t) :
  Forall valid_signal signals ->
  0 <= big_sum (fun s => Signal.strength s * (Signal.confidence s / 100))
         signals /\
  big_sum (fun s => Signal.strength s * (Signal.confidence s / 100)) signals
    <= 100 * total_weight signals.
Proof.
  unfold total_weight.
  induction 1 as [|s signals [[Hs0 Hs1] [Hc0 Hc1]] _ [IH0 IH1]];
    cbn [big_sum]; [lra|].
  set (w := Signal.confidence s / 100).
  assert (Hw : 0 <= w) by (subst w; div_literals; lra).
  pose proof (Qmult_le_0_compat _ _ Hs0 Hw).
  pose proof (Qmult_le_0_compat _ _ (proj1 (Qle_minus_iff _ _) Hs1) Hw).
  lra.
Qed.

(** Claim C4 (aggregation).  [aggregate_signals] returns exactly 50.0 on
    the empty list and whenever the total confidence weight is zero; on a
    non-empty list of positive total weight it returns the
    confidence-weighted mean of the strengths, clamped to [0,100] (and the
    clamp changes nothing when the signals are valid). *)
Theorem aggregate_signals_weighted_mean
    (signals : list Signal.t) (ticker : string) :
  SignalEngine.aggregate_signals [] ticker = 50.0 /\
  (total_weight signals == 0 ->
   SignalEngine.aggregate_signals signals ticker = 50.0) /\
  (signals <> [] -> 0 < total_weight signals ->
   SignalEngine.aggregate_signals signals ticker
     == clamp (weighted_mean signals)) /\
  (signals <> [] -> 0 < total_weight signals ->
   Forall valid_signal signals ->
   SignalEngine.aggregate_signals signals ticker == weighted_mean signals).
Proof.
  assert (Hmean : signals <> [] -> 0 < total_weight signals ->
                  SignalEngine.aggregate_signals signals ticker
                    == clamp (weighted_mean signals)).
  { intros Hne Hpos. unfold SignalEngine.aggregate_signals.
    destruct signals as [|s rest]; [congruence|].
    set (signals := s :: rest) in *.
    destruct (Py.eqb _ 0) eqn:E.
    - apply eqb_true in E. rewrite sum_map in E.
      fold (total_weight signals) in E. lra.
    - apply py_clamp. unfold weighted_mean, total_weight.
      now rewrite !sum_map. }
  split; [reflexivity|]. split; [|split; [exact Hmean|]].
  - intros Hzero. unfold SignalEngine.aggregate_signals.
    destruct signals as [|s rest]; [reflexivity|].
    set (signals := s :: rest) in *.
    destruct (Py.eqb _ 0) eqn:E; [reflexivity|].
    apply eqb_false in E. rewrite sum_map in E. contradiction.
  - intros Hne Hpos Hvalid. rewrite (Hmean Hne Hpos). apply clamp_id.
    destruct (weighted_sum_bounds signals Hvalid) as [H0 H1].
    unfold weighted_mean. split.
    + apply Qle_shift_div_l; [exact Hpos | lra].
    + apply Qle_shift_div_r; [exact Hpos | lra].
Qed.

Lemma aggregate_signals_weighted_mean_witness :
  SignalEngine.aggregate_signals
    [sample_signal 80 50; sample_signal 40 100] "AAPL"
  == weighted_mean [sample_signal 80 50; sample_signal 40 100].
Proof.
  apply (aggregate_signals_weighted_mean
           [sample_signal 80 50; sample_signal 40 100] "AAPL").
  - discriminate.
  - reflexivity.
  - repeat constructor; discriminate.
Defined.

(** ** The stable descending sort *)

Section SortedDesc.
Context {A : Type} (key : A -> Q).

Lemma insert_desc_perm (x : A) (l : list A) :
  Permutation (x :: l) (Py.insert_desc key x l).
Proof.
  induction l as [|y l IH]; cbn; [reflexivity|].
  destruct (Py.ltb (key x) (key y)); [|reflexivity].
  rewrite perm_swap. now constructor.
Qed.

Lemma sorted_desc_perm (l : list A) : Permutation l (Py.sorted_desc key l).
Proof.
  induction l as [|x l IH]; cbn; [constructor|].
  rewrite <- insert_desc_perm. now constructor.
Qed.

Lemma insert_desc_descending (x : A) (l : list A) :
  descending key l -> descending key (Py.insert_desc key x l).
Proof.
  unfold descending. induction 1 as [|y l Hl IH Hy]; cbn.
  - repeat constructor.
  - destruct (Py.ltb (key x) (key y)) eqn:E.
    + apply ltb_true in E. constructor; [exact IH|].
      apply (Permutation_Forall (insert_desc_perm x l)).
      constructor; [lra | exact Hy].
    + apply ltb_false in E. constructor; [now constructor|].
      constructor; [exact E|].
      eapply Forall_impl; [|exact Hy]. cbn. intros z Hz. lra.
Qed.

Lemma sorted_desc_descending (l : list A) :
  descending key (Py.sorted_desc key l).
Proof.
  induction l as [|x l IH]; cbn; [constructor|].
  now apply insert_desc_descending.
Qed.

Lemma insert_desc_with_key (k : Q) (x : A) (l : list A) :
  with_key key k (Py.insert_desc key x l) = with_key key k (x :: l).
Proof.
  unfold with_key. induction l as [|y l IH]; [reflexivity|].
  cbn [Py.insert_desc]. destruct (Py.ltb (key x) (key y)) eqn:E;
    [|reflexivity].
  apply ltb_true in E. cbn [filter] in *. rewrite IH.
  destruct (Qeq_bool (key x) k) eqn:Ex; [|reflexivity].
  destruct (Qeq_bool (key y) k) eqn:Ey; [|reflexivity].
  apply Qeq_bool_iff in Ex, Ey. lra.
Qed.

Lemma sorted_desc_with_key (k : Q) (l : list A) :
  with_key key k (Py.sorted_desc key l) = with_key key k l.
Proof.
  induction l as [|x l IH]; [reflexivity|].
  cbn [Py.sorted_desc fold_right]. rewrite insert_desc_with_key.
  unfold with_key in *. cbn [filter]. fold (Py.sorted_desc key l).
  now rewrite IH.
Qed.

Lemma sorted_desc_stable (l : list A) :
  stable_sort_desc key l (Py.sorted_desc key l).
Proof.
  split; [apply sorted_desc_perm|].
  split; [apply sorted_desc_descending | intros k; apply sorted_desc_with_key].
Qed.

(** Sorting references by the key of what they refer to is sorting
    the referents. *)
Lemma insert_desc_map {B : Type} (f : B -> A) (b : B) (l : list B) :
  map f (Py.insert_desc (fun b => key (f b)) b l)
  = Py.insert_desc key (f b) (map f l).
Proof.
  induction l as [|c l IH]; [reflexivity|].
  cbn [Py.insert_desc map].
  destruct (Py.ltb (key (f b)) (key (f c))); cbn [map]; [|reflexivity].
  now rewrite IH.
Qed.

(** Sorting references by the key of what they refer to is sorting
    the referents. *)
Lemma sorted_desc_map {B : Type} (f : B -> A) (l : list B) :
  map f (Py.sorted_desc (fun b => key (f b)) l)
  = Py.sorted_desc key (map f l).
Proof.
  unfold Py.sorted_desc. induction l as [|b l IH]; [reflexivity|].
  cbn [fold_right map]. now rewrite insert_desc_map, IH.
Qed.
End SortedDesc.

(** ** The store of recommendation objects *)

Section Slices.
Context {A : Type}.

Lemma firstn_NoDup (n : nat) (l : list A) : NoDup l -> NoDup (firstn n l).
Proof.
  intros Hnd. rewrite <- (firstn_skipn n l) in Hnd.
  now apply NoDup_app_remove_r in Hnd.
Qed.

Lemma firstn_In (n : nat) (l : list A) (x : A) :
  In x (firstn n l) -> In x l.
Proof.
  intros Hin. rewrite <- (firstn_skipn n l). apply in_or_app. now left.
Qed.

Lemma slice_to_firstn (l : list A) (n : Z) :
  exists k, Py.slice_to l n = firstn k l.
Proof. unfold Py.slice_to. destruct (0 <=? n)%Z; eauto. Qed.

Lemma slice_to_map {B : Type} (f : A -> B) (l : list A) (n : Z) :
  map f (Py.slice_to l n) = Py.slice_to (map f l) n.
Proof.
  unfold Py.slice_to. rewrite length_map.
  destruct (0 <=? n)%Z; now rewrite firstn_map.
Qed.

Lemma enumerate_refs (l : list A) (i : Z) : map snd (Py.enumerate l i) = l.
Proof.
  revert i. induction l as [|x l IH]; intros i; cbn; [reflexivity|].
  now rewrite IH.
Qed.
End Slices.

Section Store.
Import RecommendationEngine.

Lemma deref_assign_same (store : Store) (r : Ref) (i : Z) :
  (r < List.length store)%nat ->
  deref (assign store r i) r = StockRecommendation.set_rank (deref store r) i.
Proof.
  unfold deref. revert r. induction store as [|rec store IH]; intros r Hr.
  - cbn in Hr. lia.
  - destruct r as [|r]; [reflexivity|]. cbn in *. apply IH. lia.
Qed.

Lemma deref_assign_other (store : Store) (r r' : Ref) (i : Z) :
  r <> r' -> deref (assign store r i) r' = deref store r'.
Proof.
  unfold deref. revert r r'.
  induction store as [|rec store IH]; intros r r' Hne; [reflexivity|].
  destruct r as [|r], r' as [|r']; try reflexivity; [congruence|].
  cbn. apply IH. congruence.
Qed.

Lemma length_assign (store : Store) (r : Ref) (i : Z) :
  List.length (assign store r i) = List.length store.
Proof.
  revert r. induction store as [|rec store IH]; intros r; [reflexivity|].
  destruct r as [|r]; cbn; [reflexivity|]. now rewrite IH.
Qed.

Lemma deref_assign_ranks_other
    (numbered : list (Z * Ref)) (store : Store) (r : Ref) :
  ~ In r (map snd numbered) ->
  deref (assign_ranks store numbered) r = deref store r.
Proof.
  unfold assign_ranks. revert store.
  induction numbered as [|[i r'] numbered IH]; intros store Hnot;
    [reflexivity|].
  cbn [fold_left]. rewrite IH.
  - apply deref_assign_other. intros ->. apply Hnot. now left.
  - intros Hin. apply Hnot. now right.
Qed.

(** Ranks written through the references of a slice are read back
    through the same references. *)
Lemma assign_ranks_ranked (refs : list Ref) (store : Store) (i : Z) :
  NoDup refs ->
  Forall (fun r => (r < List.length store)%nat) refs ->
  map (deref (assign_ranks store (Py.enumerate refs i))) refs
  = ranked_from i (map (deref store) refs).
Proof.
  revert store i.
  induction refs as [|r refs IH]; intros store i Hnd Hlt; [reflexivity|].
  inversion Hnd as [|? ? Hnotin Hnd']; subst.
  inversion Hlt as [|? ? Hr Hlt']; subst.
  cbn [Py.enumerate map ranked_from].
  change (assign_ranks store ((i, r) :: Py.enumerate refs (i + 1)))
    with (assign_ranks (assign store r i) (Py.enumerate refs (i + 1))).
  f_equal.
  - rewrite deref_assign_ranks_other by now rewrite enumerate_refs.
    now apply deref_assign_same.
  - rewrite IH; [|exact Hnd'|].
    + f_equal. apply map_ext_in. intros r' Hin.
      apply deref_assign_other. intros ->. contradiction.
    + eapply Forall_impl; [|exact Hlt']. cbn. intros r'.
      now rewrite length_assign.
Qed.

Lemma deref_all (pre store : Store) :
  map (deref (pre ++ store)) (seq (List.length pre) (List.length store))
  = store.
Proof.
  revert pre. induction store as [|rec store IH]; intros pre; [reflexivity|].
  cbn [List.length seq map]. f_equal.
  - apply nth_middle.
  - specialize (IH (pre ++ [rec])).
    rewrite <- app_assoc, length_app, Nat.add_1_r in IH. exact IH.
Qed.

Lemma build_all_each (level : string) (tolerance : Q)
    (stocks : list Stock.t) (store : Store) (refs : list Ref) :
  build_all level tolerance stocks store refs
  = (recs <- build_each level tolerance stocks ;;
     Return (store ++ recs,
             refs ++ seq (List.length store) (List.length recs))).
Proof.
  revert store refs.
  induction stocks as [|stock stocks IH]; intros store refs;
    cbn [build_all build_each bind].
  - now rewrite !app_nil_r.
  - destruct (build_recommendation level tolerance stock) as [rec|key];
      cbn [bind]; [|reflexivity].
    rewrite IH. destruct (build_each level tolerance stocks) as [recs|key];
      cbn [bind]; [|reflexivity].
    rewrite <- !app_assoc, length_app, Nat.add_1_r. reflexivity.
Qed.

(** [rank_recommendations] without the store: build, sort, slice,
    number. *)
Lemma rank_recommendations_unfold (stocks : list Stock.t) (level : string)
    (tolerance : Q) (top_n : Z) :
  rank_recommendations stocks level tolerance top_n
  = (recs <- build_each level tolerance stocks ;;
     Return (ranked_from 1
               (Py.slice_to (Py.sorted_desc final_of recs) top_n))).
Proof.
  unfold rank_recommendations. rewrite build_all_each.
  destruct (build_each level tolerance stocks) as [recs|key];
    cbn [bind app List.length]; [|reflexivity].
  cbv beta iota zeta. f_equal.
  set (refs := Py.sorted_desc
                 (fun r => final_score
                             (StockRecommendation.scores (deref recs r)))
                 (seq 0 (List.length recs))).
  assert (Hperm : Permutation (seq 0 (List.length recs)) refs)
    by apply sorted_desc_perm.
  destruct (slice_to_firstn refs top_n) as [k Hk].
  rewrite assign_ranks_ranked.
  - f_equal. rewrite slice_to_map. f_equal. subst refs.
    change (fun r => final_score (StockRecommendation.scores (deref recs r)))
      with (fun r => final_of (deref recs r)).
    rewrite (sorted_desc_map final_of (deref recs)).
    f_equal. apply (deref_all [] recs).
  - rewrite Hk. apply firstn_NoDup.
    eapply Permutation_NoDup; [exact Hperm | apply seq_NoDup].
  - apply Forall_forall. intros r Hin. rewrite Hk in Hin.
    apply firstn_In in Hin.
    apply (Permutation_in _ (Permutation_sym Hperm)) in Hin.
    apply in_seq in Hin. lia.
Qed.
End Store.

(** ** Ranking *)

Lemma Forall2_In_r {A B} (R : A -> B -> Prop) (l : list A) (l' : list B)
    (y : B) :
  Forall2 R l l' -> In y l' -> exists x, In x l /\ R x y.
Proof.
  induction 1 as [|x y' l l' Hxy _ IH]; cbn; [tauto|].
  intros [<- | Hin]; [now exists x; auto|].
  destruct (IH Hin) as (x' & Hin' & Hr). exists x'. auto.
Qed.

Section Ranking.
Import RecommendationEngine.

Lemma build_each_Forall2 (level : string) (tolerance : Q)
    (stocks : list Stock.t) (built : list StockRecommendation.t) :
  build_each level tolerance stocks = Return built ->
  Forall2 (fun stock rec =>
             build_recommendation level tolerance stock = Return rec)
          stocks built.
Proof.
  revert built. induction stocks as [|stock stocks IH]; intros built;
    cbn [build_each].
  - intros [= <-]. constructor.
  - destruct (build_recommendation level tolerance stock) as [rec|key] eqn:E;
      cbn [bind]; [|discriminate].
    destruct (build_each level tolerance stocks) as [recs|key];
      cbn [bind]; [|discriminate].
    intros [= <-]. constructor; [exact E | now apply IH].
Qed.

Lemma build_each_total (level : string) (tolerance : Q)
    (stocks : list Stock.t) :
  Forall has_ticker stocks ->
  exists built, build_each level tolerance stocks = Return built.
Proof.
  induction 1 as [|stock stocks Hticker _ [recs IH]]; cbn [build_each].
  - now exists [].
  - unfold build_recommendation at 1. unfold has_ticker in Hticker.
    destruct (Stock.ticker stock) as [ticker|]; [|congruence].
    cbn [getitem bind]. rewrite IH. cbn [bind]. eauto.
Qed.

Lemma ranked_from_nth (recs : list StockRecommendation.t) (i : Z) (j : nat) :
  nth_error (ranked_from i recs) j
  = option_map (fun rec => StockRecommendation.set_rank rec (i + Z.of_nat j))
               (nth_error recs j).
Proof.
  revert i j. induction recs as [|rec recs IH]; intros i j.
  - now destruct j.
  - destruct j as [|j]; cbn [ranked_from nth_error option_map].
    + now rewrite Z.add_0_r.
    + rewrite IH. now replace (i + 1 + Z.of_nat j)%Z
                       with (i + Z.of_nat (S j))%Z by lia.
Qed.

Lemma ranked_from_In (recs : list StockRecommendation.t) (i : Z)
    (rec : StockRecommendation.t) :
  In rec (ranked_from i recs) ->
  exists rec0 j, In rec0 recs /\ rec = StockRecommendation.set_rank rec0 j.
Proof.
  revert i. induction recs as [|rec0 recs IH]; intros i; cbn; [tauto|].
  intros [<- | Hin].
  - exists rec0, i. auto.
  - destruct (IH _ Hin) as (rec1 & j & Hin1 & ->). exists rec1, j. auto.
Qed.

Lemma macro_fit_default (sector : string) :
  calculate_macro_fit_score sector default_market_regime = 50.
Proof.
  unfold calculate_macro_fit_score, default_market_regime.
  change (Py.lookup sector_scores "neutral")
    with (Some (map (fun s : string => (s, 50)) neutral_sectors)).
  cbn [Py.get]. apply (lookup_get_ind (fun v => v = 50)); [|reflexivity].
  repeat constructor.
Qed.

Lemma final_score_neutral (research signal alignment : Q) :
  calculate_final_score research signal alignment 50
  == clamp (0.4 * research + 0.3 * signal + 0.2 * alignment + 5).
Proof.
  unfold calculate_final_score, WEIGHTS_research, WEIGHTS_signal,
    WEIGHTS_risk_alignment, WEIGHTS_macro_fit.
  apply py_clamp. lra.
Qed.

Lemma build_recommendation_neutral (level : string) (tolerance : Q)
    (stock : Stock.t) (rec : StockRecommendation.t) :
  build_recommendation level tolerance stock = Return rec ->
  neutral_macro_fit rec.
Proof.
  unfold build_recommendation.
  destruct (Stock.ticker stock) as [ticker|]; cbn [getitem bind];
    [|discriminate].
  intros [= <-]. unfold neutral_macro_fit, final_of, neutral_final.
  cbn [StockRecommendation.scores macro_fit_score final_score
       research_score signal_score risk_alignment_score].
  rewrite macro_fit_default. split; [reflexivity|].
  apply final_score_neutral.
Qed.
End Ranking.

(** Claim C5 (ranking).  When every candidate carries a ticker,
    [rank_recommendations] returns: the recommendations built for the
    candidates are sorted by descending final score with a stable sort
    (equal final scores keep their input order), the slice [[:top_n]] of
    the sorted list - its first [top_n] items for a non-negative [top_n] -
    is given the ranks 1, 2, ... in order, and exactly that slice is
    returned.  With final scores 90, 70, 95 and [top_n = 2] the result is
    the 95 with rank 1 followed by the 90 with rank 2. *)
Theorem rank_recommendations_ranking :
  (forall (stocks : list Stock.t) (level : string) (tolerance : Q) (top_n : Z),
     Forall has_ticker stocks ->
     exists built sorted,
       Forall2 (fun stock rec =>
                  RecommendationEngine.build_recommendation level tolerance
                    stock = Return rec)
               stocks built /\
       stable_sort_desc final_of built sorted /\
       RecommendationEngine.rank_recommendations stocks level tolerance top_n
         = Return (ranked_from 1 (Py.slice_to sorted top_n)) /\
       ((0 <= top_n)%Z ->
        Py.slice_to sorted top_n = firstn (Z.to_nat top_n) sorted) /\
       (forall j rec,
          nth_error (ranked_from 1 (Py.slice_to sorted top_n)) j = Some rec ->
          StockRecommendation.rank rec = (1 + Z.of_nat j)%Z /\
          exists rec0,
            nth_error sorted j = Some rec0 /\
            rec = StockRecommendation.set_rank rec0 (1 + Z.of_nat j))) /\
  (exists a b c,
     build_each "Moderate" 100 scenario = Return [a; b; c] /\
     final_of a == 90 /\ final_of b == 70 /\ final_of c == 95 /\
     RecommendationEngine.rank_recommendations scenario "Moderate" 100 2
       = Return [StockRecommendation.set_rank c 1;
                 StockRecommendation.set_rank a 2]).
Proof.
  split.
  - intros stocks level tolerance top_n Htickers.
    destruct (build_each_total level tolerance stocks Htickers)
      as [built Hbuilt].
    exists built, (Py.sorted_desc final_of built).
    split; [now apply build_each_Forall2|].
    split; [apply sorted_desc_stable|].
    split; [rewrite rank_recommendations_unfold, Hbuilt; reflexivity|].
    split.
    + intros Hn. unfold Py.slice_to.
      now destruct (Z.leb_spec 0 top_n); [|lia].
    + intros j rec. rewrite ranked_from_nth.
      destruct (slice_to_firstn (Py.sorted_desc final_of built) top_n)
        as [k ->].
      destruct (nth_error (firstn k _) j) as [rec0|] eqn:E; [|discriminate].
      cbn [option_map]. intros [= <-]. split; [reflexivity|].
      exists rec0. split; [|reflexivity].
      destruct (Nat.lt_ge_cases j k) as [Hlt | Hge].
      * now rewrite nth_error_firstn, (proj2 (Nat.ltb_lt j k) Hlt) in E.
      * rewrite nth_error_firstn in E.
        destruct (Nat.ltb_spec j k); [lia | discriminate].
  - do 3 eexists. split; [reflexivity|].
    repeat split.
Qed.

Lemma rank_recommendations_ranking_witness :
  exists built sorted,
    Forall2 (fun stock rec =>
               RecommendationEngine.build_recommendation "Moderate" 60
                 stock = Return rec)
            scenario built /\
    stable_sort_desc final_of built sorted /\
    RecommendationEngine.rank_recommendations scenario "Moderate" 60 2
      = Return (ranked_from 1 (Py.slice_to sorted 2)) /\
    ((0 <= 2)%Z -> Py.slice_to sorted 2 = firstn (Z.to_nat 2) sorted) /\
    (forall j rec,
       nth_error (ranked_from 1 (Py.slice_to sorted 2)) j = Some rec ->
       StockRecommendation.rank rec = (1 + Z.of_nat j)%Z /\
       exists rec0,
         nth_error sorted j = Some rec0 /\
         rec = StockRecommendation.set_rank rec0 (1 + Z.of_nat j)).
Proof.
  apply (proj1 rank_recommendations_ranking scenario "Moderate"%string 60 2%Z).
  repeat constructor; discriminate.
Defined.

Lemma build_recommendation_built_neutral (level : string) (tolerance : Q)
    (stock : Stock.t) (rec : StockRecommendation.t) :
  RecommendationEngine.build_recommendation level tolerance stock
    = Return rec ->
  built_neutral level tolerance stock rec.
Proof.
  intros Hbuild. split; [exact Hbuild|].
  unfold RecommendationEngine.build_recommendation in Hbuild.
  destruct (Stock.ticker stock) as [ticker|]; cbn [getitem bind] in Hbuild;
    [|discriminate].
  injection Hbuild as <-. unfold final_of.
  cbn [StockRecommendation.scores research_score signal_score
       risk_alignment_score macro_fit_score final_score].
  rewrite macro_fit_default. repeat split. apply final_score_neutral.
Qed.

(** Claim C9 (macro fit is neutral).  [rank_recommendations] never passes
    a market regime, so the neutral table is used, which gives 50 for
    every sector.  For every candidate list whose candidates carry a
    ticker it returns, and what it returns is the ranked slice of the
    recommendations built one per candidate, each with research, signal
    and risk alignment read off its candidate, a macro-fit score of
    exactly 50 and a final score of 0.4 * research + 0.3 * signal
    + 0.2 * risk_alignment + 5 clamped to [0,100]. *)
Theorem rank_recommendations_macro_fit_neutral :
  (forall sector,
     RecommendationEngine.calculate_macro_fit_score sector
       RecommendationEngine.default_market_regime = 50) /\
  (forall level tolerance stock rec,
     RecommendationEngine.build_recommendation level tolerance stock
       = Return rec ->
     neutral_macro_fit rec /\ built_neutral level tolerance stock rec) /\
  (forall stocks level tolerance top_n recs,
     RecommendationEngine.rank_recommendations stocks level tolerance top_n
       = Return recs ->
     Forall neutral_macro_fit recs) /\
  (forall stocks level tolerance top_n,
     Forall has_ticker stocks ->
     exists built,
       Forall2 (built_neutral level tolerance) stocks built /\
       RecommendationEngine.rank_recommendations stocks level tolerance top_n
         = Return (ranked_from 1
                     (Py.slice_to (Py.sorted_desc final_of built) top_n)) /\
       Forall neutral_macro_fit
         (ranked_from 1 (Py.slice_to (Py.sorted_desc final_of built) top_n))).
Proof.
  assert (Hreturned :
    forall stocks level tolerance top_n recs,
      RecommendationEngine.rank_recommendations stocks level tolerance top_n
        = Return recs ->
      Forall neutral_macro_fit recs).
  { intros stocks level tolerance top_n recs.
    rewrite rank_recommendations_unfold.
    destruct (build_each level tolerance stocks) as [built|key] eqn:Hbuilt;
      cbn [bind]; [|discriminate].
    intros [= <-]. apply Forall_forall. intros rec Hin.
    apply ranked_from_In in Hin. destruct Hin as (rec0 & j & Hin0 & ->).
    destruct (slice_to_firstn (Py.sorted_desc final_of built) top_n)
      as [k Hk].
    rewrite Hk in Hin0. apply firstn_In in Hin0.
    apply (Permutation_in _ (Permutation_sym (sorted_desc_perm _ _))) in Hin0.
    apply build_each_Forall2 in Hbuilt.
    destruct (Forall2_In_r _ _ _ _ Hbuilt Hin0) as (stock & _ & Hbuild).
    apply build_recommendation_neutral in Hbuild. exact Hbuild. }
  split; [exact macro_fit_default|]. split; [|split; [exact Hreturned|]].
  - intros level tolerance stock rec Hbuild.
    split; [now apply build_recommendation_neutral in Hbuild|].
    now apply build_recommendation_built_neutral.
  - intros stocks level tolerance top_n Htickers.
    destruct (build_each_total level tolerance stocks Htickers)
      as [built Hbuilt].
    assert (Hrank :
      RecommendationEngine.rank_recommendations stocks level tolerance top_n
      = Return (ranked_from 1
                  (Py.slice_to (Py.sorted_desc final_of built) top_n)))
      by (rewrite rank_recommendations_unfold, Hbuilt; reflexivity).
    exists built. split; [|split; [exact Hrank|]].
    + apply build_each_Forall2 in Hbuilt.
      eapply Forall2_impl; [|exact Hbuilt].
      intros stock rec. apply build_recommendation_built_neutral.
    + exact (Hreturned _ _ _ _ _ Hrank).
Qed.

Lemma rank_recommendations_macro_fit_neutral_witness :
  exists built,
    Forall2 (built_neutral "Moderate" 60) scenario built /\
    RecommendationEngine.rank_recommendations scenario "Moderate" 60 2
      = Return (ranked_from 1
                  (Py.slice_to (Py.sorted_desc final_of built) 2)) /\
    Forall neutral_macro_fit
      (ranked_from 1 (Py.slice_to (Py.sorted_desc final_of built) 2)).
Proof.
  apply (proj2 (proj2 (proj2 rank_recommendations_macro_fit_neutral))
           scenario "Moderate"%string 60 2%Z).
  repeat constructor; discriminate.
Defined.

(** ** Determinism and effects *)

(** Unfolding of the monad and of the two primitives. *)
Ltac run_effects :=
  cbv [Service.perform Service.analyze_stock_risk
       Service.detect_earnings_surprise Service.detect_institutional_buying
       Service.detect_insider_buying Service.detect_sentiment_spike
       Service.aggregate_signals Service.filter_by_risk_band
       Service.rank_recommendations Service.timestamp_or_utcnow
       Service.seq Service.ret Service.logger_info Service.utcnow];
  cbn [fst snd Service.clock Service.log].

Section Effects.
Import Service.

Lemma run_clock_free (call : Api.Call) (now now' : datetime) :
  Api.omits_timestamp call = false -> Api.run now call = Api.run now' call.
Proof.
  intros Hstamp.
  destruct call; try reflexivity;
    (destruct timestamp as [ts|]; [reflexivity | discriminate Hstamp]).
Qed.

Lemma run_without_timestamp (call : Api.Call) (now now' : datetime) :
  Api.without_timestamp (Api.run now call)
  = Api.without_timestamp (Api.run now' call).
Proof.
  destruct call; try reflexivity; cbn [Api.run].
  - unfold SignalEngine.detect_earnings_surprise.
    repeat py_case; reflexivity.
  - unfold SignalEngine.detect_institutional_buying.
    destruct (_ || _); reflexivity.
  - unfold SignalEngine.detect_insider_buying.
    destruct (_ || _); reflexivity.
  - unfold SignalEngine.detect_sentiment_spike.
    destruct (_ || _); reflexivity.
Qed.

Lemma run_timestamp (call : Api.Call) (now : datetime) (s : Signal.t) :
  Api.omits_timestamp call = true ->
  Api.run now call = Api.VSignal (Some s) ->
  Signal.timestamp s = now.
Proof.
  intros Hstamp.
  destruct call; try discriminate Hstamp;
    (destruct timestamp as [ts|]; [discriminate Hstamp|]); cbn [Api.run].
  - unfold SignalEngine.detect_earnings_surprise.
    repeat py_case; intros [= <-]; reflexivity.
  - unfold SignalEngine.detect_institutional_buying.
    destruct (_ || _); intros [= <-]; reflexivity.
  - unfold SignalEngine.detect_insider_buying.
    destruct (_ || _); intros [= <-]; reflexivity.
  - unfold SignalEngine.detect_sentiment_spike.
    destruct (_ || _); intros [= <-]; reflexivity.
Qed.

(** A call returns the value of the engine function at the clock reading
    and appends its records to the log; nothing else changes. *)
Lemma perform_frame (call : Api.Call) (w : World) :
  perform call w
  = (Api.run (clock w) call, mkWorld (clock w) (log w ++ emitted call)).
Proof.
  unfold emitted, world_after. destruct w as [now records].
  destruct call; run_effects; cbn [Api.run];
    try (rewrite app_nil_r; reflexivity).
  - rewrite <- app_assoc. reflexivity.
  - unfold SignalEngine.detect_earnings_surprise.
    repeat py_case; cbn [fst snd clock log app];
      rewrite ?app_nil_r; destruct timestamp; reflexivity.
  - unfold SignalEngine.detect_institutional_buying.
    destruct (_ || _); cbn [fst snd clock log app];
      rewrite ?app_nil_r; destruct timestamp; reflexivity.
  - unfold SignalEngine.detect_insider_buying.
    destruct (_ || _); cbn [fst snd clock log app];
      rewrite ?app_nil_r; destruct timestamp; reflexivity.
  - unfold SignalEngine.detect_sentiment_spike.
    destruct (_ || _); cbn [fst snd clock log app];
      rewrite ?app_nil_r; destruct timestamp; reflexivity.
  - unfold SignalEngine.aggregate_signals.
    destruct signals as [|s signals]; cbn [fst snd clock log app];
      [now rewrite app_nil_r|].
    py_case; cbn [fst snd clock log app]; rewrite ?app_nil_r; reflexivity.
  - reflexivity.
  - destruct (RecommendationEngine.rank_recommendations _ _ _ _);
      cbn [fst snd clock log app]; rewrite <- ?app_assoc; reflexivity.
Qed.

Lemma value_of_run (call : Api.Call) (w : World) :
  value_of call w = Api.run (clock w) call.
Proof. unfold value_of. rewrite perform_frame. reflexivity. Qed.

Lemma world_after_frame (call : Api.Call) (w : World) :
  world_after call w = mkWorld (clock w) (log w ++ emitted call).
Proof. unfold world_after. rewrite perform_frame. reflexivity. Qed.
End Effects.

(** Claim C2, as stated, fails for the detectors: two invocations of
    [detect_earnings_surprise] with equal arguments (no timestamp), made
    when the clock reads 0 and when it reads 1, return signals that
    differ in their timestamp. *)
Lemma detector_without_timestamp_reads_clock :
  value_of (Api.signal_detect_earnings_surprise "AAPL" 1.5 1.0 None)
    (Service.mkWorld 0%Z [])
  <> value_of (Api.signal_detect_earnings_surprise "AAPL" 1.5 1.0 None)
       (Service.mkWorld 1%Z []).
Proof. cbv. intros H. discriminate H. Qed.

(** Claim C2, amended.  A call of a public operation of the three
    engines, made in any world (a clock reading and the log written so
    far), leaves the clock as it was and changes the log only by
    appending records that are determined by the arguments: logging
    aside it has no effect.  Its value never depends on the log; it is
    the same in every world when the operation is not a detector (so for
    [analyze_stock_risk], [aggregate_signals] and [rank_recommendations])
    or a timestamp is passed; for a detector called without a timestamp
    two invocations agree on whether a signal is emitted and on all of it
    but the timestamp, which is the clock reading of the call.  No state
    persists: a call returns after any other call what it returns
    without it. *)
Theorem operations_deterministic_up_to_clock :
  (forall call w,
     world_after call w
     = Service.mkWorld (Service.clock w) (Service.log w ++ emitted call)) /\
  (forall call w w',
     Service.clock w = Service.clock w' ->
     value_of call w = value_of call w') /\
  (forall call w w',
     Api.omits_timestamp call = false ->
     value_of call w = value_of call w') /\
  (forall ticker hv beta de ev quarters sector pct ic pe pb ps w w',
     let call := Api.risk_analyze_stock_risk ticker hv beta de ev quarters
                   sector pct ic pe pb ps in
     value_of call w = value_of call w') /\
  (forall signals ticker w w',
     value_of (Api.signal_aggregate_signals signals ticker) w
     = value_of (Api.signal_aggregate_signals signals ticker) w') /\
  (forall stocks level tolerance top_n w w',
     let call := Api.rec_rank_recommendations stocks level tolerance top_n in
     value_of call w = value_of call w') /\
  (forall call w w',
     Api.without_timestamp (value_of call w)
     = Api.without_timestamp (value_of call w')) /\
  (forall call w s,
     Api.omits_timestamp call = true ->
     value_of call w = Api.VSignal (Some s) ->
     Signal.timestamp s = Service.clock w) /\
  (forall first call w,
     value_of call (world_after first w) = value_of call w).
Proof.
  repeat match goal with |- _ /\ _ => split end.
  - apply world_after_frame.
  - intros call w w' Hclock. rewrite !value_of_run, Hclock. reflexivity.
  - intros call w w' Hstamp. rewrite !value_of_run.
    apply run_clock_free, Hstamp.
  - intros. subst call. rewrite !value_of_run. reflexivity.
  - intros. rewrite !value_of_run. reflexivity.
  - intros. subst call. rewrite !value_of_run. reflexivity.
  - intros call w w'. rewrite !value_of_run. apply run_without_timestamp.
  - intros call w s Hstamp. rewrite value_of_run.
    apply run_timestamp, Hstamp.
  - intros first call w. rewrite !value_of_run, world_after_frame.
    reflexivity.
Qed.

Lemma operations_deterministic_up_to_clock_witness :
  value_of (Api.signal_detect_earnings_surprise "AAPL" 1.5 1.0 (Some 7%Z))
    (Service.mkWorld 0%Z [])
  = value_of (Api.signal_detect_earnings_surprise "AAPL" 1.5 1.0 (Some 7%Z))
      (Service.mkWorld 1%Z [[Service.Text "earlier record"]]).
Proof.
  apply (proj1 (proj2 (proj2 operations_deterministic_up_to_clock))).
  reflexivity.
Defined.

(** ** What is logged *)

(** Property X1 (a detector logs exactly when it emits).  A detector
    that returns no signal writes nothing to the log, and one that
    returns a signal writes exactly one record; [aggregate_signals]
    writes nothing when it falls back to the neutral score for an empty
    list or a zero total weight. *)
Theorem detector_logs_when_it_emits (call : Api.Call) (w : Service.World) :
  (value_of call w = Api.VSignal None -> emitted call = []) /\
  (forall s,
     value_of call w = Api.VSignal (Some s) ->
     List.length (emitted call) = 1%nat) /\
  (forall signals ticker,
     call = Api.signal_aggregate_signals signals ticker ->
     total_weight signals == 0 ->
     emitted call = [] /\ value_of call w = Api.VScore 50.0).
Proof.
  rewrite value_of_run. unfold emitted, world_after.
  split; [|split].
  - destruct call; cbn [Api.run]; try discriminate; run_effects.
    + unfold SignalEngine.detect_earnings_surprise.
      repeat py_case; cbn [fst snd Service.clock Service.log app];
        intros H; (reflexivity || discriminate H).
    + unfold SignalEngine.detect_institutional_buying.
      destruct (_ || _); cbn [fst snd Service.clock Service.log app];
        intros H; (reflexivity || discriminate H).
    + unfold SignalEngine.detect_insider_buying.
      destruct (_ || _); cbn [fst snd Service.clock Service.log app];
        intros H; (reflexivity || discriminate H).
    + unfold SignalEngine.detect_sentiment_spike.
      destruct (_ || _); cbn [fst snd Service.clock Service.log app];
        intros H; (reflexivity || discriminate H).
  - intros s. destruct call; cbn [Api.run]; try discriminate; run_effects;
      destruct timestamp.
    1-2: unfold SignalEngine.detect_earnings_surprise;
      repeat py_case; cbn [fst snd Service.clock Service.log app];
        intros H; (reflexivity || discriminate H).
    1-2: unfold SignalEngine.detect_institutional_buying;
      destruct (_ || _); cbn [fst snd Service.clock Service.log app];
        intros H; (reflexivity || discriminate H).
    1-2: unfold SignalEngine.detect_insider_buying;
      destruct (_ || _); cbn [fst snd Service.clock Service.log app];
        intros H; (reflexivity || discriminate H).
    1-2: unfold SignalEngine.detect_sentiment_spike;
      destruct (_ || _); cbn [fst snd Service.clock Service.log app];
        intros H; (reflexivity || discriminate H).
  - intros signals ticker -> Hzero. cbn [Api.run]. run_effects.
    unfold SignalEngine.aggregate_signals.
    destruct signals as [|s signals]; [split; reflexivity|].
    unfold total_weight in Hzero. rewrite <- sum_map in Hzero.
    apply eqb_true in Hzero. rewrite Hzero. split; reflexivity.
Qed.

Lemma detector_logs_when_it_emits_witness :
  emitted (Api.signal_detect_sentiment_spike "AAPL" 0.5 0.25 50 None) = [].
Proof.
  apply (proj1 (detector_logs_when_it_emits
                  (Api.signal_detect_sentiment_spike "AAPL" 0.5 0.25 50 None)
                  (Service.mkWorld 0%Z []))).
  reflexivity.
Defined.

(** * Further properties of the engines *)

(** ** Risk components *)

Lemma py_min_cases (a b : Q) :
  (b < a /\ Py.min a b = b) \/ (a <= b /\ Py.min a b = a).
Proof. unfold Py.min. py_case; auto. Qed.

Lemma py_max_cases (a b : Q) :
  (a < b /\ Py.max a b = b) \/ (b <= a /\ Py.max a b = a).
Proof. unfold Py.max. py_case; auto. Qed.

(** Case analysis on every [min] and [max] of the goal and of the
    hypotheses. *)
Ltac py_minmax :=
  repeat match goal with
  | |- context [Py.min ?a ?b] =>
      let H := fresh "Hmin" in let E := fresh "Emin" in
      destruct (py_min_cases a b) as [[H E] | [H E]]; rewrite E in *; clear E
  | |- context [Py.max ?a ?b] =>
      let H := fresh "Hmax" in let E := fresh "Emax" in
      destruct (py_max_cases a b) as [[H E] | [H E]]; rewrite E in *; clear E
  | H0 : context [Py.min ?a ?b] |- _ =>
      let H := fresh "Hmin" in let E := fresh "Emin" in
      destruct (py_min_cases a b) as [[H E] | [H E]]; rewrite E in *; clear E
  | H0 : context [Py.max ?a ?b] |- _ =>
      let H := fresh "Hmax" in let E := fresh "Emax" in
      destruct (py_max_cases a b) as [[H E] | [H E]]; rewrite E in *; clear E
  end.

Lemma py_clamp_monotone (x y : Q) :
  x <= y -> Py.min (Py.max x 0) 100 <= Py.min (Py.max y 0) 100.
Proof. intros. py_minmax; lra. Qed.

Lemma py_min_monotone (x y c : Q) : x <= y -> Py.min x c <= Py.min y c.
Proof. intros. py_minmax; lra. Qed.

(** Property X2 (volatility is monotone).  A higher historical volatility
    never lowers the volatility score, whether or not a percentile is
    supplied, and a higher percentile never lowers it either. *)
Theorem volatility_score_monotone (hv hv' : Q) :
  hv <= hv' ->
  RiskEngine.calculate_volatility_score hv None
    <= RiskEngine.calculate_volatility_score hv' None /\
  forall pct pct',
    pct <= pct' ->
    RiskEngine.calculate_volatility_score hv (Some pct)
      <= RiskEngine.calculate_volatility_score hv' (Some pct').
Proof.
  intros Hhv. unfold RiskEngine.calculate_volatility_score.
  assert (Hbase : Py.min (hv * 100 * 2) 100 <= Py.min (hv' * 100 * 2) 100)
    by (apply py_min_monotone; lra).
  split; [now apply py_clamp_monotone|].
  intros pct pct' Hpct. apply py_clamp_monotone. lra.
Qed.

Lemma volatility_score_monotone_witness :
  RiskEngine.calculate_volatility_score 0.10 None
    <= RiskEngine.calculate_volatility_score 0.50 None.
Proof.
  apply (volatility_score_monotone 0.10 0.50). discriminate.
Defined.

(** Property X3 (beta is monotone on each side of zero, not across it).
    Among non-negative betas the score never decreases with beta, is
    exactly 50 at beta 1 and saturates at 100 from beta 2; among negative
    betas it never decreases with beta either and reaches 0 from beta -2
    down.  Across zero the order is broken: every beta strictly between -2
    and 0 scores strictly more than beta 0, whose score is 0. *)
Theorem beta_score_sides (b b' : Q) :
  (0 <= b -> b <= b' ->
   RiskEngine.calculate_beta_score b <= RiskEngine.calculate_beta_score b') /\
  (b <= b' -> b' < 0 ->
   RiskEngine.calculate_beta_score b <= RiskEngine.calculate_beta_score b') /\
  (2 <= b -> RiskEngine.calculate_beta_score b == 100) /\
  (b <= -2 -> RiskEngine.calculate_beta_score b == 0) /\
  (-2 < b -> b < 0 ->
   RiskEngine.calculate_beta_score 0 < RiskEngine.calculate_beta_score b /\
   RiskEngine.calculate_beta_score b == 50 + b * 25) /\
  RiskEngine.calculate_beta_score 1 == 50 /\
  RiskEngine.calculate_beta_score 0 == 0.
Proof.
  unfold RiskEngine.calculate_beta_score.
  repeat match goal with |- _ /\ _ => split end;
    try reflexivity; intros; repeat py_case; py_minmax; lra.
Qed.

Lemma beta_score_sides_witness :
  RiskEngine.calculate_beta_score 0 < RiskEngine.calculate_beta_score (-0.1) /\
  RiskEngine.calculate_beta_score (-0.1) == 50 + (-0.1) * 25.
Proof.
  destruct (beta_score_sides (-0.1) 0) as (_ & _ & _ & _ & Hjump & _).
  apply Hjump; reflexivity.
Defined.

(** Property X4 (leverage is monotone).  A higher debt-to-equity ratio
    never lowers the leverage score, a lower interest coverage never
    lowers it, supplying an interest coverage never lowers it, and a
    coverage of 5 or more leaves it as without coverage. *)
Theorem leverage_score_monotone (de de' ic ic' : Q) :
  de <= de' ->
  RiskEngine.calculate_leverage_score de None
    <= RiskEngine.calculate_leverage_score de' None /\
  (ic' <= ic ->
   RiskEngine.calculate_leverage_score de (Some ic)
     <= RiskEngine.calculate_leverage_score de' (Some ic')) /\
  RiskEngine.calculate_leverage_score de None
    <= RiskEngine.calculate_leverage_score de (Some ic) /\
  (5 <= ic ->
   RiskEngine.calculate_leverage_score de (Some ic)
     == RiskEngine.calculate_leverage_score de None).
Proof.
  intros Hde. unfold RiskEngine.calculate_leverage_score.
  assert (Hbase : de / 3.0 * 100 <= de' / 3.0 * 100) by (div_literals; lra).
  set (x := de / 3.0 * 100) in *. set (x' := de' / 3.0 * 100) in *.
  repeat match goal with |- _ /\ _ => split end; intros;
    repeat py_case; py_minmax; lra.
Qed.

Lemma leverage_score_monotone_witness :
  RiskEngine.calculate_leverage_score 0.5 (Some 4)
    <= RiskEngine.calculate_leverage_score 1.0 (Some 2).
Proof.
  destruct (leverage_score_monotone 0.5 1.0 4 2) as (_ & Hboth & _);
    [discriminate|].
  apply Hboth. discriminate.
Defined.

(** Property X5 (earnings stability is monotone).  A higher earnings
    volatility never lowers the earnings-stability risk score and more
    consecutive profitable quarters never raise it. *)
Theorem earnings_stability_score_monotone (ev ev' : Q) (quarters quarters' : Z) :
  ev <= ev' -> (quarters' <= quarters)%Z ->
  RiskEngine.calculate_earnings_stability_score ev quarters
    <= RiskEngine.calculate_earnings_stability_score ev' quarters'.
Proof.
  intros Hev Hq. unfold RiskEngine.calculate_earnings_stability_score.
  assert (Hbase : ev * 100 <= ev' * 100) by lra.
  set (x := ev * 100) in *. set (x' := ev' * 100) in *.
  repeat match goal with
  | |- context [(?a <=? ?b)%Z] => destruct (Z.leb_spec a b)
  end; try lia; py_minmax; lra.
Qed.

Lemma earnings_stability_score_monotone_witness :
  RiskEngine.calculate_earnings_stability_score 0.15 12
    <= RiskEngine.calculate_earnings_stability_score 0.20 3.
Proof.
  apply earnings_stability_score_monotone; discriminate.
Defined.

(** Property X6 (the overall risk is monotone).  Raising component
    scores never lowers the overall risk score: every weight is
    positive. *)
Theorem overall_risk_monotone (c c' : RiskComponents) :
  components_le c c' ->
  RiskEngine.calculate_overall_risk c
    <= RiskEngine.calculate_overall_risk c'.
Proof.
  unfold RiskEngine.calculate_overall_risk, RiskEngine.WEIGHTS_volatility,
    RiskEngine.WEIGHTS_beta, RiskEngine.WEIGHTS_leverage,
    RiskEngine.WEIGHTS_earnings_stability, RiskEngine.WEIGHTS_sector,
    RiskEngine.WEIGHTS_valuation, components_le.
  intros Hle. apply py_clamp_monotone. lra.
Qed.

Lemma overall_risk_monotone_witness :
  RiskEngine.calculate_overall_risk (mkRiskComponents 40 45 50 55 60 40)
    <= RiskEngine.calculate_overall_risk (mkRiskComponents 40 45 70 55 60 40).
Proof.
  apply overall_risk_monotone. repeat split; discriminate.
Defined.

(** Property X7 (the explanation names the two highest components).  The
    risk explanation is never empty: it is the templated sentence for two
    of the six components whose scores are at least those of the four
    others, the first named scoring at least as much as the second. *)
Theorem risk_explanation_top_two
    (ticker : string) (risk_score : Q) (level : RiskLevel)
    (c : RiskComponents) :
  exists top second rest,
    Permutation (RiskEngine.component_scores c) (top :: second :: rest) /\
    snd second <= snd top /\
    Forall (fun other => snd other <= snd second) rest /\
    RiskEngine.generate_explanation ticker risk_score level c
      = risk_sentence ticker risk_score level top second.
Proof.
  unfold RiskEngine.generate_explanation.
  pose proof (sorted_desc_perm snd (RiskEngine.component_scores c)) as Hperm.
  pose proof (sorted_desc_descending snd (RiskEngine.component_scores c))
    as Hdesc.
  destruct (Py.sorted_desc snd (RiskEngine.component_scores c))
    as [|[n0 s0] [|[n1 s1] rest]];
    try (apply Permutation_length in Hperm; discriminate Hperm).
  exists (n0, s0), (n1, s1), rest.
  inversion Hdesc as [|? ? Htail Hhead]; subst.
  inversion Htail as [|? ? _ Hsecond]; subst.
  inversion Hhead as [|? ? Hle _]; subst.
  repeat split; [exact Hperm | exact Hle | exact Hsecond].
Qed.

(** ** Signal detectors and aggregation *)

Lemma inject_Z_scale (n k : Z) : inject_Z (n * k) == inject_Z n * inject_Z k.
Proof. rewrite inject_Z_mult. reflexivity. Qed.

(** Property X8 (institutional buying).  A signal is emitted exactly when
    the ownership change is at least 2 and at least 3 institutions are
    buying.  Its strength is min(change * 10, 50) + min(5 n, 50), at least
    35, and its confidence min(60 + 5 n, 95), at least 75 and exactly 95
    from 7 institutions on. *)
Theorem institutional_buying_detection
    (now : datetime) (ticker : string) (change : Q) (n : Z)
    (ts : option datetime) :
  (change < 2 \/ (n < 3)%Z ->
   SignalEngine.detect_institutional_buying now ticker change n ts = None) /\
  (2 <= change -> (3 <= n)%Z ->
   exists s,
     SignalEngine.detect_institutional_buying now ticker change n ts
       = Some s /\
     Signal.signal_type s = INSTITUTIONAL_BUYING /\
     Signal.strength s
       == Qmin (change * 10) 50 + Qmin (inject_Z n * 5) 50 /\
     Signal.confidence s == Qmin (60 + inject_Z n * 5) 95 /\
     35 <= Signal.strength s /\ 75 <= Signal.confidence s /\
     ((7 <= n)%Z -> Signal.confidence s == 95)).
Proof.
  unfold SignalEngine.detect_institutional_buying. split.
  - intros [Hchange | Hn].
    + assert (Hlt : change < 2.0) by lra.
      apply ltb_true in Hlt. now rewrite Hlt.
    + apply Z.ltb_lt in Hn. rewrite Hn. now rewrite orb_true_r.
  - intros Hchange Hn.
    assert (Hge : 2.0 <= change) by lra. apply ltb_false in Hge.
    rewrite Hge, (proj2 (Z.ltb_ge n 3) Hn). cbn [orb].
    eexists. split; [reflexivity|].
    cbn [Signal.signal_type Signal.strength Signal.confidence].
    assert (H5 : inject_Z (n * 5) == inject_Z n * 5) by apply inject_Z_scale.
    assert (H60 : inject_Z (60 + n * 5) == 60 + inject_Z n * 5)
      by (rewrite inject_Z_plus, inject_Z_scale; reflexivity).
    pose proof (inject_Z_le 3 n Hn) as H3. change (inject_Z 3) with 3 in H3.
    split; [reflexivity|]. rewrite !py_min_Qmin, H5, H60.
    split; [reflexivity|]. split; [reflexivity|].
    set (m := inject_Z n) in *.
    destruct (Q.min_spec (change * 10) 50) as [[? ->] | [? ->]];
      destruct (Q.min_spec (m * 5) 50) as [[? ->] | [? ->]];
      destruct (Q.min_spec (60 + m * 5) 95) as [[? ->] | [? ->]];
      (repeat split; try lra; intros H7;
       pose proof (inject_Z_le 7 n H7) as H7';
       change (inject_Z 7) with 7 in H7'; fold m in H7'; lra).
Qed.

Lemma institutional_buying_detection_witness :
  exists s,
    SignalEngine.detect_institutional_buying 0%Z "MSFT" 3.2 5 None = Some s /\
    Signal.signal_type s = INSTITUTIONAL_BUYING /\
    Signal.strength s == Qmin (3.2 * 10) 50 + Qmin (inject_Z 5 * 5) 50 /\
    Signal.confidence s == Qmin (60 + inject_Z 5 * 5) 95 /\
    35 <= Signal.strength s /\ 75 <= Signal.confidence s /\
    ((7 <= 5)%Z -> Signal.confidence s == 95).
Proof.
  apply (proj2 (institutional_buying_detection 0%Z "MSFT" 3.2 5 None));
    discriminate.
Defined.

(** Property X9 (insider buying).  A signal is emitted exactly when
    insiders bought more than they sold and at least 2 insiders bought;
    its confidence is exactly 75.0.  With no selling the buy/sell ratio is
    the sentinel 10, so the strength is 60 + min(10 n, 40), at least 80;
    with selling it is min(buy / sell * 20, 60) + min(10 n, 40), more
    than 40. *)
Theorem insider_buying_detection
    (now : datetime) (ticker : string) (buy sell : Q) (n : Z)
    (ts : option datetime) :
  (buy <= sell \/ (n < 2)%Z ->
   SignalEngine.detect_insider_buying now ticker buy sell n ts = None) /\
  (sell < buy -> (2 <= n)%Z ->
   exists s,
     SignalEngine.detect_insider_buying now ticker buy sell n ts = Some s /\
     Signal.signal_type s = INSIDER_BUYING /\
     Signal.confidence s = 75.0 /\
     (sell <= 0 ->
      Signal.strength s == 60 + Qmin (inject_Z n * 10) 40 /\
      80 <= Signal.strength s) /\
     (0 < sell ->
      Signal.strength s
        == Qmin (buy / sell * 20) 60 + Qmin (inject_Z n * 10) 40 /\
      40 < Signal.strength s)).
Proof.
  unfold SignalEngine.detect_insider_buying. split.
  - intros [Hnet | Hn].
    + assert (Hle : buy - sell <= 0) by lra.
      apply leb_true in Hle. now rewrite Hle.
    + apply Z.ltb_lt in Hn. rewrite Hn. now rewrite orb_true_r.
  - intros Hnet Hn.
    assert (Hgt : 0 < buy - sell) by lra. apply leb_false in Hgt.
    rewrite Hgt, (proj2 (Z.ltb_ge n 2) Hn). cbn [orb].
    eexists. split; [reflexivity|].
    cbn [Signal.signal_type Signal.strength Signal.confidence].
    split; [reflexivity|]. split; [reflexivity|].
    assert (H10 : inject_Z (n * 10) == inject_Z n * 10)
      by apply inject_Z_scale.
    pose proof (inject_Z_le 2 n Hn) as H2. change (inject_Z 2) with 2 in H2.
    rewrite !py_min_Qmin, H10. set (m := inject_Z n) in *.
    split; intros Hsell.
    + apply ltb_false in Hsell. rewrite Hsell.
      destruct (Q.min_spec (10.0 * 20) 60) as [[? ->] | [? ->]]; [lra|].
      destruct (Q.min_spec (m * 10) 40) as [[? ->] | [? ->]];
        split; lra.
    + assert (Hratio : 1 < buy / sell)
        by (apply Qlt_shift_div_l; [exact Hsell | lra]).
      apply ltb_true in Hsell. rewrite Hsell.
      set (ratio := buy / sell) in *.
      destruct (Q.min_spec (ratio * 20) 60) as [[? ->] | [? ->]];
        destruct (Q.min_spec (m * 10) 40) as [[? ->] | [? ->]];
        split; lra.
Qed.

Lemma insider_buying_detection_witness :
  exists s,
    SignalEngine.detect_insider_buying 0%Z "AAPL" 500000 0 3 None = Some s /\
    Signal.confidence s = 75.0 /\
    80 <= Signal.strength s.
Proof.
  destruct (proj2 (insider_buying_detection 0%Z "AAPL" 500000 0 3 None))
    as (s & Hs & _ & Hconfidence & Hnone & _);
    [reflexivity | discriminate |].
  exists s. split; [exact Hs|]. split; [exact Hconfidence|].
  apply Hnone. discriminate.
Defined.



Lemma ltb_compat (x x' y y' : Q) :
  x == x' -> y == y' -> Py.ltb x y = Py.ltb x' y'.
Proof.
  intros Hx Hy. destruct (Py.ltb x' y') eqn:E.
  - apply ltb_true in E. apply ltb_true. lra.
  - apply ltb_false in E. apply ltb_false. lra.
Qed.

(** Property X11 (sentiment strength ignores direction).  A fall in
    sentiment yields a signal exactly when the rise of the same size
    does, and with the same strength and confidence: the detector emits
    in both directions and only the metadata keeps the sign. *)
Theorem sentiment_strength_ignores_direction
    (now : datetime) (ticker : string) (ts : option datetime)
    (current baseline : Q) (volume : Z) :
  same_strength
    (SignalEngine.detect_sentiment_spike now ticker current baseline
       volume ts)
    (SignalEngine.detect_sentiment_spike now ticker baseline current
       volume ts).
Proof.
  unfold SignalEngine.detect_sentiment_spike.
  assert (Habs : Qabs (current - baseline) == Qabs (baseline - current)).
  { rewrite <- (Qabs_opp (baseline - current)). apply Qabs_wd. ring. }
  rewrite (ltb_compat _ _ 0.2 0.2 Habs (Qeq_refl 0.2)).
  destruct (_ || _); [exact I|].
  cbn [same_strength Signal.strength Signal.confidence].
  split; [|reflexivity]. rewrite !py_min_Qmin. now rewrite Habs.
Qed.

Section Aggregation.
Import SignalEngine.

Lemma clamp_compat (x y : Q) : x == y -> clamp x == clamp y.
Proof.
  intros Hxy. rewrite <- (py_clamp x x (Qeq_refl x)). now apply py_clamp.
Qed.

Lemma aggregate_signals_zero (signals : list Signal.t) (ticker : string) :
  total_weight signals == 0 -> aggregate_signals signals ticker = 50.0.
Proof.
  intros Hzero. unfold aggregate_signals.
  destruct signals as [|s rest]; [reflexivity|].
  destruct (Py.eqb _ 0) eqn:E; [reflexivity|].
  apply eqb_false in E. rewrite sum_map in E. contradiction.
Qed.

Lemma aggregate_signals_mean (signals : list Signal.t) (ticker : string) :
  signals <> [] -> ~ total_weight signals == 0 ->
  aggregate_signals signals ticker == clamp (weighted_mean signals).
Proof.
  intros Hne Hnz. unfold aggregate_signals.
  destruct signals as [|s rest]; [congruence|].
  destruct (Py.eqb _ 0) eqn:E.
  - apply eqb_true in E. rewrite sum_map in E. contradiction.
  - apply py_clamp. unfold weighted_mean, total_weight. now rewrite !sum_map.
Qed.

End Aggregation.

(** Property X12 (a signal of zero confidence does not count).  Putting
    a signal whose confidence is 0 in front of any list of signals leaves
    the aggregated score unchanged. *)
Theorem aggregate_signals_ignores_zero_confidence
    (s : Signal.t) (signals : list Signal.t) (ticker : string) :
  Signal.confidence s == 0 ->
  SignalEngine.aggregate_signals (s :: signals) ticker
    == SignalEngine.aggregate_signals signals ticker.
Proof.
  intros Hzero.
  assert (Htotal : total_weight (s :: signals) == total_weight signals).
  { unfold total_weight. cbn [big_sum]. rewrite Hzero. unfold Qdiv. ring. }
  destruct (Qeq_dec (total_weight signals) 0) as [Hz | Hnz].
  - rewrite (aggregate_signals_zero signals ticker Hz).
    rewrite <- Htotal in Hz. now rewrite (aggregate_signals_zero _ _ Hz).
  - assert (Hne : signals <> []).
    { intros ->. apply Hnz. reflexivity. }
    rewrite (aggregate_signals_mean signals) by assumption.
    rewrite aggregate_signals_mean; [|discriminate | now rewrite Htotal].
    apply clamp_compat. unfold weighted_mean. rewrite Htotal.
    cbn [big_sum]. rewrite Hzero. unfold Qdiv. ring.
Qed.

Lemma aggregate_signals_ignores_zero_confidence_witness :
  SignalEngine.aggregate_signals
    [sample_signal 90 0; sample_signal 40 100] "AAPL"
  == SignalEngine.aggregate_signals [sample_signal 40 100] "AAPL".
Proof.
  apply aggregate_signals_ignores_zero_confidence. reflexivity.
Defined.

(** ** Risk alignment, filtering and ranking *)

Section Alignment.
Import RecommendationEngine.

Lemma band_of_cases (level : string) :
  band_of level = (0, 33) \/ band_of level = (34, 66) \/
  band_of level = (67, 100) \/ band_of level = (0, 100).
Proof.
  unfold band_of, risk_bands. cbn [Py.lookup].
  repeat match goal with
  | |- context [String.eqb ?k level] => destruct (String.eqb k level)
  end; cbn [Py.get]; auto.
Qed.

(** The alignment score is a base between 0 and 100, scaled by the
    tolerance and clamped. *)
Lemma risk_alignment_scaled (score : Q) (level : string) (tolerance : Q) :
  calculate_risk_alignment_score score level tolerance
  = Py.min (Py.max (alignment_base score level
                    * (0.7 + tolerance / 100 * 0.3)) 0) 100.
Proof.
  unfold calculate_risk_alignment_score, alignment_base, band_of.
  now destruct (Py.get _ _).
Qed.

Lemma alignment_base_bounds (score : Q) (level : string) :
  0 <= alignment_base score level /\ alignment_base score level <= 100 /\
  (in_band level score -> alignment_base score level == 100) /\
  (far_from_band level score -> alignment_base score level == 0).
Proof.
  unfold alignment_base, in_band, far_from_band.
  destruct (band_of_cases level) as [-> | [-> | [-> | ->]]];
    cbv beta iota zeta; cbn [fst snd];
    (split; [|split; [|split; intros Hin]]);
    repeat py_case; cbn [andb]; py_minmax; lra.
Qed.

Lemma scaled_base_monotone (base t t' : Q) :
  0 <= base -> t <= t' ->
  base * (0.7 + t / 100 * 0.3) <= base * (0.7 + t' / 100 * 0.3).
Proof.
  intros Hbase Ht.
  assert (Hdiff : 0 <= t' / 100 * 0.3 - t / 100 * 0.3) by (div_literals; lra).
  pose proof (Qmult_le_0_compat _ _ Hbase Hdiff). lra.
Qed.

Lemma scaled_base_le (base t : Q) :
  base <= 100 -> 0 <= t ->
  base * (0.7 + t / 100 * 0.3) <= 100 * (0.7 + t / 100 * 0.3).
Proof.
  intros Hbase Ht.
  assert (Hfactor : 0 <= 0.7 + t / 100 * 0.3) by (div_literals; lra).
  pose proof (Qmult_le_0_compat _ _ (proj1 (Qle_minus_iff _ _) Hbase) Hfactor).
  lra.
Qed.

Lemma risk_alignment_in_band (score : Q) (level : string) (tolerance : Q) :
  0 <= tolerance -> tolerance <= 100 -> in_band level score ->
  calculate_risk_alignment_score score level tolerance
    == aligned_score tolerance.
Proof.
  intros Ht0 Ht1 Hin.
  rewrite risk_alignment_scaled.
  destruct (alignment_base_bounds score level) as (_ & _ & Hbase & _).
  specialize (Hbase Hin). unfold aligned_score.
  apply py_clamp. now rewrite Hbase.
Qed.
End Alignment.

(** Property X13 (risk alignment).  For a volatility tolerance between 0
    and 100 the alignment score of a stock inside the user's band is that
    of the base score 100, namely 100 * (0.7 + tolerance / 100 * 0.3)
    clamped to the scale; no stock scores more than that; a stock 50 or
    more points outside the band scores 0; and a higher tolerance never
    lowers the alignment score. *)
Theorem risk_alignment_profile
    (score : Q) (level : string) (tolerance tolerance' : Q) :
  0 <= tolerance -> tolerance <= 100 ->
  (in_band level score ->
   RecommendationEngine.calculate_risk_alignment_score score level tolerance
     == aligned_score tolerance) /\
  RecommendationEngine.calculate_risk_alignment_score score level tolerance
    <= aligned_score tolerance /\
  (far_from_band level score ->
   RecommendationEngine.calculate_risk_alignment_score score level tolerance
     == 0) /\
  (tolerance <= tolerance' ->
   RecommendationEngine.calculate_risk_alignment_score score level tolerance
     <= RecommendationEngine.calculate_risk_alignment_score score level
          tolerance').
Proof.
  intros Ht0 Ht1.
  split; [now apply risk_alignment_in_band|].
  destruct (alignment_base_bounds score level) as (Hb0 & Hb1 & _ & Hfar).
  rewrite !risk_alignment_scaled. unfold aligned_score.
  set (base := alignment_base score level) in *.
  pose proof (scaled_base_le base tolerance Hb1 Ht0) as Hle.
  split; [|split].
  - rewrite <- (py_clamp _ _ (Qeq_refl (100 * (0.7 + tolerance / 100 * 0.3)))).
    now apply py_clamp_monotone.
  - intros Hout. specialize (Hfar Hout).
    assert (Hzero : base * (0.7 + tolerance / 100 * 0.3) == 0)
      by (rewrite Hfar; ring).
    py_minmax; lra.
  - intros Hmore. apply py_clamp_monotone. now apply scaled_base_monotone.
Qed.

Lemma risk_alignment_profile_witness :
  RecommendationEngine.calculate_risk_alignment_score 50 "Moderate" 60
    == aligned_score 60.
Proof.
  apply (risk_alignment_profile 50 "Moderate" 60 60);
    [discriminate | discriminate |].
  split; discriminate.
Defined.

Section Pipeline.
Import RecommendationEngine.

Lemma build_recommendation_scores (level : string) (tolerance : Q)
    (stock : Stock.t) (rec : StockRecommendation.t) :
  build_recommendation level tolerance stock = Return rec ->
  Stock.ticker stock = Some (StockRecommendation.ticker rec) /\
  StockRecommendation.rank rec = 0%Z /\
  research_score (StockRecommendation.scores rec)
    = Py.get (Stock.research_score stock) 50 /\
  signal_score (StockRecommendation.scores rec)
    = Py.get (Stock.signal_score stock) 50 /\
  risk_alignment_score (StockRecommendation.scores rec)
    = calculate_risk_alignment_score (risk_of stock) level tolerance /\
  final_of rec
    = calculate_final_score
        (Py.get (Stock.research_score stock) 50)
        (Py.get (Stock.signal_score stock) 50)
        (calculate_risk_alignment_score (risk_of stock) level tolerance)
        (calculate_macro_fit_score
           (Py.get (Stock.sector stock) "Unknown"%string)
           default_market_regime).
Proof.
  unfold build_recommendation.
  destruct (Stock.ticker stock) as [ticker|]; cbn [getitem bind];
    [|discriminate].
  intros [= <-]. repeat split.
Qed.

Lemma rank_recommendations_members (stocks : list Stock.t) (level : string)
    (tolerance : Q) (top_n : Z) (recs : list StockRecommendation.t)
    (rec : StockRecommendation.t) :
  rank_recommendations stocks level tolerance top_n = Return recs ->
  In rec recs ->
  exists stock rec0 j,
    In stock stocks /\
    build_recommendation level tolerance stock = Return rec0 /\
    rec = StockRecommendation.set_rank rec0 j.
Proof.
  rewrite rank_recommendations_unfold.
  destruct (build_each level tolerance stocks) as [built|key] eqn:Hbuilt;
    cbn [bind]; [|discriminate].
  intros [= <-] Hin.
  apply ranked_from_In in Hin. destruct Hin as (rec0 & j & Hin0 & ->).
  destruct (slice_to_firstn (Py.sorted_desc final_of built) top_n) as [k Hk].
  rewrite Hk in Hin0. apply firstn_In in Hin0.
  apply (Permutation_in _ (Permutation_sym (sorted_desc_perm _ _))) in Hin0.
  apply build_each_Forall2 in Hbuilt.
  destruct (Forall2_In_r _ _ _ _ Hbuilt Hin0) as (stock & Hstock & Hbuild).
  exists stock, rec0, j. auto.
Qed.

Lemma filter_by_risk_band_In (stocks : list Stock.t) (level : string)
    (stock : Stock.t) :
  In stock (filter_by_risk_band stocks level)
  <-> In stock stocks /\ in_band level (risk_of stock).
Proof.
  rewrite filter_by_risk_band_within, filter_In, within_true. reflexivity.
Qed.

Lemma build_each_keyerror (level : string) (tolerance : Q)
    (stocks : list Stock.t) :
  Exists lacks_ticker stocks ->
  build_each level tolerance stocks = KeyError "ticker".
Proof.
  induction stocks as [|stock stocks IH]; intros Hex;
    [inversion Hex|]. cbn [build_each].
  unfold build_recommendation at 1.
  destruct (Stock.ticker stock) as [ticker|] eqn:E; cbn [getitem bind];
    [|reflexivity].
  inversion Hex as [? ? Hhead | ? ? Htail]; subst.
  - unfold lacks_ticker in Hhead. congruence.
  - now rewrite (IH Htail).
Qed.

Lemma ranked_from_length (recs : list StockRecommendation.t) (i : Z) :
  List.length (ranked_from i recs) = List.length recs.
Proof.
  revert i. induction recs as [|rec recs IH]; intros i; cbn;
    [reflexivity | now rewrite IH].
Qed.

Lemma ranked_from_firstn (recs : list StockRecommendation.t) (i : Z) (k : nat) :
  firstn k (ranked_from i recs) = ranked_from i (firstn k recs).
Proof.
  revert i k. induction recs as [|rec recs IH]; intros i k.
  - now destruct k.
  - destruct k as [|k]; cbn [firstn ranked_from]; [reflexivity|].
    now rewrite IH.
Qed.

Lemma slice_to_length {A} (l : list A) (n : Z) :
  (0 <= n -> List.length (Py.slice_to l n)
             = Nat.min (Z.to_nat n) (List.length l))%Z /\
  (n < 0 -> List.length (Py.slice_to l n)
            = (List.length l - Z.to_nat (- n))%nat)%Z.
Proof.
  unfold Py.slice_to. split; intros Hn.
  - destruct (Z.leb_spec 0 n); [|lia]. apply length_firstn.
  - destruct (Z.leb_spec 0 n); [lia|]. rewrite length_firstn. lia.
Qed.

Lemma descending_app {A} (key : A -> Q) (l1 l2 : list A) :
  descending key (l1 ++ l2) ->
  descending key l1 /\
  Forall (fun d => Forall (fun k => key d <= key k) l1) l2.
Proof.
  unfold descending. induction l1 as [|x l1 IH]; cbn [app].
  - intros _. split; [constructor|].
    apply Forall_forall. intros d _. constructor.
  - intros Hsorted. inversion Hsorted as [|? ? Htail Hhead]; subst.
    destruct (IH Htail) as [Hl1 Hl2].
    apply Forall_app in Hhead. destruct Hhead as [Hx1 Hx2].
    split; [now constructor|].
    rewrite Forall_forall in *. intros d Hd.
    constructor; [now apply Hx2 | now apply Hl2].
Qed.
End Pipeline.

(** Property X14 (filtering, then ranking).  When the candidates are first
    filtered by the user's risk band and then ranked for the same risk
    level, as the recommendations endpoint does, every recommendation has
    the same risk-alignment score, that of the base score 100 (tolerance
    between 0 and 100), so the final scores differ only through research
    and signal. *)
Theorem filtered_ranking_alignment
    (stocks : list Stock.t) (level : string) (tolerance : Q) (top_n : Z)
    (recs : list StockRecommendation.t) :
  0 <= tolerance -> tolerance <= 100 ->
  RecommendationEngine.rank_recommendations
    (RecommendationEngine.filter_by_risk_band stocks level)
    level tolerance top_n = Return recs ->
  Forall (fun rec =>
            risk_alignment_score (StockRecommendation.scores rec)
              == aligned_score tolerance /\
            final_of rec
              == filtered_final tolerance (StockRecommendation.scores rec))
         recs.
Proof.
  intros Ht0 Ht1 Hrank. apply Forall_forall. intros rec Hin.
  destruct (rank_recommendations_members _ _ _ _ _ _ Hrank Hin)
    as (stock & rec0 & j & Hstock & Hbuild & ->).
  apply filter_by_risk_band_In in Hstock. destruct Hstock as [_ Hband].
  destruct (build_recommendation_scores _ _ _ _ Hbuild)
    as (_ & _ & Hresearch & Hsignal & Halign & Hfinal).
  pose proof (risk_alignment_in_band _ _ _ Ht0 Ht1 Hband) as Haligned.
  change (StockRecommendation.scores (StockRecommendation.set_rank rec0 j))
    with (StockRecommendation.scores rec0).
  change (final_of (StockRecommendation.set_rank rec0 j)) with (final_of rec0).
  split; [now rewrite Halign|].
  rewrite Hfinal, macro_fit_default, final_score_neutral.
  unfold filtered_final. rewrite Hresearch, Hsignal.
  apply clamp_compat. rewrite Haligned.
  set (a := aligned_score tolerance). lra.
Qed.

Lemma filtered_ranking_alignment_witness :
  exists recs,
    RecommendationEngine.rank_recommendations
      (RecommendationEngine.filter_by_risk_band scenario "Moderate")
      "Moderate" 60 2 = Return recs /\
    Forall (fun rec =>
              risk_alignment_score (StockRecommendation.scores rec)
                == aligned_score 60 /\
              final_of rec
                == filtered_final 60 (StockRecommendation.scores rec))
           recs.
Proof.
  eexists. split; [reflexivity|].
  apply (filtered_ranking_alignment scenario "Moderate" 60 2);
    [discriminate | discriminate | reflexivity].
Defined.

Lemma filter_twice {A} (f g : A -> bool) (l : list A) :
  filter g (filter f l) = filter (fun x => f x && g x) l.
Proof.
  induction l as [|x l IH]; [reflexivity|]. cbn [filter].
  destruct (f x); cbn [filter andb]; [|exact IH].
  destruct (g x); now rewrite IH.
Qed.

Lemma filter_none {A} (f : A -> bool) (l : list A) :
  (forall x, f x = false) -> filter f l = [].
Proof.
  intros Hf. induction l as [|x l IH]; [reflexivity|].
  cbn [filter]. now rewrite Hf.
Qed.

(** Property X15 (the filter is idempotent and the bands are disjoint).
    Filtering twice for the same risk level changes nothing more;
    filtering for two different recognized levels leaves no candidate;
    and the filter only removes candidates. *)
Theorem filter_by_risk_band_idempotent
    (stocks : list Stock.t) (level level' : string) :
  RecommendationEngine.filter_by_risk_band
    (RecommendationEngine.filter_by_risk_band stocks level) level
  = RecommendationEngine.filter_by_risk_band stocks level /\
  (recognized level -> recognized level' -> level <> level' ->
   RecommendationEngine.filter_by_risk_band
     (RecommendationEngine.filter_by_risk_band stocks level) level' = []) /\
  (List.length (RecommendationEngine.filter_by_risk_band stocks level)
   <= List.length stocks)%nat /\
  incl (RecommendationEngine.filter_by_risk_band stocks level) stocks.
Proof.
  rewrite !filter_by_risk_band_within.
  split; [|split; [|split]].
  - rewrite filter_twice. apply filter_ext. intros stock.
    now destruct (within _ _ _).
  - intros Hl Hl' Hne. rewrite filter_twice.
    apply filter_none. intros stock.
    destruct (within _ _ (risk_of stock)) eqn:E1; [|reflexivity].
    destruct (within (fst (Py.get (Py.lookup _ level') _)) _ _) eqn:E2;
      [|reflexivity].
    exfalso. apply within_true in E1, E2.
    destruct Hl as [-> | [-> | ->]], Hl' as [-> | [-> | ->]];
      try congruence; cbn in E1, E2; lra.
  - apply filter_length_le.
  - apply incl_filter.
Qed.

Lemma filter_by_risk_band_idempotent_witness :
  RecommendationEngine.filter_by_risk_band
    (RecommendationEngine.filter_by_risk_band
       [candidate "AAPL" 55 85 75; candidate "XOM" 70 60 50] "Moderate")
    "Aggressive" = [].
Proof.
  apply (filter_by_risk_band_idempotent
           [candidate "AAPL" 55 85 75; candidate "XOM" 70 60 50]
           "Moderate" "Aggressive").
  - right. left. reflexivity.
  - right. right. reflexivity.
  - discriminate.
Defined.

(** Property X16 (a candidate without ticker fails the whole ranking).
    If any candidate lacks the key ["ticker"], [rank_recommendations]
    raises [KeyError("ticker")] whatever [top_n] is, even when that
    candidate would not have been among those returned; the filter, which
    never reads the ticker, does not remove such a candidate for that
    reason. *)
Theorem rank_recommendations_missing_ticker
    (stocks : list Stock.t) (level : string) (tolerance : Q) (top_n : Z) :
  Exists lacks_ticker stocks ->
  RecommendationEngine.rank_recommendations stocks level tolerance top_n
    = KeyError "ticker" /\
  (Exists (fun stock => lacks_ticker stock /\ in_band level (risk_of stock))
          stocks ->
   RecommendationEngine.rank_recommendations
     (RecommendationEngine.filter_by_risk_band stocks level)
     level tolerance top_n = KeyError "ticker").
Proof.
  intros Hex. rewrite !rank_recommendations_unfold.
  rewrite (build_each_keyerror level tolerance stocks Hex).
  split; [reflexivity|].
  intros Hin. rewrite build_each_keyerror; [reflexivity|].
  apply Exists_exists in Hin. destruct Hin as (stock & Hstock & Hno & Hband).
  apply Exists_exists. exists stock. split; [|exact Hno].
  apply filter_by_risk_band_In. auto.
Qed.

Lemma rank_recommendations_missing_ticker_witness :
  RecommendationEngine.rank_recommendations
    [candidate "AAPL" 55 85 75;
     Stock.mk None (Some "Energy"%string) (Some 10) (Some 5) (Some 5)]
    "Moderate" 60 1
  = KeyError "ticker".
Proof.
  apply (rank_recommendations_missing_ticker
           [candidate "AAPL" 55 85 75;
            Stock.mk None (Some "Energy"%string) (Some 10) (Some 5) (Some 5)]
           "Moderate" 60 1).
  right. left. reflexivity.
Defined.

(** Property X17 (how many recommendations are returned).  When every
    candidate carries a ticker the call returns; for a non-negative
    [top_n] it returns min(top_n, number of candidates) recommendations,
    and for a negative [top_n] all but the last [-top_n] of the ranking
    (none when there are not that many). *)
Theorem rank_recommendations_length
    (stocks : list Stock.t) (level : string) (tolerance : Q) (top_n : Z) :
  Forall has_ticker stocks ->
  exists recs,
    RecommendationEngine.rank_recommendations stocks level tolerance top_n
      = Return recs /\
    ((0 <= top_n)%Z ->
     List.length recs = Nat.min (Z.to_nat top_n) (List.length stocks)) /\
    ((top_n < 0)%Z ->
     List.length recs = (List.length stocks - Z.to_nat (- top_n))%nat).
Proof.
  intros Htickers.
  destruct (build_each_total level tolerance stocks Htickers)
    as [built Hbuilt].
  rewrite rank_recommendations_unfold, Hbuilt. cbn [bind].
  eexists. split; [reflexivity|].
  rewrite ranked_from_length.
  assert (Hlen : List.length (Py.sorted_desc final_of built)
                 = List.length stocks).
  { rewrite <- (Permutation_length (sorted_desc_perm final_of built)).
    apply build_each_Forall2 in Hbuilt.
    symmetry. exact (Forall2_length Hbuilt). }
  destruct (slice_to_length (Py.sorted_desc final_of built) top_n)
    as [Hpos Hneg].
  rewrite Hlen in Hpos, Hneg. auto.
Qed.

Lemma rank_recommendations_length_witness :
  exists recs,
    RecommendationEngine.rank_recommendations scenario "Moderate" 60 (-1)
      = Return recs /\
    List.length recs = 2%nat.
Proof.
  destruct (rank_recommendations_length scenario "Moderate" 60 (-1))
    as (recs & Hrecs & _ & Hnegative).
  { repeat constructor; discriminate. }
  exists recs. split; [exact Hrecs|]. apply Hnegative. reflexivity.
Defined.

(** Property X18 (the returned recommendations are the best ones).  The
    recommendations built for the candidates split into those returned
    and those discarded; the returned ones are in descending order of
    final score and no discarded one has a higher final score than a
    returned one. *)
Theorem rank_recommendations_keeps_best
    (stocks : list Stock.t) (level : string) (tolerance : Q) (top_n : Z) :
  Forall has_ticker stocks ->
  exists built kept dropped,
    build_each level tolerance stocks = Return built /\
    Permutation built (kept ++ dropped) /\
    RecommendationEngine.rank_recommendations stocks level tolerance top_n
      = Return (ranked_from 1 kept) /\
    descending final_of kept /\
    Forall (fun d => Forall (fun k => final_of d <= final_of k) kept) dropped.
Proof.
  intros Htickers.
  destruct (build_each_total level tolerance stocks Htickers)
    as [built Hbuilt].
  destruct (slice_to_firstn (Py.sorted_desc final_of built) top_n) as [k Hk].
  exists built, (firstn k (Py.sorted_desc final_of built)),
    (skipn k (Py.sorted_desc final_of built)).
  split; [exact Hbuilt|].
  split; [rewrite firstn_skipn; apply sorted_desc_perm|].
  split; [rewrite rank_recommendations_unfold, Hbuilt, <- Hk; reflexivity|].
  apply descending_app. rewrite firstn_skipn.
  apply sorted_desc_descending.
Qed.

Lemma rank_recommendations_keeps_best_witness :
  exists built kept dropped,
    build_each "Moderate" 60 scenario = Return built /\
    Permutation built (kept ++ dropped) /\
    RecommendationEngine.rank_recommendations scenario "Moderate" 60 2
      = Return (ranked_from 1 kept) /\
    descending final_of kept /\
    Forall (fun d => Forall (fun k => final_of d <= final_of k) kept) dropped.
Proof.
  apply (rank_recommendations_keeps_best scenario "Moderate" 60 2).
  repeat constructor; discriminate.
Defined.

(** Property X19 (a shorter ranking is a prefix of a longer one).  For
    0 <= k <= n, ranking with [top_n = k] gives the first [k]
    recommendations of ranking with [top_n = n], with the same ranks, and
    raises when the longer ranking raises. *)
Theorem rank_recommendations_prefix
    (stocks : list Stock.t) (level : string) (tolerance : Q) (k n : Z) :
  (0 <= k)%Z -> (k <= n)%Z ->
  RecommendationEngine.rank_recommendations stocks level tolerance k
  = (recs <- RecommendationEngine.rank_recommendations stocks level
               tolerance n ;;
     Return (firstn (Z.to_nat k) recs)).
Proof.
  intros Hk Hkn. rewrite !rank_recommendations_unfold.
  destruct (build_each level tolerance stocks) as [built|key];
    cbn [bind]; [|reflexivity].
  f_equal. unfold Py.slice_to.
  destruct (Z.leb_spec 0 k); [|lia]. destruct (Z.leb_spec 0 n); [|lia].
  rewrite ranked_from_firstn, firstn_firstn.
  replace (Nat.min (Z.to_nat k) (Z.to_nat n)) with (Z.to_nat k) by lia.
  reflexivity.
Qed.

Lemma rank_recommendations_prefix_witness :
  RecommendationEngine.rank_recommendations scenario "Moderate" 60 1
  = (recs <- RecommendationEngine.rank_recommendations scenario "Moderate"
               60 3 ;;
     Return (firstn (Z.to_nat 1) recs)).
Proof.
  apply rank_recommendations_prefix; discriminate.
Defined.

Lemma lookup_outside {V} (keys : list string) (table : list (string * V))
    (key : string) :
  forallb (fun kv => existsb (String.eqb (fst kv)) keys) table = true ->
  ~ In key keys -> Py.lookup table key = None.
Proof.
  intros Hkeys Hout. induction table as [|[k v] table IH]; [reflexivity|].
  cbn [forallb fst] in Hkeys. apply andb_true_iff in Hkeys.
  destruct Hkeys as [Hk Hrest]. cbn [Py.lookup].
  destruct (String.eqb_spec k key) as [-> | _]; [|now apply IH].
  exfalso. apply Hout. apply existsb_exists in Hk.
  destruct Hk as (k' & Hin & Heq). apply String.eqb_eq in Heq. now subst.
Qed.

(** Property X20 (market regimes).  A regime other than "bull" and "bear"
    is read as neutral and gives 50 for every sector; a sector outside
    the ten listed ones gives 50 under every regime; and every macro-fit
    score lies between 35 and 80. *)
Theorem macro_fit_regimes (sector regime : string) :
  (regime <> "bull"%string -> regime <> "bear"%string ->
   RecommendationEngine.calculate_macro_fit_score sector regime = 50) /\
  (~ In sector RecommendationEngine.neutral_sectors ->
   RecommendationEngine.calculate_macro_fit_score sector regime = 50) /\
  35 <= RecommendationEngine.calculate_macro_fit_score sector regime /\
  RecommendationEngine.calculate_macro_fit_score sector regime <= 80.
Proof.
  unfold RecommendationEngine.calculate_macro_fit_score.
  change (Py.get (Py.lookup RecommendationEngine.sector_scores "neutral") [])
    with (map (fun s : string => (s, 50))
              RecommendationEngine.neutral_sectors).
  unfold RecommendationEngine.sector_scores. cbn [Py.lookup].
  split; [|split].
  - intros Hbull Hbear.
    destruct (String.eqb_spec "bull" regime); [congruence|].
    destruct (String.eqb_spec "bear" regime); [congruence|].
    destruct (String.eqb "neutral" regime); cbn [Py.get];
      (apply (lookup_get_ind (fun v => v = 50)); [|reflexivity]);
      repeat constructor.
  - intros Hout.
    repeat match goal with
    | |- context [String.eqb ?k regime] => destruct (String.eqb k regime)
    end; cbn [Py.get];
      rewrite (lookup_outside RecommendationEngine.neutral_sectors)
        by (reflexivity || exact Hout);
      reflexivity.
  - repeat match goal with
    | |- context [String.eqb ?k regime] => destruct (String.eqb k regime)
    end; cbn [Py.get];
      (apply (lookup_get_ind (fun v => 35 <= v /\ v <= 80));
       [repeat constructor; cbn; lra | split; lra]).
Qed.

Lemma macro_fit_regimes_witness :
  RecommendationEngine.calculate_macro_fit_score "Technology" "sideways" = 50.
Proof.
  apply (proj1 (macro_fit_regimes "Technology" "sideways"));
    intros H; discriminate H.
Defined.

(** Property X21 (final scores of a ranking stay within 5 and 95).
    Because the macro-fit term is always the neutral 50, a recommendation
    returned for a candidate whose research and signal scores are on the
    0-100 scale has a final score of at least 5 and at most 95. *)
Theorem ranked_final_score_bounds
    (stocks : list Stock.t) (level : string) (tolerance : Q) (top_n : Z)
    (recs : list StockRecommendation.t) :
  Forall scored_on_scale stocks ->
  RecommendationEngine.rank_recommendations stocks level tolerance top_n
    = Return recs ->
  Forall (fun rec => 5 <= final_of rec /\ final_of rec <= 95) recs.
Proof.
  intros Hscale Hrank. apply Forall_forall. intros rec Hin.
  destruct (rank_recommendations_members _ _ _ _ _ _ Hrank Hin)
    as (stock & rec0 & j & Hstock & Hbuild & ->).
  change (final_of (StockRecommendation.set_rank rec0 j)) with (final_of rec0).
  destruct (build_recommendation_scores _ _ _ _ Hbuild)
    as (_ & _ & _ & _ & _ & ->).
  rewrite Forall_forall in Hscale.
  destruct (Hscale stock Hstock) as [[Hr0 Hr1] [Hs0 Hs1]].
  destruct (risk_alignment_score_in_range (risk_of stock) level tolerance)
    as [Ha0 Ha1].
  rewrite macro_fit_default.
  unfold RecommendationEngine.calculate_final_score,
    RecommendationEngine.WEIGHTS_research, RecommendationEngine.WEIGHTS_signal,
    RecommendationEngine.WEIGHTS_risk_alignment,
    RecommendationEngine.WEIGHTS_macro_fit.
  set (a := RecommendationEngine.calculate_risk_alignment_score _ _ _) in *.
  py_minmax; lra.
Qed.

Lemma ranked_final_score_bounds_witness :
  exists recs,
    RecommendationEngine.rank_recommendations scenario "Moderate" 100 3
      = Return recs /\
    Forall (fun rec => 5 <= final_of rec /\ final_of rec <= 95) recs.
Proof.
  eexists. split; [reflexivity|].
  apply (ranked_final_score_bounds scenario "Moderate" 100 3);
    [|reflexivity].
  repeat constructor; discriminate.
Defined.

(** Property X22 (the research score is monotone).  Raising the
    confidence, the data completeness or the analysis depth never lowers
    the research score. *)
Theorem research_score_monotone
    (confidence completeness depth confidence' completeness' depth' : Q) :
  confidence <= confidence' -> completeness <= completeness' ->
  depth <= depth' ->
  ResearchEngine.calculate_research_score confidence completeness depth
    <= ResearchEngine.calculate_research_score confidence' completeness'
         depth'.
Proof.
  unfold ResearchEngine.calculate_research_score.
  intros Hc Hd Ha. apply py_clamp_monotone. lra.
Qed.

Lemma research_score_monotone_witness :
  ResearchEngine.calculate_research_score 85 70 90
    <= ResearchEngine.calculate_research_score 85 80 90.
Proof.
  apply research_score_monotone; discriminate.
Defined.

(** ** SEC provider *)

Section StringOrder.

Lemma str_ltb_lt (a b : string) :
  String.ltb a b = true <-> OrderedTypeEx.String_as_OT.lt a b.
Proof.
  rewrite <- OrderedTypeEx.String_as_OT.cmp_lt. unfold String.ltb, OrderedTypeEx.String_as_OT.cmp.
  destruct (String.compare a b); split; congruence.
Qed.

Lemma str_le_refl (a : string) : str_le a a.
Proof.
  unfold str_le. destruct (String.ltb a a) eqn:E; [|reflexivity].
  apply str_ltb_lt in E. exfalso.
  exact (OrderedTypeEx.String_as_OT.lt_not_eq _ _ E eq_refl).
Qed.

Lemma str_lt_le (a b : string) : String.ltb a b = true -> str_le a b.
Proof.
  intros Hab. unfold str_le. destruct (String.ltb b a) eqn:E; [|reflexivity].
  apply str_ltb_lt in Hab, E. exfalso.
  exact (OrderedTypeEx.String_as_OT.lt_not_eq _ _
           (OrderedTypeEx.String_as_OT.lt_trans _ _ _ Hab E) eq_refl).
Qed.

Lemma str_le_trans (a b c : string) : str_le a b -> str_le b c -> str_le a c.
Proof.
  unfold str_le. intros Hab Hbc.
  destruct (String.ltb c a) eqn:Hca; [|reflexivity]. exfalso.
  apply str_ltb_lt in Hca.
  destruct (OrderedTypeEx.String_as_OT.compare a b) as [Hlt | Heq | Hgt].
  - pose proof (OrderedTypeEx.String_as_OT.lt_trans _ _ _ Hca Hlt) as Hcb.
    apply str_ltb_lt in Hcb. congruence.
  - red in Heq. subst b. apply str_ltb_lt in Hca. congruence.
  - apply str_ltb_lt in Hgt. congruence.
Qed.

End StringOrder.

Section SortedAsc.
Context {A : Type} (key : A -> string).

Lemma insert_asc_perm (x : A) (l : list A) :
  Permutation (x :: l) (SEC.insert_asc key x l).
Proof.
  induction l as [|y l IH]; cbn; [reflexivity|].
  destruct (String.ltb (key y) (key x)); [|reflexivity].
  rewrite perm_swap. now constructor.
Qed.

Lemma sorted_asc_perm (l : list A) : Permutation l (SEC.sorted_asc key l).
Proof.
  induction l as [|x l IH]; cbn; [constructor|].
  rewrite <- insert_asc_perm. now constructor.
Qed.

Lemma insert_asc_ascending (x : A) (l : list A) :
  ascending key l -> ascending key (SEC.insert_asc key x l).
Proof.
  unfold ascending. induction 1 as [|y l Hl IH Hy]; cbn.
  - repeat constructor.
  - destruct (String.ltb (key y) (key x)) eqn:E.
    + constructor; [exact IH|].
      apply (Permutation_Forall (insert_asc_perm x l)).
      constructor; [now apply str_lt_le | exact Hy].
    + constructor; [now constructor|].
      constructor; [exact E|].
      eapply Forall_impl; [|exact Hy]. cbn. intros z Hz.
      eapply str_le_trans; [exact E | exact Hz].
Qed.

Lemma sorted_asc_ascending (l : list A) : ascending key (SEC.sorted_asc key l).
Proof.
  induction l as [|x l IH]; cbn; [constructor|].
  now apply insert_asc_ascending.
Qed.

Lemma insert_asc_with_key (k : string) (x : A) (l : list A) :
  with_str_key key k (SEC.insert_asc key x l) = with_str_key key k (x :: l).
Proof.
  unfold with_str_key. induction l as [|y l IH]; [reflexivity|].
  cbn [SEC.insert_asc]. destruct (String.ltb (key y) (key x)) eqn:E;
    [|reflexivity].
  cbn [filter] in *. rewrite IH.
  destruct (String.eqb_spec (key x) k) as [Hx|]; [|reflexivity].
  destruct (String.eqb_spec (key y) k) as [Hy|]; [|reflexivity].
  rewrite Hx, Hy in E. pose proof (str_le_refl k) as Hrefl.
  unfold str_le in Hrefl. congruence.
Qed.

Lemma sorted_asc_with_key (k : string) (l : list A) :
  with_str_key key k (SEC.sorted_asc key l) = with_str_key key k l.
Proof.
  induction l as [|x l IH]; [reflexivity|].
  cbn [SEC.sorted_asc fold_right]. rewrite insert_asc_with_key.
  unfold with_str_key in *. cbn [filter]. fold (SEC.sorted_asc key l).
  now rewrite IH.
Qed.

Lemma last_cons (l : list A) (x y : A) : last (y :: l) x = last l y.
Proof.
  revert x y. induction l as [|z l IH]; intros x y; [reflexivity|].
  change (last (y :: z :: l) x) with (last (z :: l) x).
  now rewrite !IH.
Qed.

Lemma ascending_last (l : list A) (f : A) :
  ascending key l -> SEC.last_item l = Some f ->
  In f l /\ Forall (fun g => str_le (key g) (key f)) l.
Proof.
  unfold ascending, SEC.last_item. destruct l as [|x l]; [discriminate|].
  intros Hsorted [= <-]. revert x Hsorted.
  induction l as [|y l IH]; intros x Hsorted.
  - cbn. split; [now left|]. repeat constructor. apply str_le_refl.
  - inversion Hsorted as [|? ? Htail Hhead]; subst.
    destruct (IH y Htail) as [Hin Hall].
    rewrite last_cons.
    split; [now right|]. constructor; [|exact Hall].
    rewrite Forall_forall in Hhead. now apply Hhead.
Qed.
End SortedAsc.

Section Collect.
Import SEC.

Lemma period_data_id (v : Fact) : period_data v = v.
Proof. now destruct v. Qed.

Lemma append_values (all_data values : list Fact) :
  fold_left (fun all_data v => all_data ++ [period_data v]) values all_data
  = all_data ++ values.
Proof.
  revert all_data. induction values as [|v values IH]; intros all_data;
    cbn [fold_left]; [now rewrite app_nil_r|].
  now rewrite IH, period_data_id, <- app_assoc.
Qed.

Lemma append_units_flat (all_data : list Fact) (us : dict (list Fact)) :
  append_units all_data us = all_data ++ flat_map (fun unit => snd unit) us.
Proof.
  unfold append_units. revert all_data.
  induction us as [|u us IH]; intros all_data; cbn [fold_left flat_map];
    [now rewrite app_nil_r|].
  now rewrite IH, append_values, <- app_assoc.
Qed.

Lemma collect_from (concepts : dict Concept) (tags : list string)
    (all_data : list Fact) :
  fold_left
    (fun all_data tag =>
       match Py.lookup concepts tag with
       | Some concept => append_units all_data (Py.get (units concept) [])
       | None => all_data
       end)
    tags all_data
  = all_data ++ reported concepts tags.
Proof.
  unfold reported. revert all_data.
  induction tags as [|tag tags IH]; intros all_data; cbn [fold_left flat_map];
    [now rewrite app_nil_r|].
  rewrite IH. destruct (Py.lookup concepts tag) as [concept|].
  - now rewrite append_units_flat, <- app_assoc.
  - reflexivity.
Qed.

Lemma collect_reported (concepts : dict Concept) (tags : list string) :
  collect concepts tags = reported concepts tags.
Proof. unfold collect. now rewrite collect_from. Qed.

Lemma extract_metrics_unfold (data : Data) (f : Facts) :
  facts data = Some f ->
  extract_metrics data
  = map (fun mapping =>
           (fst mapping, _normalize_values (concepts_of f) (snd mapping)))
        TAG_MAPPINGS.
Proof. unfold extract_metrics. now intros ->. Qed.

Lemma latest_step (latest : dict (option Q)) (name : string)
    (values : list Fact) :
  match last_item values with
  | Some v => setitem latest name (val v)
  | None => setitem latest name None
  end
  = setitem latest name
      (match last_item values with Some v => val v | None => None end).
Proof. now destruct (last_item values). Qed.

Lemma get_latest_metrics_extract (data : Data) (f : Facts) :
  facts data = Some f ->
  get_latest_metrics (extract_metrics data)
  = map (fun mapping =>
           (fst mapping,
            match last_item (_normalize_values (concepts_of f) (snd mapping))
            with
            | Some v => val v
            | None => None
            end))
        TAG_MAPPINGS.
Proof.
  intros Hf. rewrite (extract_metrics_unfold data f Hf).
  unfold get_latest_metrics, TAG_MAPPINGS. cbn [map fold_left fst snd].
  now rewrite !latest_step.
Qed.
End Collect.

Lemma normalize_last (concepts : SEC.dict SEC.Concept) (tags : list string) :
  (reported concepts tags = [] ->
   SEC.last_item (SEC._normalize_values concepts tags) = None) /\
  (reported concepts tags <> [] ->
   exists latest,
     SEC.last_item (SEC._normalize_values concepts tags) = Some latest /\
     In latest (reported concepts tags) /\
     Forall (fun g => str_le (SEC.end_key g) (SEC.end_key latest))
            (reported concepts tags)).
Proof.
  unfold SEC._normalize_values. rewrite collect_reported.
  pose proof (sorted_asc_perm SEC.end_key (reported concepts tags)) as Hperm.
  pose proof (sorted_asc_ascending SEC.end_key (reported concepts tags))
    as Hsorted.
  split.
  - intros Hnone. now rewrite Hnone.
  - intros Hsome.
    destruct (SEC.sorted_asc SEC.end_key (reported concepts tags))
      as [|x sorted] eqn:E.
    + apply Permutation_sym, Permutation_nil in Hperm. contradiction.
    + assert (Hlast : SEC.last_item (x :: sorted) = Some (last sorted x))
        by reflexivity.
      destruct (ascending_last SEC.end_key _ _ Hsorted Hlast) as [Hin Hall].
      exists (last sorted x). split; [reflexivity|].
      split.
      * eapply Permutation_in; [apply Permutation_sym; exact Hperm | exact Hin].
      * eapply Permutation_Forall; [apply Permutation_sym; exact Hperm|].
        exact Hall.
Qed.

(** Property X23 (normalized values are sorted by end date).  For any
    concepts and tags, [_normalize_values] returns exactly the values
    reported for those tags, in ascending order of their end date (a
    missing end date first), values with the same end date in the order
    they were reported. *)
Theorem normalize_values_sorted
    (concepts : SEC.dict SEC.Concept) (tags : list string) :
  Permutation (reported concepts tags) (SEC._normalize_values concepts tags) /\
  ascending SEC.end_key (SEC._normalize_values concepts tags) /\
  forall k,
    with_str_key SEC.end_key k (SEC._normalize_values concepts tags)
    = with_str_key SEC.end_key k (reported concepts tags).
Proof.
  unfold SEC._normalize_values. rewrite collect_reported.
  split; [apply sorted_asc_perm|].
  split; [apply sorted_asc_ascending | intros k; apply sorted_asc_with_key].
Qed.

(** Property X24 (the latest metric is the one with the latest end date).
    For each metric of [TAG_MAPPINGS], [get_latest_metrics] applied to
    [extract_metrics] gives [None] when the response reports no value for
    the metric's tags, and otherwise the [val] of a reported value whose
    end date is not before that of any other reported value. *)
Theorem latest_metric_is_latest
    (data : SEC.Data) (f : SEC.Facts) (name : string) (tags : list string) :
  SEC.facts data = Some f ->
  In (name, tags) SEC.TAG_MAPPINGS ->
  (reported (concepts_of f) tags = [] ->
   Py.lookup (SEC.get_latest_metrics (SEC.extract_metrics data)) name
     = Some None) /\
  (reported (concepts_of f) tags <> [] ->
   exists latest,
     In latest (reported (concepts_of f) tags) /\
     Forall (fun g => str_le (SEC.end_key g) (SEC.end_key latest))
            (reported (concepts_of f) tags) /\
     Py.lookup (SEC.get_latest_metrics (SEC.extract_metrics data)) name
       = Some (SEC.val latest)).
Proof.
  intros Hf Hin. rewrite (get_latest_metrics_extract data f Hf).
  destruct (normalize_last (concepts_of f) tags) as [Hnone Hsome].
  assert (Hlookup :
    Py.lookup
      (map (fun mapping =>
              (fst mapping,
               match SEC.last_item
                       (SEC._normalize_values (concepts_of f) (snd mapping))
               with
               | Some v => SEC.val v
               | None => None
               end))
           SEC.TAG_MAPPINGS) name
    = Some match SEC.last_item (SEC._normalize_values (concepts_of f) tags)
           with
           | Some v => SEC.val v
           | None => None
           end).
  { unfold SEC.TAG_MAPPINGS in Hin |- *. cbn [In] in Hin.
    repeat destruct Hin as [Hin | Hin]; try contradiction;
      injection Hin as <- <-; reflexivity. }
  rewrite Hlookup. split.
  - intros Hempty. now rewrite (Hnone Hempty).
  - intros Hreported.
    destruct (Hsome Hreported) as (latest & Hlast & Hlatest & Hall).
    exists latest. rewrite Hlast. auto.
Qed.

Lemma latest_metric_is_latest_witness :
  exists latest,
    In latest [sample_fact "2023-09-30" 200; sample_fact "2022-09-30" 100] /\
    Py.lookup (SEC.get_latest_metrics (SEC.extract_metrics sample_data))
      "revenue" = Some (SEC.val latest).
Proof.
  destruct (latest_metric_is_latest sample_data
              (SEC.mkFacts
                 (Some [ ("Revenues"%string,
                          SEC.mkConcept
                            (Some [ ("USD"%string,
                                     [ sample_fact "2023-09-30" 200;
                                       sample_fact "2022-09-30" 100 ]) ])) ])
                 None)
              "revenue"
              [ "RevenueFromContractWithCustomerExcludingAssessedTax";
                "Revenues"; "SalesRevenueNet";
                "TotalRevenuesAndOtherIncome" ]%string)
    as [_ Hsome]; [reflexivity | left; reflexivity |].
  destruct Hsome as (latest & Hin & _ & Hlookup); [discriminate|].
  exists latest. split; [exact Hin | exact Hlookup].
Defined.

(** Property X25 (the metrics reported).  Without a ["facts"] key
    [extract_metrics] and the latest metrics derived from it are empty;
    with one, both have exactly the six metrics of [TAG_MAPPINGS], in
    that order, whatever the response contains. *)
Theorem sec_metric_names (data : SEC.Data) :
  (SEC.facts data = None ->
   SEC.extract_metrics data = [] /\
   SEC.get_latest_metrics (SEC.extract_metrics data) = []) /\
  (SEC.facts data <> None ->
   map fst (SEC.extract_metrics data) = metric_names /\
   map fst (SEC.get_latest_metrics (SEC.extract_metrics data))
     = metric_names).
Proof.
  split.
  - intros Hnone. unfold SEC.extract_metrics. now rewrite Hnone.
  - intros Hsome. destruct (SEC.facts data) as [f|] eqn:Hf; [|congruence].
    rewrite (get_latest_metrics_extract data f Hf),
      (extract_metrics_unfold data f Hf).
    split; reflexivity.
Qed.

Lemma sec_metric_names_witness :
  map fst (SEC.extract_metrics sample_data) = metric_names /\
  map fst (SEC.get_latest_metrics (SEC.extract_metrics sample_data))
    = metric_names.
Proof.
  apply (proj2 (sec_metric_names sample_data)). discriminate.
Defined.

(** ** Yahoo provider: the retry loop *)

Section Retry.
Context {DataFrame Error : Type}.
Variable empty : DataFrame -> bool.
Variable new_frame : DataFrame.
Variable with_required_columns : DataFrame -> DataFrame.
Variable history :
  string -> option string -> option string -> string -> nat
  -> @Yahoo.Attempt DataFrame Error.
Variables (max_retries : Z) (backoff_factor : Q) (ticker : string)
  (start_date end_date : option string) (interval : string).

Local Abbreviation attempt := (history ticker start_date end_date interval).
Local Abbreviation loop :=
  (Yahoo.retry_loop empty new_frame with_required_columns history
     max_retries backoff_factor ticker start_date end_date interval).
Local Abbreviation protocol :=
  (retry_protocol empty new_frame with_required_columns attempt max_retries
     backoff_factor).
Local Abbreviation get_historical_data :=
  (Yahoo.get_historical_data empty new_frame with_required_columns history
     max_retries backoff_factor ticker start_date end_date interval).

Lemma backoff_waits_S (n : nat) :
  backoff_waits backoff_factor n
    ++ [Qpower backoff_factor (Z.of_nat n + 1)]
  = backoff_waits backoff_factor (S n).
Proof.
  unfold backoff_waits. rewrite seq_S, map_app. cbn [map]. repeat f_equal.
  lia.
Qed.

Lemma retry_loop_protocol (fuel c : nat) :
  (Z.to_nat (max_retries + 1 - Z.of_nat c) <= fuel)%nat ->
  c = O \/ (Z.of_nat c <= max_retries)%Z ->
  (forall i, (i < c)%nat -> exists e, attempt i = Yahoo.Raises e) ->
  exists run,
    loop fuel (Z.of_nat c) c (backoff_waits backoff_factor c) = Some run /\
    protocol run.
Proof.
  revert c. induction fuel as [|fuel IH]; intros c Hfuel Hc Hfailed;
    cbn [Yahoo.retry_loop];
    destruct (Z.leb_spec (Z.of_nat c) max_retries) as [Hle | Hgt].
  - lia.
  - assert (c = O) by lia. subst c. eexists. split; [reflexivity|].
    unfold retry_protocol. cbn [Yahoo.calls Yahoo.sleeps Yahoo.outcome].
    repeat split; intros; try lia; try discriminate; reflexivity.
  - destruct (attempt c) as [e | df] eqn:Hattempt.
    + destruct (Z.ltb_spec max_retries (Z.of_nat c + 1)) as [Hlast | Hmore].
      * eexists. split; [reflexivity|].
        unfold retry_protocol. cbn [Yahoo.calls Yahoo.sleeps Yahoo.outcome].
        rewrite Nat.sub_1_r. cbn [Nat.pred].
        repeat split; try lia; try discriminate.
        -- intros i Hi. apply Hfailed. lia.
        -- intros last [= <-]. rewrite Hattempt. split; [reflexivity | lia].
      * rewrite backoff_waits_S.
        replace (Z.of_nat c + 1)%Z with (Z.of_nat (S c)) by lia.
        apply IH; [lia | right; lia |].
        intros i Hi. destruct (Nat.eq_dec i c) as [-> | Hne];
          [eauto | apply Hfailed; lia].
    + destruct (empty df) eqn:Hempty;
        (eexists; split; [reflexivity|]);
        unfold retry_protocol; cbn [Yahoo.calls Yahoo.sleeps Yahoo.outcome];
        rewrite Nat.sub_1_r; cbn [Nat.pred];
        (repeat split; try lia; try discriminate;
         [ intros i Hi; apply Hfailed; lia
         | intros last [= <-]; rewrite Hattempt; unfold delivered;
           now rewrite Hempty ]).
  - assert (c = O) by lia. subst c. eexists. split; [reflexivity|].
    unfold retry_protocol. cbn [Yahoo.calls Yahoo.sleeps Yahoo.outcome].
    repeat split; intros; try lia; try discriminate; reflexivity.
Qed.

Lemma get_historical_data_protocol :
  exists run, get_historical_data = Some run /\ protocol run.
Proof.
  unfold Yahoo.get_historical_data.
  apply (retry_loop_protocol _ O); [cbn; lia | now left |].
  intros i Hi. lia.
Qed.

Lemma get_historical_data_first_success (k : nat) (df : DataFrame) :
  (Z.of_nat k <= max_retries)%Z ->
  (forall i, (i < k)%nat -> exists e, attempt i = Yahoo.Raises e) ->
  attempt k = Yahoo.Gives df ->
  get_historical_data
  = Some (Yahoo.mkRun
            (Yahoo.Returned
               (delivered empty new_frame with_required_columns df))
            (S k) (backoff_waits backoff_factor k)).
Proof.
  intros Hk Hfailed Hgives.
  destruct get_historical_data_protocol
    as ([outcome calls sleeps] & -> & Hcalls & Hsleeps & Hraised & Hnone & Hlast).
  cbn [Yahoo.calls Yahoo.sleeps Yahoo.outcome] in *.
  destruct calls as [|last]; [destruct Hnone; [reflexivity | lia]|].
  specialize (Hlast last eq_refl).
  assert (last = k) as ->.
  { destruct (lt_eq_lt_dec last k) as [[Hlt | Heq] | Hgt]; [| exact Heq |].
    - destruct (Hfailed last Hlt) as [e He]. rewrite He in Hlast.
      destruct Hlast as [_ Hused]. lia.
    - destruct (Hraised k) as [e He]; [lia|]. congruence. }
  rewrite Hgives in Hlast. subst outcome sleeps.
  rewrite Nat.sub_1_r. reflexivity.
Qed.

Lemma get_historical_data_all_fail (e : Error) :
  (0 <= max_retries)%Z ->
  (forall i, (Z.of_nat i < max_retries)%Z ->
             exists e', attempt i = Yahoo.Raises e') ->
  attempt (Z.to_nat max_retries) = Yahoo.Raises e ->
  get_historical_data
  = Some (Yahoo.mkRun (Yahoo.Raised e) (S (Z.to_nat max_retries))
            (backoff_waits backoff_factor (Z.to_nat max_retries))).
Proof.
  intros Hpos Hfailed Hraises.
  destruct get_historical_data_protocol
    as ([outcome calls sleeps] & -> & Hcalls & Hsleeps & Hraised & Hnone & Hlast).
  cbn [Yahoo.calls Yahoo.sleeps Yahoo.outcome] in *.
  destruct calls as [|last]; [destruct Hnone; [reflexivity | lia]|].
  specialize (Hlast last eq_refl).
  assert (last = Z.to_nat max_retries) as ->.
  { destruct (lt_eq_lt_dec last (Z.to_nat max_retries))
      as [[Hlt | Heq] | Hgt]; [| exact Heq | lia].
    destruct (Hfailed last) as [e' He']; [lia|]. rewrite He' in Hlast.
    destruct Hlast as [_ Hused]. lia. }
  rewrite Hraises in Hlast. destruct Hlast as [-> _]. subst sleeps.
  rewrite Nat.sub_1_r. reflexivity.
Qed.

(** Property X26 (the retry loop).  Whatever the market-data service
    does, [get_historical_data] finishes, after at most
    [max_retries + 1] calls of it.  Every call but the last one raised;
    between two calls it sleeps [backoff_factor ** i] after the failure
    number [i]; the frame of the last call is delivered (a new empty
    frame for an empty one), or its exception is raised again when
    [max_retries + 1] calls have failed.  With a negative [max_retries]
    the service is not called and an empty frame is returned. *)
Theorem get_historical_data_retries :
  exists run, get_historical_data = Some run /\ protocol run.
Proof. exact get_historical_data_protocol. Qed.

(** Property X27 (what the retries deliver).  If the call number [k]
    (counted from 0, [k <= max_retries]) is the first one that succeeds,
    the provider delivers its frame after [k + 1] calls and [k] sleeps of
    [backoff_factor ** 1], ..., [backoff_factor ** k]; if all of the
    [max_retries + 1] calls fail, it raises the exception of the last
    one, after [max_retries] sleeps. *)
Theorem get_historical_data_outcomes :
  (forall k df,
     (Z.of_nat k <= max_retries)%Z ->
     (forall i, (i < k)%nat -> exists e, attempt i = Yahoo.Raises e) ->
     attempt k = Yahoo.Gives df ->
     get_historical_data
     = Some (Yahoo.mkRun
               (Yahoo.Returned
                  (delivered empty new_frame with_required_columns df))
               (S k) (backoff_waits backoff_factor k))) /\
  (forall e,
     (0 <= max_retries)%Z ->
     (forall i, (Z.of_nat i < max_retries)%Z ->
                exists e', attempt i = Yahoo.Raises e') ->
     attempt (Z.to_nat max_retries) = Yahoo.Raises e ->
     get_historical_data
     = Some (Yahoo.mkRun (Yahoo.Raised e) (S (Z.to_nat max_retries))
               (backoff_waits backoff_factor (Z.to_nat max_retries)))).
Proof.
  split.
  - exact get_historical_data_first_success.
  - exact get_historical_data_all_fail.
Qed.

End Retry.

Lemma get_historical_data_outcomes_witness :
  Yahoo.get_historical_data sample_empty [] (fun df => df) sample_history
    3 2.0 "AAPL" None None "1d"
  = Some (Yahoo.mkRun (Yahoo.Returned [102; 104; 101]) 2 [2.0 ^ 1]).
Proof.
  apply (proj1 (get_historical_data_outcomes sample_empty [] (fun df => df)
                  sample_history 3 2.0 "AAPL" None None "1d") 1%nat
           [102; 104; 101]).
  - lia.
  - intros i Hi. exists "timeout"%string.
    destruct i; [reflexivity | lia].
  - reflexivity.
Defined.
